(** * The declarative endpoint-dispatch engine of the SFCC MCP server

    A shallow embedding of
    - [utils/endpoint-loader.ts]        (module [EndpointLoader]),
    - [clients/data-api-client.ts]      (modules [DataAPIClient] and
                                         [Convenience]),
    - [core/handlers/data-api-handler.ts] (module [DataAPIToolHandler]),
    - [config/configuration-factory.ts] (module [ConfigurationFactory]),
    - the request handlers of [core/server.ts] (module [SFCCDevServer]),
    - the command line of [index.ts]    (module [CommandLine]),
    together with the part of the JavaScript run time these files rely on
    (module [Js]).

    Conventions of the embedding.
    - A JavaScript string is a Rocq [string] holding its UTF-8 bytes; on
      well-formed strings, searching and replacing bytes agrees with
      searching and replacing UTF-16 code units.
    - A number is an integer [Z] (counts, offsets, identifiers); the
      statements that print a number assume it is a safe integer, which
      [String] prints digit by digit.
    - A plain object used as a record or dictionary is an association list
      in the order [Object.entries] enumerates it, which [ownEntries]
      computes from the order of insertion.  A lookup finds the own
      properties only; the statements that depend on a lookup assume that
      the names looked up are no members of [Object.prototype].
    - The file of the endpoint loader is given by what reading and parsing
      it does: it cannot be read, it cannot be parsed, it is parsed and
      indexed to the end, or indexing it throws on the way.
    - The [Map] and the [Set] of the endpoint loader are a [gmap] and a
      [gset].
    - [throw] / [try] / [catch] are an explicit outcome type, and the
      effects of the client (transport calls, log lines) are threaded
      through a state monad. *)

From Stdlib Require Import ZArith Ascii String List Lia DecimalString.
From stdpp Require Import gmap strings list fin_maps.

Set Warnings "-register-all".
Local Open Scope Z_scope.

(* ===================================================================== *)
(** * JavaScript strings, values and objects *)
(* ===================================================================== *)

Module Js.

(** ** Strings *)

(** [s.startsWith(p)] *)
Fixpoint startsWith (p s : string) : bool :=
  match p, s with
  | EmptyString, _ => true
  | String a p', String b s' => if Ascii.eqb a b then startsWith p' s' else false
  | String _ _, EmptyString => false
  end.

(** Dropping the first [n] bytes. *)
Fixpoint drop (n : nat) (s : string) : string :=
  match n, s with
  | O, _ => s
  | S n', String _ s' => drop n' s'
  | S _, EmptyString => EmptyString
  end.

(** [s.includes(p)] *)
Fixpoint includes (s p : string) : bool :=
  if startsWith p s then true
  else match s with
       | EmptyString => false
       | String _ s' => includes s' p
       end.

(** [s.replace(p, r)] for a string pattern [p]: only the first occurrence
    is replaced.  The replacement is inserted as it is, which is what
    JavaScript does when [r] holds no dollar sign. *)
Fixpoint replace (s p r : string) : string :=
  if startsWith p s then r +:+ drop (String.length p) s
  else match s with
       | EmptyString => EmptyString
       | String c s' => String c (replace s' p r)
       end.

(** [xs.join(sep)] *)
Fixpoint join (sep : string) (xs : list string) : string :=
  match xs with
  | [] => ""
  | [x] => x
  | x :: rest => x +:+ sep +:+ join sep rest
  end.

(** [s.split(c)] for a one-byte separator. *)
Fixpoint split_go (c : ascii) (cur : string) (s : string) : list string :=
  match s with
  | EmptyString => [String.rev cur]
  | String a s' =>
      if Ascii.eqb a c then String.rev cur :: split_go c EmptyString s'
      else split_go c (String a cur) s'
  end.

Definition split (c : ascii) (s : string) : list string :=
  split_go c EmptyString s.

(** White space and line terminators of ECMAScript, as UTF-8 byte
    sequences: TAB LF VT FF CR SP, U+00A0, U+1680, U+2000..U+200A, U+2028,
    U+2029, U+202F, U+205F, U+3000, U+FEFF. *)
Definition ws1 (a : ascii) : bool :=
  let n := N_of_ascii a in
  ((9 <=? n) && (n <=? 13) || (n =? 32))%N.

Definition ws2 (a b : ascii) : bool :=
  ((N_of_ascii a =? 194) && (N_of_ascii b =? 160))%N.

Definition ws3 (a b c : ascii) : bool :=
  let x := N_of_ascii a in
  let y := N_of_ascii b in
  let z := N_of_ascii c in
  ((x =? 225) && (y =? 154) && (z =? 128)
   || (x =? 226) && (y =? 128)
      && ((128 <=? z) && (z <=? 138) || (z =? 168) || (z =? 169) || (z =? 175))
   || (x =? 226) && (y =? 129) && (z =? 159)
   || (x =? 227) && (y =? 128) && (z =? 128)
   || (x =? 239) && (y =? 187) && (z =? 191))%N.

(** [s.trimStart()] *)
Fixpoint trimStart (s : string) : string :=
  match s with
  | EmptyString => EmptyString
  | String a s1 =>
      if ws1 a then trimStart s1
      else match s1 with
           | EmptyString => s
           | String b s2 =>
               if ws2 a b then trimStart s2
               else match s2 with
                    | EmptyString => s
                    | String c s3 => if ws3 a b c then trimStart s3 else s
                    end
           end
  end.

(** The same on a reversed string, where the bytes of a sequence come in
    the opposite order. *)
Fixpoint trimStartRev (s : string) : string :=
  match s with
  | EmptyString => EmptyString
  | String a s1 =>
      if ws1 a then trimStartRev s1
      else match s1 with
           | EmptyString => s
           | String b s2 =>
               if ws2 b a then trimStartRev s2
               else match s2 with
                    | EmptyString => s
                    | String c s3 => if ws3 c b a then trimStartRev s3 else s
                    end
           end
  end.

(** [s.trim()] *)
Definition trim (s : string) : string :=
  String.rev (trimStartRev (String.rev (trimStart s))).

(** ** [encodeURIComponent] *)

(** The bytes left as they are: letters, digits and [- _ . ! ~ * ' ( )]. *)
Definition unreserved (a : ascii) : bool :=
  let n := N_of_ascii a in
  ((48 <=? n) && (n <=? 57) || (65 <=? n) && (n <=? 90)
   || (97 <=? n) && (n <=? 122)
   || (n =? 45) || (n =? 95) || (n =? 46) || (n =? 33) || (n =? 126)
   || (n =? 42) || (n =? 39) || (n =? 40) || (n =? 41))%N.

Definition hexDigit (n : N) : ascii :=
  (if n <? 10 then ascii_of_N (48 + n) else ascii_of_N (55 + n))%N.

Definition percentEncode (a : ascii) : string :=
  let n := N_of_ascii a in
  String "%" (String (hexDigit (n / 16)) (String (hexDigit (n mod 16)) EmptyString)).

Fixpoint encodeURIComponent (s : string) : string :=
  match s with
  | EmptyString => EmptyString
  | String a s' =>
      if unreserved a then String a (encodeURIComponent s')
      else percentEncode a +:+ encodeURIComponent s'
  end.

(** ** Values *)

Inductive Value : Type :=
  | Undefined
  | Null
  | Bool (b : bool)
  | Num (n : Z)
  | Str (s : string)
  | Arr (xs : list Value)
  | Obj (props : list (string * Value)).

(** An object: its own enumerable properties, in enumeration order. *)
Definition Object : Type := list (string * Value).

(** [v === undefined || v === null] *)
Definition nullish (v : Value) : bool :=
  match v with
  | Undefined | Null => true
  | _ => false
  end.

(** Truthiness, as tested by [if (v)], [!v] and [v ? a : b]. *)
Definition truthy (v : Value) : bool :=
  match v with
  | Undefined | Null => false
  | Bool b => b
  | Num n => negb (n =? 0)
  | Str s => negb (String.eqb s "")
  | Arr _ | Obj _ => true
  end.

(** The integers that a JavaScript number holds exactly and that
    [String] prints digit by digit: [Number.isSafeInteger]. *)
Definition safeInteger (n : Z) : bool :=
  Z.abs n <=? 9007199254740991.


(** [String(n)] for a safe integer [n].  Beyond the safe integers a
    number is rounded, and from [1e21] on [String] switches to the
    exponent notation; this function does not follow that, so the
    statements that spell out the digits of a number carry the hypothesis
    [safeInteger]. *)
Definition numberToString (n : Z) : string :=
  NilZero.string_of_int (Z.to_int n).

(** [String(v)] *)
Fixpoint toString (v : Value) : string :=
  match v with
  | Undefined => "undefined"
  | Null => "null"
  | Bool true => "true"
  | Bool false => "false"
  | Num n => numberToString n
  | Str s => s
  | Arr xs =>
      (fix elements (l : list Value) : string :=
         match l with
         | [] => ""
         | [x] => if nullish x then "" else toString x
         | x :: rest =>
             (if nullish x then "" else toString x) +:+ "," +:+ elements rest
         end) xs
  | Obj _ => "[object Object]"
  end.

(** ** Objects as ordered dictionaries *)

Section Dictionary.
Context {V : Type}.

(** [o[k]], [None] when [o] has no such property. *)
Fixpoint get (o : list (string * V)) (k : string) : option V :=
  match o with
  | [] => None
  | (k', v) :: rest => if String.eqb k' k then Some v else get rest k
  end.

(** [o[k] = v]: an existing property keeps its place, a new one is
    added last. *)
Fixpoint set (o : list (string * V)) (k : string) (v : V) : list (string * V) :=
  match o with
  | [] => [(k, v)]
  | (k', v') :: rest =>
      if String.eqb k' k then (k', v) :: rest else (k', v') :: set rest k v
  end.

Definition has (o : list (string * V)) (k : string) : bool :=
  match get o k with
  | Some _ => true
  | None => false
  end.

Definition keys (o : list (string * V)) : list string := map fst o.
End Dictionary.

(** Reading [o[k]] for a name [k] that is no member of
    [Object.prototype]: a property the object lacks is [undefined].  For
    an inherited name that the object does not own ([toString],
    [constructor], ...) JavaScript gives the inherited function, which is
    no [Value]; the code reads the fixed names [query], [count], [start],
    [expand] and [campaign_id], which are not inherited, and the names of
    declared parameters, which come from the catalog: the statements about
    these carry the hypothesis that the names are not inherited. *)
Definition prop (o : Object) (k : string) : Value :=
  match get o k with
  | Some v => v
  | None => Undefined
  end.

(** ** Exceptions *)

(** What a [throw] carries: an [Error] instance with its [name] and
    [message], or any other value. *)
Inductive Thrown : Type :=
  | ErrorObject (name message : string)
  | ThrownValue (v : Value).

(** [new Error(message)] *)
Definition Error (message : string) : Thrown := ErrorObject "Error" message.

(** [String(e)], as a template literal renders a caught value. *)
Definition thrownToString (e : Thrown) : string :=
  match e with
  | ErrorObject name message =>
      if String.eqb message "" then name
      else if String.eqb name "" then message
      else name +:+ ": " +:+ message
  | ThrownValue v => toString v
  end.

(** [e instanceof Error ? e.message : String(e)] *)
Definition errorMessage (e : Thrown) : string :=
  match e with
  | ErrorObject _ message => message
  | ThrownValue v => toString v
  end.

Inductive Outcome (A : Type) : Type :=
  | Returned (a : A)
  | Threw (e : Thrown).
Arguments Returned {A} a.
Arguments Threw {A} e.

End Js.

(* ===================================================================== *)
(** * [types/types.ts] *)
(* ===================================================================== *)

(** [EndpointParam] *)
Record EndpointParam : Type := {
  name : string;
  description : string;
  type : string;
  required : bool
}.

(** [Endpoint].  The declared type of [method] is the union of the five
    verbs, but a catalog is plain JSON, so the field holds any string. *)
Record Endpoint : Type := {
  toolName : string;
  path : string;
  endpointDescription : string;
  method : string;
  parameters : list EndpointParam;
  defaultBody : option Js.Object;
  apiType : string;
  requiresSiteId : option bool
}.

(** [SFCCConfig] *)
Module SFCCConfig.
Record t : Type := {
  hostname : option string;
  username : option string;
  password : option string;
  clientId : option string;
  clientSecret : option string;
  siteId : option string;
  shortCode : option string;
  organizationId : option string
}.
End SFCCConfig.

(** [OCAPIConfig].  The first three fields are declared as strings; the
    handler fills them through non-null assertions, which are erased at
    run time, so they can be [undefined]. *)
Module OCAPIConfig.
Record t : Type := {
  hostname : option string;
  clientId : option string;
  clientSecret : option string;
  siteId : option string;
  version : option string
}.
End OCAPIConfig.

(** [DataAPIRequestParams] *)
Record DataAPIRequestParams : Type := {
  pathParams : option (list (string * string));
  queryParams : option Js.Object;
  body : option Js.Object
}.

(** [DataAPIResponse] *)
Record DataAPIResponse : Type := {
  data : Js.Value;
  status : Z;
  success : bool;
  error : option string
}.

(** A line handed to a [Logger]. *)
Inductive LogLevel : Type := LogDebug | LogInfo | LogWarn | LogError.

Definition LogLine : Type := (LogLevel * string)%type.

(* ===================================================================== *)
(** * [utils/endpoint-loader.ts] *)
(* ===================================================================== *)

Module EndpointLoader.

(** What reading the catalog can give: [readFileSync] throws,
    [JSON.parse] throws, or the document parses.  A parsed document whose
    [endpoints] member is an array of descriptors ([Parsed (Some _)]) or
    is missing, falsy or not an array ([Parsed None]) lets the loading
    code run to its end.  A parsed document can also make the loading
    code itself throw inside the [try]: the document [null], where
    reading [config.endpoints] throws at once, and an array that holds
    [null] behind some descriptors, where the loop throws at
    [endpoint.toolName] after it has indexed the descriptors before it
    ([Interrupted], with the descriptors indexed so far and the
    [TypeError] of the engine). *)
Inductive Content : Type :=
  | ReadFails (e : Js.Thrown)
  | ParseFails (e : Js.Thrown)
  | Parsed (endpoints : option (list Endpoint))
  | Interrupted (indexed : list Endpoint) (e : Js.Thrown).

(** The catalog file: where [join(__dirname, '..', 'config',
    'endpoints.json')] points and what is found there. *)
Record Catalog : Type := {
  configPath : string;
  content : Content
}.

(** The fields [endpoints] and [endpointMap] of the loader. *)
Record t : Type := {
  endpoints : list Endpoint;
  endpointMap : gmap string Endpoint
}.

(** The field initialisers of the class. *)
Definition initial : t := {| endpoints := []; endpointMap := ∅ |}.

(** [getDefaultEndpoints()] *)
Definition getDefaultEndpoints : list Endpoint :=
  [ {| toolName := "get_catalogs";
       path := "/catalogs";
       endpointDescription := "Get a list of available catalogs";
       method := "GET";
       parameters := [];
       defaultBody := None;
       apiType := "ocapi";
       requiresSiteId := Some false |} ].

(** The loop [for (const endpoint of this.endpoints)
    this.endpointMap.set(endpoint.toolName, endpoint)]. *)
Definition index (m : gmap string Endpoint) (es : list Endpoint)
  : gmap string Endpoint :=
  fold_left (fun acc e => <[toolName e := e]> acc) es m.

(** [loadEndpoints()]: the loader after the call and the lines logged. *)
Definition loadEndpoints (file : Catalog) (self : t) : t * list LogLine :=
  let opening := (LogDebug, "Loading endpoints from: " +:+ configPath file) in
  match content file with
  | Parsed (Some es) =>
      ({| endpoints := es; endpointMap := index (endpointMap self) es |},
       [opening;
        (LogDebug,
         "Loaded " +:+ Js.numberToString (Z.of_nat (length es)) +:+ " endpoints")])
  | Parsed None =>
      ({| endpoints := []; endpointMap := endpointMap self |},
       [opening; (LogWarn, "No endpoints found in configuration")])
  | ReadFails e | ParseFails e =>
      ({| endpoints := getDefaultEndpoints; endpointMap := endpointMap self |},
       [opening;
        (LogError, "Failed to load endpoints: " +:+ Js.thrownToString e)])
  | Interrupted indexed e =>
      ({| endpoints := getDefaultEndpoints;
          endpointMap := index (endpointMap self) indexed |},
       [opening;
        (LogError, "Failed to load endpoints: " +:+ Js.thrownToString e)])
  end.

(** The constructor, as [getInstance()] runs it the first time. *)
Definition create (file : Catalog) : t * list LogLine :=
  loadEndpoints file initial.

(** [getEndpoints()] *)
Definition getEndpoints (self : t) : list Endpoint := endpoints self.

(** [getEndpoint(toolName)] *)
Definition getEndpoint (self : t) (toolName : string) : option Endpoint :=
  endpointMap self !! toolName.

(** [getOCAPIEndpoints()] and [getSCAPIEndpoints()] *)
Definition getOCAPIEndpoints (self : t) : list Endpoint :=
  List.filter (fun e => String.eqb (apiType e) "ocapi") (endpoints self).

Definition getSCAPIEndpoints (self : t) : list Endpoint :=
  List.filter (fun e => String.eqb (apiType e) "scapi") (endpoints self).

(** [getToolNames()] *)
Definition getToolNames (self : t) : list string :=
  map toolName (endpoints self).

(** [getToolNameSet()] *)
Definition getToolNameSet (self : t) : gset string :=
  list_to_set (getToolNames self).

(** [hasEndpoint(toolName)] *)
Definition hasEndpoint (self : t) (toolName : string) : bool :=
  bool_decide (is_Some (endpointMap self !! toolName)).

(** [reload()] *)
Definition reload (file : Catalog) (self : t) : t * list LogLine :=
  loadEndpoints file {| endpoints := []; endpointMap := ∅ |}.

End EndpointLoader.

(* ===================================================================== *)
(** * Effects: transport calls, log lines, exceptions *)
(* ===================================================================== *)

(** One call of a verb method inherited from [OCAPIAuthClient]:
    [this.get(url)], [this.post(url, body)], ... *)
Record TransportCall : Type := {
  verb : string;
  url : string;
  sent : option Js.Object
}.

(** How such a call ends: the promise resolves with the payload (the
    status of the HTTP exchange is not handed back) or it rejects. *)
Inductive Reply : Type :=
  | Resolved (httpStatus : Z) (payload : Js.Value)
  | Rejected (e : Js.Thrown).

(** The remote side: what the next call gives, after the calls made so
    far. *)
Definition Transport : Type := list TransportCall -> TransportCall -> Reply.

Record World : Type := {
  calls : list TransportCall;
  logged : list LogLine
}.

Definition M (A : Type) : Type := World -> Js.Outcome A * World.

Definition ret {A} (a : A) : M A := fun w => (Js.Returned a, w).

Definition bind {A B} (c : M A) (k : A -> M B) : M B :=
  fun w =>
    match c w with
    | (Js.Returned a, w') => k a w'
    | (Js.Threw e, w') => (Js.Threw e, w')
    end.

Definition throw {A} (e : Js.Thrown) : M A := fun w => (Js.Threw e, w).

(** [try { c } catch (error) { handler }] *)
Definition tryCatch {A} (c : M A) (handler : Js.Thrown -> M A) : M A :=
  fun w =>
    match c w with
    | (Js.Returned a, w') => (Js.Returned a, w')
    | (Js.Threw e, w') => handler e w'
    end.

(** A computation that touches neither the transport nor the log. *)
Definition lift {A} (o : Js.Outcome A) : M A := fun w => (o, w).

Definition log (level : LogLevel) (message : string) : M unit :=
  fun w =>
    (Js.Returned tt,
     {| calls := calls w; logged := logged w ++ [(level, message)] |}).

(** [await this.<verb>(url, body)] *)
Definition request (net : Transport) (call : TransportCall) : M Js.Value :=
  fun w =>
    let w' := {| calls := calls w ++ [call]; logged := logged w |} in
    match net (calls w) call with
    | Resolved _ payload => (Js.Returned payload, w')
    | Rejected e => (Js.Threw e, w')
    end.

Declare Scope effect_scope.
Delimit Scope effect_scope with effect.
Notation "x <- c ;; k" := (bind c (fun x => k))
  (at level 100, c at next level, right associativity) : effect_scope.
Notation "c ;;; k" := (bind c (fun _ => k))
  (at level 100, right associativity) : effect_scope.

(* ===================================================================== *)
(** * [clients/data-api-client.ts] *)
(* ===================================================================== *)

Module DataAPIClient.

Local Open Scope effect_scope.

(** The fields of a client.  [net] stands for the verb methods inherited
    from [OCAPIAuthClient]; they are handed a URL and a body and cannot
    see the private field [siteId]. *)
Record t : Type := {
  net : Transport;
  config : OCAPIConfig.t;
  endpointLoader : EndpointLoader.t;
  siteId : option string
}.

(** [new DataAPIClient(config)], with [EndpointLoader.getInstance()] and
    the inherited transport made explicit. *)
Definition create (net : Transport) (loader : EndpointLoader.t)
    (config : OCAPIConfig.t) : t :=
  {| net := net;
     config := config;
     endpointLoader := loader;
     siteId := OCAPIConfig.siteId config |}.

(** The first loop of [buildUrl]: [path = path.replace(`{${key}}`,
    encodeURIComponent(value))] for each entry of [pathParams]. *)
Definition fillPath (path : string) (pathParams : list (string * string))
  : string :=
  fold_left
    (fun path '(key, value) =>
       Js.replace path ("{" +:+ key +:+ "}") (Js.encodeURIComponent value))
    pathParams path.

(** [value !== undefined && value !== null && value !== ''] *)
Definition present (value : Js.Value) : bool :=
  match value with
  | Js.Undefined | Js.Null => false
  | Js.Str s => negb (String.eqb s "")
  | _ => true
  end.

(** The second loop of [buildUrl]: [queryParams[key] = String(value)]
    for each entry that is present. *)
Definition collectQuery (queryParams : Js.Object) : list (string * string) :=
  fold_left
    (fun acc '(key, value) =>
       if present value then Js.set acc key (Js.toString value) else acc)
    queryParams [].

(** [Object.entries(queryParams).map(...).join('&')] *)
Definition queryString (queryParams : list (string * string)) : string :=
  Js.join "&"
    (map (fun '(key, value) =>
            Js.encodeURIComponent key +:+ "=" +:+ Js.encodeURIComponent value)
         queryParams).

(** [buildUrl(endpoint, params)] *)
Definition buildUrl (endpoint : Endpoint) (params : DataAPIRequestParams)
  : string :=
  let path :=
    match pathParams params with
    | Some entries => fillPath (path endpoint) entries
    | None => path endpoint
    end in
  let queryParams :=
    match queryParams params with
    | Some entries => collectQuery entries
    | None => []
    end in
  let queryString := queryString queryParams in
  if String.eqb queryString "" then path
  else path +:+ "?" +:+ queryString.

(** [Object.assign(target, source)] *)
Definition assign (target source : Js.Object) : Js.Object :=
  fold_left (fun acc '(key, value) => Js.set acc key value) source target.

(** [buildRequestBody(endpoint, params)] *)
Definition buildRequestBody (endpoint : Endpoint)
    (params : DataAPIRequestParams) : Js.Object :=
  let start :=
    match defaultBody endpoint with
    | Some seed => seed
    | None => []
    end in
  match body params with
  | Some given => assign start given
  | None => start
  end.

(** [executeEndpoint(toolName, params)] *)
Definition executeEndpoint (self : t) (toolName : string)
    (params : DataAPIRequestParams) : M DataAPIResponse :=
  match EndpointLoader.getEndpoint (endpointLoader self) toolName with
  | None =>
      ret {| data := Js.Null;
             status := 400;
             success := false;
             error := Some ("Unknown endpoint: " +:+ toolName) |}
  | Some endpoint =>
      tryCatch
        (let url := buildUrl endpoint params in
         log LogDebug
           ("Executing " +:+ method endpoint +:+ " request to: " +:+ url) ;;;
         result <-
           (if String.eqb (method endpoint) "GET" then
              request (net self) {| verb := "GET"; url := url; sent := None |}
            else if String.eqb (method endpoint) "POST" then
              request (net self)
                {| verb := "POST"; url := url;
                   sent := Some (buildRequestBody endpoint params) |}
            else if String.eqb (method endpoint) "PUT" then
              request (net self)
                {| verb := "PUT"; url := url;
                   sent := Some (buildRequestBody endpoint params) |}
            else if String.eqb (method endpoint) "PATCH" then
              request (net self)
                {| verb := "PATCH"; url := url;
                   sent := Some (buildRequestBody endpoint params) |}
            else if String.eqb (method endpoint) "DELETE" then
              request (net self) {| verb := "DELETE"; url := url; sent := None |}
            else
              throw (Js.Error ("Unsupported HTTP method: " +:+ method endpoint))) ;;
         ret {| data := result; status := 200; success := true; error := None |})
        (fun error =>
           log LogError
             ("Error executing endpoint " +:+ toolName +:+ ": "
              +:+ Js.thrownToString error) ;;;
           ret {| data := Js.Null;
                  status := 500;
                  success := false;
                  error := Some (Js.errorMessage error) |})
  end.

(** [getSiteId()] *)
Definition getSiteId (self : t) : option string := siteId self.

(** [setSiteId(siteId)] *)
Definition setSiteId (self : t) (siteId : string) : t :=
  {| net := net self;
     config := config self;
     endpointLoader := endpointLoader self;
     siteId := Some siteId |}.

(** [getAvailableEndpoints()] *)
Definition getAvailableEndpoints (self : t) : list Endpoint :=
  EndpointLoader.getEndpoints (endpointLoader self).

(** [hasEndpoint(toolName)] *)
Definition hasEndpoint (self : t) (toolName : string) : bool :=
  EndpointLoader.hasEndpoint (endpointLoader self) toolName.

End DataAPIClient.

(* ===================================================================== *)
(** * [core/handlers/data-api-handler.ts] *)
(* ===================================================================== *)

Module DataAPIToolHandler.

Local Open Scope effect_scope.

(** The capabilities derived from the credentials; the handler reads
    [canAccessOCAPI]. *)
Record Capabilities : Type := {
  canAccessLogs : bool;
  canAccessOCAPI : bool
}.

(** [HandlerContext]; its logger is the log of the [World]. *)
Record HandlerContext : Type := {
  config : SFCCConfig.t;
  capabilities : Capabilities
}.

(** The fields of the handler. *)
Record t : Type := {
  context : HandlerContext;
  dataAPIClient : option DataAPIClient.t;
  toolNameSet : gset string;
  endpointLoader : EndpointLoader.t
}.

(** The constructor, with [EndpointLoader.getInstance()] made explicit. *)
Definition create (context : HandlerContext) (loader : EndpointLoader.t) : t :=
  {| context := context;
     dataAPIClient := None;
     toolNameSet := EndpointLoader.getToolNameSet loader;
     endpointLoader := loader |}.

(** [getToolNameSet()] *)
Definition getToolNameSet (self : t) : gset string := toolNameSet self.

(** [onInitialize()] *)
Definition onInitialize (net : Transport) (self : t) : M t :=
  if negb (canAccessOCAPI (capabilities (context self))) then
    log LogWarn
      "OCAPI access not available - Data API handler will not be functional" ;;;
    ret self
  else
    let config :=
      {| OCAPIConfig.hostname := SFCCConfig.hostname (config (context self));
         OCAPIConfig.clientId := SFCCConfig.clientId (config (context self));
         OCAPIConfig.clientSecret :=
           SFCCConfig.clientSecret (config (context self));
         OCAPIConfig.siteId := SFCCConfig.siteId (config (context self));
         OCAPIConfig.version := None |} in
    log LogDebug "Data API client initialized" ;;;
    ret {| context := context self;
           dataAPIClient :=
             Some (DataAPIClient.create net (endpointLoader self) config);
           toolNameSet := toolNameSet self;
           endpointLoader := endpointLoader self |}.

(** [onDispose()] *)
Definition onDispose (self : t) : M t :=
  log LogDebug "Data API handler disposed" ;;;
  ret {| context := context self;
         dataAPIClient := None;
         toolNameSet := toolNameSet self;
         endpointLoader := endpointLoader self |}.

(** [getSearchFieldsForTool(toolName)] *)
Definition getSearchFieldsForTool (toolName : string) : list string :=
  let fieldMap : list (string * list string) :=
    [ ("search_products", ["id"; "name"]);
      ("search_customers", ["email"; "first_name"; "last_name"]);
      ("search_orders", ["order_no"; "customer_email"]) ] in
  match Js.get fieldMap toolName with
  | Some fields => fields
  | None => ["id"; "name"]
  end.

(** [value === undefined || value === null || value === ''] *)
Definition blank (value : Js.Value) : bool :=
  match value with
  | Js.Undefined | Js.Null => true
  | Js.Str s => String.eqb s ""
  | _ => false
  end.

(** One turn of the loop of [buildRequestParams] over
    [endpoint.parameters]. *)
Definition classifyParam (endpoint : Endpoint) (args : Js.Object)
    (maps : list (string * string) * Js.Object) (param : EndpointParam)
  : list (string * string) * Js.Object :=
  let '(pathParams, queryParams) := maps in
  let value := Js.prop args (name param) in
  if blank value then (pathParams, queryParams)
  else if Js.includes (path endpoint) ("{" +:+ name param +:+ "}") then
    (Js.set pathParams (name param) (Js.toString value), queryParams)
  else if negb (String.eqb (name param) "query") then
    (pathParams, Js.set queryParams (name param) value)
  else (pathParams, queryParams).

(** The whole loop, giving [pathParams] and [queryParams]. *)
Definition classify (endpoint : Endpoint) (args : Js.Object)
  : list (string * string) * Js.Object :=
  fold_left (classifyParam endpoint args) (parameters endpoint) ([], []).

(** [{ text_query: { fields, search_phrase } }] *)
Definition textQuery (fields : list string) (phrase : Js.Value) : Js.Value :=
  Js.Obj
    [ ("text_query",
       Js.Obj [ ("fields", Js.Arr (map Js.Str fields));
                ("search_phrase", phrase) ]) ].

(** [{ term_query: { fields: ['campaign_id'], operator: 'is', values } }] *)
Definition termQuery (campaign : Js.Value) : Js.Value :=
  Js.Obj
    [ ("term_query",
       Js.Obj [ ("fields", Js.Arr [Js.Str "campaign_id"]);
                ("operator", Js.Str "is");
                ("values", Js.Arr [campaign]) ]) ].

(** [args.expand.split(',').map((s) => s.trim())]: only a string has a
    [split] method. *)
Definition splitExpand (expand : Js.Value) : Js.Outcome Js.Value :=
  match expand with
  | Js.Str s => Js.Returned (Js.Arr (map (fun s => Js.Str (Js.trim s)) (Js.split "," s)))
  | _ => Js.Threw (Js.ErrorObject "TypeError" "args.expand.split is not a function")
  end.

(** The block of [buildRequestParams] guarded by
    [endpoint.method === 'POST' && endpoint.defaultBody]. *)
Definition searchBody (toolName : string) (seed : Js.Object) (args : Js.Object)
  : Js.Outcome Js.Object :=
  let body := seed in
  let body :=
    if Js.truthy (Js.prop args "query") then
      Js.set body "query"
        (textQuery (getSearchFieldsForTool toolName) (Js.prop args "query"))
    else body in
  let body :=
    match Js.prop args "count" with
    | Js.Undefined => body
    | count => Js.set body "count" count
    end in
  let body :=
    match Js.prop args "start" with
    | Js.Undefined => body
    | start => Js.set body "start" start
    end in
  let expanded :=
    if Js.truthy (Js.prop args "expand") then
      match splitExpand (Js.prop args "expand") with
      | Js.Returned list => Js.Returned (Js.set body "expand" list)
      | Js.Threw e => Js.Threw e
      end
    else Js.Returned body in
  match expanded with
  | Js.Returned body =>
      if String.eqb toolName "search_promotions"
         && Js.truthy (Js.prop args "campaign_id")
      then Js.Returned (Js.set body "query" (termQuery (Js.prop args "campaign_id")))
      else Js.Returned body
  | Js.Threw e => Js.Threw e
  end.

(** [buildRequestParams(toolName, args)] *)
Definition buildRequestParams (self : t) (toolName : string) (args : Js.Object)
  : Js.Outcome DataAPIRequestParams :=
  match EndpointLoader.getEndpoint (endpointLoader self) toolName with
  | None =>
      Js.Returned
        {| pathParams := Some []; queryParams := Some []; body := None |}
  | Some endpoint =>
      let '(pathParams, queryParams) := classify endpoint args in
      match
        (if String.eqb (method endpoint) "POST" then defaultBody endpoint
         else None)
      with
      | Some seed =>
          match searchBody toolName seed args with
          | Js.Returned body =>
              Js.Returned
                {| pathParams := Some pathParams;
                   queryParams := Some queryParams;
                   body := Some body |}
          | Js.Threw e => Js.Threw e
          end
      | None =>
          Js.Returned
            {| pathParams := Some pathParams;
               queryParams := Some queryParams;
               body := None |}
      end
  end.

(** [executeEndpoint(toolName, args, ctx)], where [client] is
    [ctx.dataAPIClient]. *)
Definition executeEndpoint (self : t) (toolName : string) (args : Js.Object)
    (client : option DataAPIClient.t) : M Js.Value :=
  match client with
  | None =>
      throw (Js.Error "Data API client not initialized. Check OCAPI credentials.")
  | Some client =>
      params <- lift (buildRequestParams self toolName args) ;;
      response <- DataAPIClient.executeEndpoint client toolName params ;;
      if negb (success response) then
        throw (Js.Error (match error response with
                         | Some message => message
                         | None => "Unknown error occurred"
                         end))
      else ret (data response)
  end.

(** An entry of the table returned by [getToolConfig()]: the fields
    [validate] checks (when the entry has a validator), the endpoint
    [exec] hands to [executeEndpoint], and the log message. *)
Record GenericToolSpec : Type := {
  validate : option (list string);
  exec : string;
  logMessage : Js.Object -> string
}.

(** [${args.field}] inside a template literal. *)
Definition arg (args : Js.Object) (field : string) : string :=
  Js.toString (Js.prop args field).

(** [getToolConfig()] *)
Definition getToolConfig : list (string * GenericToolSpec) :=
  [
    ("search_products",
     {| validate := None;
        exec := "search_products";
        logMessage := fun args =>
          "Searching products in site: " +:+ arg args "site_id" |});
    ("get_product",
     {| validate := Some ["site_id"; "product_id"];
        exec := "get_product";
        logMessage := fun args =>
          "Getting product: " +:+ arg args "product_id" +:+ " in site: " +:+ arg args "site_id" |});
    ("get_catalogs",
     {| validate := None;
        exec := "get_catalogs";
        logMessage := fun args =>
          "Getting all catalogs" |});
    ("get_catalog",
     {| validate := Some ["catalog_id"];
        exec := "get_catalog";
        logMessage := fun args =>
          "Getting catalog: " +:+ arg args "catalog_id" |});
    ("get_categories",
     {| validate := Some ["catalog_id"];
        exec := "get_categories";
        logMessage := fun args =>
          "Getting categories for catalog: " +:+ arg args "catalog_id" |});
    ("get_category",
     {| validate := Some ["catalog_id"; "category_id"];
        exec := "get_category";
        logMessage := fun args =>
          "Getting category: " +:+ arg args "category_id" +:+ " in catalog: " +:+ arg args "catalog_id" |});
    ("get_sites",
     {| validate := None;
        exec := "get_sites";
        logMessage := fun args =>
          "Getting all sites" |});
    ("get_site",
     {| validate := Some ["site_id"];
        exec := "get_site";
        logMessage := fun args =>
          "Getting site: " +:+ arg args "site_id" |});
    ("search_campaigns",
     {| validate := Some ["site_id"];
        exec := "search_campaigns";
        logMessage := fun args =>
          "Searching campaigns in site: " +:+ arg args "site_id" |});
    ("get_campaign",
     {| validate := Some ["site_id"; "campaign_id"];
        exec := "get_campaign";
        logMessage := fun args =>
          "Getting campaign: " +:+ arg args "campaign_id" +:+ " in site: " +:+ arg args "site_id" |});
    ("search_promotions",
     {| validate := Some ["site_id"];
        exec := "search_promotions";
        logMessage := fun args =>
          "Searching promotions in site: " +:+ arg args "site_id" |});
    ("search_coupons",
     {| validate := Some ["site_id"];
        exec := "search_coupons";
        logMessage := fun args =>
          "Searching coupons in site: " +:+ arg args "site_id" |});
    ("get_inventory_lists",
     {| validate := None;
        exec := "get_inventory_lists";
        logMessage := fun args =>
          "Getting all inventory lists" |});
    ("get_inventory_list",
     {| validate := Some ["inventory_list_id"];
        exec := "get_inventory_list";
        logMessage := fun args =>
          "Getting inventory list: " +:+ arg args "inventory_list_id" |});
    ("get_product_inventory",
     {| validate := Some ["inventory_list_id"; "product_id"];
        exec := "get_product_inventory";
        logMessage := fun args =>
          "Getting product inventory: " +:+ arg args "product_id" +:+ " in list: " +:+ arg args "inventory_list_id" |});
    ("search_customers",
     {| validate := Some ["site_id"];
        exec := "search_customers";
        logMessage := fun args =>
          "Searching customers in site: " +:+ arg args "site_id" |});
    ("get_customer",
     {| validate := Some ["site_id"; "customer_id"];
        exec := "get_customer";
        logMessage := fun args =>
          "Getting customer: " +:+ arg args "customer_id" +:+ " in site: " +:+ arg args "site_id" |});
    ("get_customer_groups",
     {| validate := Some ["site_id"];
        exec := "get_customer_groups";
        logMessage := fun args =>
          "Getting customer groups in site: " +:+ arg args "site_id" |});
    ("search_custom_objects",
     {| validate := Some ["object_type"];
        exec := "search_custom_objects";
        logMessage := fun args =>
          "Searching custom objects of type: " +:+ arg args "object_type" |});
    ("get_custom_object",
     {| validate := Some ["object_type"; "key"];
        exec := "get_custom_object";
        logMessage := fun args =>
          "Getting custom object: " +:+ arg args "key" +:+ " of type: " +:+ arg args "object_type" |});
    ("search_orders",
     {| validate := Some ["site_id"];
        exec := "search_orders";
        logMessage := fun args =>
          "Searching orders in site: " +:+ arg args "site_id" |});
    ("get_order",
     {| validate := Some ["site_id"; "order_no"];
        exec := "get_order";
        logMessage := fun args =>
          "Getting order: " +:+ arg args "order_no" +:+ " in site: " +:+ arg args "site_id" |});
    ("get_locales",
     {| validate := None;
        exec := "get_locales";
        logMessage := fun args =>
          "Getting all locales" |});
    ("get_currencies",
     {| validate := None;
        exec := "get_currencies";
        logMessage := fun args =>
          "Getting all currencies" |});
    ("get_price_books",
     {| validate := None;
        exec := "get_price_books";
        logMessage := fun args =>
          "Getting all price books" |});
    ("get_price_book",
     {| validate := Some ["price_book_id"];
        exec := "get_price_book";
        logMessage := fun args =>
          "Getting price book: " +:+ arg args "price_book_id" |});
    ("get_content_assets",
     {| validate := Some ["library_id"];
        exec := "get_content_assets";
        logMessage := fun args =>
          "Getting content assets from library: " +:+ arg args "library_id" |});
    ("get_content_asset",
     {| validate := Some ["library_id"; "content_id"];
        exec := "get_content_asset";
        logMessage := fun args =>
          "Getting content asset: " +:+ arg args "content_id" +:+ " from library: " +:+ arg args "library_id" |})
  ].

(** ** The part inherited from [BaseToolHandler] *)

(** Modelled from the spec: the envelope of a tool call,
    [{content: [{type: "text", text}], isError}], whose type is declared
    outside the sources. *)
Record ContentItem : Type := {
  contentType : string;
  text : string
}.

Record ToolResponse : Type := {
  content : list ContentItem;
  isError : bool
}.

Definition errorResponse (message : string) : ToolResponse :=
  {| content := [ {| contentType := "text"; text := message |} ];
     isError := true |}.

Definition successResponse (payload : string) : ToolResponse :=
  {| content := [ {| contentType := "text"; text := payload |} ];
     isError := false |}.

(** Modelled from the spec: [BaseToolHandler.canHandle], which is not
    among the sources; a membership test against the set of tool names
    the handler owns. *)
Definition canHandle (self : t) (toolName : string) : bool :=
  bool_decide (toolName ∈ getToolNameSet self).

(** Modelled from the spec: [BaseToolHandler.initialize], which is not
    among the sources; it runs [onInitialize]. *)
Definition initialize (net : Transport) (self : t) : M t :=
  onInitialize net self.

(** [createExecutionContext()]: the handler after [initialize()] and the
    [dataAPIClient] of the context. *)
Definition createExecutionContext (net : Transport) (self : t)
  : M (t * option DataAPIClient.t) :=
  self' <- initialize net self ;;
  ret (self', dataAPIClient self').

(** Modelled from the spec: [BaseToolHandler.validateArgs], which is not
    among the sources; the first required field that the argument bag
    lacks. *)
Definition firstMissing (args : Js.Object) (fields : list string)
  : option string :=
  List.find (fun field => negb (Js.has args field)) fields.

Definition requiredArguments (toolName : string) : list string :=
  match Js.get getToolConfig toolName with
  | Some spec =>
      match validate spec with
      | Some fields => fields
      | None => []
      end
  | None => []
  end.

(** Modelled from the spec: [BaseToolHandler.handle], which is not among
    the sources.  In the order the spec gives.  First, a handler whose
    client was never initialized answers with the error envelope "Data API
    client not initialized...": in the sources the only code that says so
    is the guard of [executeEndpoint], which throws when the execution
    context holds no client, so for such a context the model runs
    [executeEndpoint] on the context at once and turns what it throws
    into the envelope.  Then, a missing required argument gives a
    validation error naming the field.  Otherwise the call is delegated
    to [executeEndpoint], whose failure becomes the error text and whose
    result becomes the payload ([render] serialises it).  Telemetry is
    emitted whatever the outcome. *)
Definition handle (net : Transport) (render : Js.Value -> string) (self : t)
    (toolName : string) (args : Js.Object) (startTime : Z)
  : M (t * ToolResponse) :=
  ctx <- createExecutionContext net self ;;
  response <-
    match snd ctx, firstMissing args (requiredArguments toolName) with
    | Some _, Some field => ret (errorResponse (field +:+ " is required"))
    | client, _ =>
        tryCatch
          (result <- executeEndpoint (fst ctx) toolName args client ;;
           ret (successResponse (render result)))
          (fun e => ret (errorResponse (Js.errorMessage e)))
    end ;;
  log LogDebug
    ("Performance: " +:+ toolName +:+ " since " +:+ Js.numberToString startTime) ;;;
  ret (fst ctx, response).

End DataAPIToolHandler.

(* ===================================================================== *)
(** * Vocabulary of the statements *)
(* ===================================================================== *)

(** The path of the URL, once the entries of [pathParams] are filled in. *)
Definition filledPath (endpoint : Endpoint) (params : DataAPIRequestParams)
  : string :=
  match pathParams params with
  | Some entries => DataAPIClient.fillPath (path endpoint) entries
  | None => path endpoint
  end.




(** The entries of [params.queryParams]; none when the member is
    missing. *)
Definition queryEntries (params : DataAPIRequestParams) : Js.Object :=
  match queryParams params with
  | Some entries => entries
  | None => []
  end.

(** ** The order of [Object.entries] *)







(** The transport call a descriptor stands for; [None] when its method is
    none of the five verbs. *)
Definition transportCall (endpoint : Endpoint) (params : DataAPIRequestParams)
  : option TransportCall :=
  let url := DataAPIClient.buildUrl endpoint params in
  let payload := Some (DataAPIClient.buildRequestBody endpoint params) in
  if String.eqb (method endpoint) "GET" then
    Some {| verb := "GET"; url := url; sent := None |}
  else if String.eqb (method endpoint) "POST" then
    Some {| verb := "POST"; url := url; sent := payload |}
  else if String.eqb (method endpoint) "PUT" then
    Some {| verb := "PUT"; url := url; sent := payload |}
  else if String.eqb (method endpoint) "PATCH" then
    Some {| verb := "PATCH"; url := url; sent := payload |}
  else if String.eqb (method endpoint) "DELETE" then
    Some {| verb := "DELETE"; url := url; sent := None |}
  else None.

(** An [expand] argument that [buildRequestParams] can split: falsy, or a
    string. *)
Definition expandIsUsable (args : Js.Object) : Prop :=
  Js.truthy (Js.prop args "expand") = false \/
  exists s, Js.prop args "expand" = Js.Str s.

(** [body.query] of built request parameters. *)
Definition bodyQuery (params : DataAPIRequestParams) : option Js.Value :=
  match body params with
  | Some fields => Js.get fields "query"
  | None => None
  end.

(** The text of a tool response says [needle]. *)
Definition mentions (needle : string) (response : DataAPIToolHandler.ToolResponse)
  : bool :=
  existsb (fun item => Js.includes (DataAPIToolHandler.text item) needle)
    (DataAPIToolHandler.content response).


(** [{n}] occurs in the path of the descriptor. *)
Definition inPath (endpoint : Endpoint) (n : string) : bool :=
  Js.includes (path endpoint) ("{" +:+ n +:+ "}").

(** A tool call as the host issues it. *)
Record ToolCall : Type := {
  calledTool : string;
  arguments : Js.Object;
  startTime : Z
}.

(** The calls of a session, handled one after the other by the same
    handler. *)
Fixpoint handleAll (net : Transport) (render : Js.Value -> string)
    (self : DataAPIToolHandler.t) (session : list ToolCall)
  : M (DataAPIToolHandler.t * list DataAPIToolHandler.ToolResponse) :=
  match session with
  | [] => ret (self, [])
  | call :: later =>
      bind (DataAPIToolHandler.handle net render self (calledTool call)
              (arguments call) (startTime call))
        (fun first =>
           bind (handleAll net render (fst first) later)
             (fun rest => ret (fst rest, snd first :: snd rest)))
  end.

(** A handler that lacks the data-API capability and has no client. *)
Definition gateClosed (self : DataAPIToolHandler.t) : Prop :=
  DataAPIToolHandler.canAccessOCAPI
    (DataAPIToolHandler.capabilities (DataAPIToolHandler.context self)) = false /\
  DataAPIToolHandler.dataAPIClient self = None.

(** An error envelope that says the client is not initialized. *)
Definition notInitialized (response : DataAPIToolHandler.ToolResponse) : Prop :=
  DataAPIToolHandler.isError response = true /\
  mentions "not initialized" response = true.

(** The exception of [readFileSync] or [JSON.parse] that kept the
    catalog from being read, if any. *)
Definition loadFailure (content : EndpointLoader.Content) : option Js.Thrown :=
  match content with
  | EndpointLoader.ReadFails e | EndpointLoader.ParseFails e => Some e
  | EndpointLoader.Parsed _ | EndpointLoader.Interrupted _ _ => None
  end.

(** The catalog was read and parsed, and the loading code ran to its end
    without a throw. *)
Definition loadedThrough (content : EndpointLoader.Content) : bool :=
  match content with
  | EndpointLoader.Parsed _ => true
  | _ => false
  end.

(** The last descriptor of a catalog under a tool name. *)
Definition lastNamed (toolName' : string) (es : list Endpoint) : option Endpoint :=
  List.find (fun e => String.eqb (toolName e) toolName') (rev es).

(** ** Path templates *)

(** A path seen as a template: literal text and [{label}] placeholders. *)
Inductive Segment : Type :=
  | Literal (text : string)
  | Placeholder (label : string).

Definition renderSegment (segment : Segment) : string :=
  match segment with
  | Literal text => text
  | Placeholder label => "{" +:+ label +:+ "}"
  end.

(** The path string of a template. *)
Fixpoint render (template : list Segment) : string :=
  match template with
  | [] => ""
  | segment :: rest => renderSegment segment +:+ render rest
  end.

Definition isBrace (c : ascii) : bool :=
  Ascii.eqb c "{" || Ascii.eqb c "}".

(** A string without braces. *)
Fixpoint braceFree (s : string) : bool :=
  match s with
  | EmptyString => true
  | String c rest => negb (isBrace c) && braceFree rest
  end.

Definition segmentText (segment : Segment) : string :=
  match segment with
  | Literal text => text
  | Placeholder label => label
  end.

(** The braces of a template are those of its placeholders. *)
Definition plain (template : list Segment) : Prop :=
  Forall (fun segment => braceFree (segmentText segment) = true) template.

(** The labels of the placeholders, in order. *)
Fixpoint placeholders (template : list Segment) : list string :=
  match template with
  | [] => []
  | Placeholder label :: rest => label :: placeholders rest
  | Literal _ :: rest => placeholders rest
  end.

(** The first placeholder labelled [key] becomes the text [value]. *)
Fixpoint fillFirst (key value : string) (template : list Segment)
  : list Segment :=
  match template with
  | [] => []
  | Placeholder label :: rest =>
      if String.eqb label key then Literal value :: rest
      else Placeholder label :: fillFirst key value rest
  | Literal text :: rest => Literal text :: fillFirst key value rest
  end.

(** Entry after entry, the first placeholder of that key is filled with
    the encoded value. *)
Definition fillInOrder (entries : list (string * string))
    (template : list Segment) : list Segment :=
  fold_left
    (fun template '(key, value) =>
       fillFirst key (Js.encodeURIComponent value) template)
    entries template.

(** Every placeholder that has an entry becomes its encoded value; the
    others stay. *)
Definition resolveSegment (entries : list (string * string))
    (segment : Segment) : Segment :=
  match segment with
  | Literal text => Literal text
  | Placeholder label =>
      match Js.get entries label with
      | Some value => Literal (Js.encodeURIComponent value)
      | None => Placeholder label
      end
  end.

Definition resolve (entries : list (string * string))
    (template : list Segment) : list Segment :=
  map (resolveSegment entries) template.

(** ** Fixtures: descriptors of the test suite, and a few more *)

Module Fixtures.

Definition param (n t : string) (r : bool) : EndpointParam :=
  {| name := n; description := ""; type := t; required := r |}.

Definition get_catalogs : Endpoint :=
  {| toolName := "get_catalogs";
     path := "/catalogs";
     endpointDescription := "Get catalogs";
     method := "GET";
     parameters := [param "count" "number" false; param "start" "number" false];
     defaultBody := None;
     apiType := "ocapi";
     requiresSiteId := Some false |}.

Definition get_product : Endpoint :=
  {| toolName := "get_product";
     path := "/products/{product_id}";
     endpointDescription := "Get product";
     method := "GET";
     parameters :=
       [param "product_id" "string" true; param "expand" "string" false];
     defaultBody := None;
     apiType := "ocapi";
     requiresSiteId := Some true |}.

Definition search_promotions : Endpoint :=
  {| toolName := "search_promotions";
     path := "/promotions";
     endpointDescription := "Search promotions";
     method := "POST";
     parameters :=
       [param "site_id" "string" true; param "campaign_id" "string" false];
     defaultBody := Some [("query", Js.Obj [("match_all_query", Js.Obj [])])];
     apiType := "ocapi";
     requiresSiteId := None |}.

Definition search_products : Endpoint :=
  {| toolName := "search_products";
     path := "/product_search";
     endpointDescription := "Search products";
     method := "POST";
     parameters :=
       [param "site_id" "string" true; param "query" "string" false;
        param "count" "number" false];
     defaultBody :=
       Some [("query", Js.Obj [("match_all_query", Js.Obj [])]);
             ("count", Js.Num 25); ("start", Js.Num 0)];
     apiType := "ocapi";
     requiresSiteId := Some true |}.

(** A descriptor whose method is no verb. *)
Definition invalid_method : Endpoint :=
  {| toolName := "invalid_method";
     path := "/catalogs";
     endpointDescription := "Get catalogs";
     method := "INVALID";
     parameters := [];
     defaultBody := None;
     apiType := "ocapi";
     requiresSiteId := Some false |}.

(** A descriptor with one path parameter and one query parameter. *)
Definition get_item : Endpoint :=
  {| toolName := "get_item";
     path := "/a/{x}";
     endpointDescription := "Get an item";
     method := "GET";
     parameters := [param "x" "string" true; param "y" "string" false];
     defaultBody := None;
     apiType := "ocapi";
     requiresSiteId := None |}.

(** A descriptor whose path names the same parameter twice. *)
Definition compare_site : Endpoint :=
  {| toolName := "compare_site";
     path := "/sites/{site_id}/mirror/{site_id}";
     endpointDescription := "Compare a site with its mirror";
     method := "GET";
     parameters := [param "site_id" "string" true];
     defaultBody := None;
     apiType := "ocapi";
     requiresSiteId := Some true |}.

(** Two descriptors under one tool name. *)
Definition first_twin : Endpoint :=
  {| toolName := "twin";
     path := "/first";
     endpointDescription := "First of two";
     method := "GET";
     parameters := [];
     defaultBody := None;
     apiType := "ocapi";
     requiresSiteId := None |}.

Definition second_twin : Endpoint :=
  {| toolName := "twin";
     path := "/second";
     endpointDescription := "Second of two";
     method := "GET";
     parameters := [];
     defaultBody := None;
     apiType := "ocapi";
     requiresSiteId := None |}.

Definition catalogOf (es : list Endpoint) : EndpointLoader.Catalog :=
  {| EndpointLoader.configPath := "dist/config/endpoints.json";
     EndpointLoader.content := EndpointLoader.Parsed (Some es) |}.

Definition missingCatalog : EndpointLoader.Catalog :=
  {| EndpointLoader.configPath := "dist/config/endpoints.json";
     EndpointLoader.content :=
       EndpointLoader.ReadFails
         (Js.Error "ENOENT: no such file or directory") |}.

Definition loader : EndpointLoader.t :=
  fst (EndpointLoader.create
         (catalogOf [get_catalogs; get_product; search_products;
                     search_promotions; invalid_method; get_item;
                     compare_site])).

(** A remote side that answers every call with status 204. *)
Definition echo : Transport :=
  fun _ call => Resolved 204 (Js.Str (url call)).

(** A remote side that is down. *)
Definition down : Transport :=
  fun _ _ => Rejected (Js.Error "API Error").

Definition credentials : OCAPIConfig.t :=
  {| OCAPIConfig.hostname := Some "test-instance.demandware.net";
     OCAPIConfig.clientId := Some "test-client-id";
     OCAPIConfig.clientSecret := Some "test-client-secret";
     OCAPIConfig.siteId := Some "test-site";
     OCAPIConfig.version := Some "v21_3" |}.

Definition client : DataAPIClient.t :=
  DataAPIClient.create echo loader credentials.

Definition offline : DataAPIClient.t :=
  DataAPIClient.create down loader credentials.

Definition noParams : DataAPIRequestParams :=
  {| pathParams := None; queryParams := None; body := None |}.

Definition quiet : World := {| calls := []; logged := [] |}.

(** A context without OAuth credentials: the data-API capability is
    absent. *)
Definition localContext : DataAPIToolHandler.HandlerContext :=
  {| DataAPIToolHandler.config :=
       {| SFCCConfig.hostname := None;
          SFCCConfig.username := None;
          SFCCConfig.password := None;
          SFCCConfig.clientId := None;
          SFCCConfig.clientSecret := None;
          SFCCConfig.siteId := None;
          SFCCConfig.shortCode := None;
          SFCCConfig.organizationId := None |};
     DataAPIToolHandler.capabilities :=
       {| DataAPIToolHandler.canAccessLogs := false;
          DataAPIToolHandler.canAccessOCAPI := false |} |}.

Definition handler : DataAPIToolHandler.t :=
  DataAPIToolHandler.create localContext loader.

End Fixtures.

(* ===================================================================== *)
(** * [config/configuration-factory.ts] *)
(* ===================================================================== *)

(** [DwJsonConfig] of [types/types.ts] *)
Module DwJsonConfig.
Record t : Type := {
  hostname : string;
  username : string;
  password : string;
  codeVersion : option string;
  clientId : option string;
  clientSecret : option string;
  siteId : option string;
  shortCode : option string;
  organizationId : option string
}.
End DwJsonConfig.

Module ConfigurationFactory.

(** Truthiness of an optional string: defined and not empty. *)
Definition given (text : option string) : bool :=
  match text with
  | Some s => negb (String.eqb s "")
  | None => false
  end.

(** The options of [create]. *)
Record Options : Type := {
  dwJsonPath : option string;
  hostname : option string;
  username : option string;
  password : option string;
  clientId : option string;
  clientSecret : option string;
  siteId : option string;
  shortCode : option string;
  organizationId : option string
}.

(** What [create] needs of the file system: [resolve] of [path],
    [existsSync] of [fs], and [loadSecureDwJson], which is not among the
    sources and either throws or gives the parsed file. *)
Record FileSystem : Type := {
  resolve : string -> string;
  existsSync : string -> bool;
  loadSecureDwJson : string -> Js.Outcome DwJsonConfig.t
}.

(** The object [getCapabilities] returns. *)
Record Capabilities : Type := {
  canAccessLogs : bool;
  canAccessOCAPI : bool;
  canAccessWebDAV : bool;
  isLocalMode : bool
}.

(** [loadFromDwJson(dwJsonPath)] *)
Definition loadFromDwJson (fs : FileSystem) (dwJsonPath : string)
  : Js.Outcome DwJsonConfig.t :=
  let resolvedPath := resolve fs dwJsonPath in
  if negb (existsSync fs resolvedPath) then
    Js.Threw (Js.Error ("dw.json file not found at: " +:+ resolvedPath))
  else loadSecureDwJson fs dwJsonPath.

(** [mapDwJsonToConfig(dwConfig)] *)
Definition mapDwJsonToConfig (dwConfig : DwJsonConfig.t) : SFCCConfig.t :=
  let oauth :=
    given (DwJsonConfig.clientId dwConfig)
    && given (DwJsonConfig.clientSecret dwConfig) in
  {| SFCCConfig.hostname := Some (DwJsonConfig.hostname dwConfig);
     SFCCConfig.username := Some (DwJsonConfig.username dwConfig);
     SFCCConfig.password := Some (DwJsonConfig.password dwConfig);
     SFCCConfig.clientId :=
       if oauth then DwJsonConfig.clientId dwConfig else None;
     SFCCConfig.clientSecret :=
       if oauth then DwJsonConfig.clientSecret dwConfig else None;
     SFCCConfig.siteId :=
       if given (DwJsonConfig.siteId dwConfig)
       then DwJsonConfig.siteId dwConfig else None;
     SFCCConfig.shortCode :=
       if given (DwJsonConfig.shortCode dwConfig)
       then DwJsonConfig.shortCode dwConfig else None;
     SFCCConfig.organizationId :=
       if given (DwJsonConfig.organizationId dwConfig)
       then DwJsonConfig.organizationId dwConfig else None |}.

(** [config.hostname && config.hostname.trim() !== ''] *)
Definition hasHostname (config : SFCCConfig.t) : bool :=
  given (SFCCConfig.hostname config)
  && match SFCCConfig.hostname config with
     | Some h => negb (String.eqb (Js.trim h) "")
     | None => false
     end.

(** The class [[a-zA-Z0-9.-]] *)
Definition hostCharacter (c : ascii) : bool :=
  let n := N_of_ascii c in
  ((48 <=? n) && (n <=? 57) || (65 <=? n) && (n <=? 90)
   || (97 <=? n) && (n <=? 122) || (n =? 46) || (n =? 45))%N.

Definition digit (c : ascii) : bool :=
  let n := N_of_ascii c in ((48 <=? n) && (n <=? 57))%N.

(** [[0-9]+$] *)
Fixpoint port (s : string) : bool :=
  match s with
  | EmptyString => false
  | String c EmptyString => digit c
  | String c rest => digit c && port rest
  end.

(** [[a-zA-Z0-9.-]*(?::[0-9]+)?$] *)
Fixpoint hostTail (s : string) : bool :=
  match s with
  | EmptyString => true
  | String c rest =>
      if Ascii.eqb c ":" then port rest
      else hostCharacter c && hostTail rest
  end.

(** [s.match(/^[a-zA-Z0-9.-]+(?::[0-9]+)?$/)] is not [null].  A colon is
    no member of the class, so the first colon, if any, starts the
    port. *)
Definition matchesHostname (s : string) : bool :=
  match s with
  | EmptyString => false
  | String c rest => hostCharacter c && hostTail rest
  end.

(** [validate(config)] *)
Definition validate (config : SFCCConfig.t) : Js.Outcome unit :=
  let hasBasicAuth :=
    given (SFCCConfig.username config) && given (SFCCConfig.password config) in
  let hasOAuth :=
    given (SFCCConfig.clientId config)
    && given (SFCCConfig.clientSecret config) in
  let hasHostname := hasHostname config in
  if negb hasBasicAuth && negb hasOAuth && negb hasHostname then
    Js.Returned tt
  else if hasHostname && negb hasBasicAuth && negb hasOAuth then
    Js.Threw
      (Js.Error
         "When hostname is provided, either username/password or OAuth credentials (clientId/clientSecret) must be provided")
  else if hasHostname then
    let trimmedHostname :=
      match SFCCConfig.hostname config with
      | Some h => Js.trim h
      | None => EmptyString
      end in
    if negb (matchesHostname trimmedHostname) then
      Js.Threw (Js.Error "Invalid hostname format in configuration")
    else Js.Returned tt
  else Js.Returned tt.

(** [if (options.field) { config.field = options.field; }] *)
Definition override (chosen current : option string) : option string :=
  if given chosen then chosen else current.

(** [create(options)] *)
Definition create (fs : FileSystem) (options : Options)
  : Js.Outcome SFCCConfig.t :=
  let loaded :=
    if given (dwJsonPath options) then
      match loadFromDwJson fs
              (match dwJsonPath options with
               | Some file => file
               | None => EmptyString
               end)
      with
      | Js.Returned dwConfig => Js.Returned (mapDwJsonToConfig dwConfig)
      | Js.Threw e => Js.Threw e
      end
    else
      Js.Returned
        {| SFCCConfig.hostname :=
             Some (match hostname options with
                   | Some h => h
                   | None => EmptyString
                   end);
           SFCCConfig.username := username options;
           SFCCConfig.password := password options;
           SFCCConfig.clientId := clientId options;
           SFCCConfig.clientSecret := clientSecret options;
           SFCCConfig.siteId := siteId options;
           SFCCConfig.shortCode := shortCode options;
           SFCCConfig.organizationId := organizationId options |} in
  match loaded with
  | Js.Threw e => Js.Threw e
  | Js.Returned config =>
      let config :=
        {| SFCCConfig.hostname :=
             override (hostname options) (SFCCConfig.hostname config);
           SFCCConfig.username :=
             override (username options) (SFCCConfig.username config);
           SFCCConfig.password :=
             override (password options) (SFCCConfig.password config);
           SFCCConfig.clientId :=
             override (clientId options) (SFCCConfig.clientId config);
           SFCCConfig.clientSecret :=
             override (clientSecret options) (SFCCConfig.clientSecret config);
           SFCCConfig.siteId :=
             override (siteId options) (SFCCConfig.siteId config);
           SFCCConfig.shortCode :=
             override (shortCode options) (SFCCConfig.shortCode config);
           SFCCConfig.organizationId :=
             override (organizationId options)
               (SFCCConfig.organizationId config) |} in
      match validate config with
      | Js.Returned _ => Js.Returned config
      | Js.Threw e => Js.Threw e
      end
  end.

(** [getCapabilities(config)] *)
Definition getCapabilities (config : SFCCConfig.t) : Capabilities :=
  let hasWebDAVCredentials :=
    given (SFCCConfig.username config) && given (SFCCConfig.password config)
    || given (SFCCConfig.clientId config)
       && given (SFCCConfig.clientSecret config) in
  let hasOAuthCredentials :=
    given (SFCCConfig.clientId config)
    && given (SFCCConfig.clientSecret config) in
  let hasHostname := hasHostname config in
  let isLocalMode := negb hasHostname && negb hasWebDAVCredentials in
  {| canAccessLogs := hasWebDAVCredentials && hasHostname;
     canAccessOCAPI := hasOAuthCredentials && hasHostname;
     canAccessWebDAV := hasWebDAVCredentials && hasHostname;
     isLocalMode := isLocalMode |}.

(** [createLocalMode()] *)
Definition createLocalMode : SFCCConfig.t :=
  {| SFCCConfig.hostname := Some EmptyString;
     SFCCConfig.username := None;
     SFCCConfig.password := None;
     SFCCConfig.clientId := None;
     SFCCConfig.clientSecret := None;
     SFCCConfig.siteId := None;
     SFCCConfig.shortCode := None;
     SFCCConfig.organizationId := None |}.

End ConfigurationFactory.

(* ===================================================================== *)
(** * [index.ts]: the command line *)
(* ===================================================================== *)

Module CommandLine.

(** [s.toLowerCase()] on the bytes [A] to [Z].  The code compares the
    result with the words [true], [1] and [yes] only, and no character
    outside ASCII lower-cases to a letter of these words, so the
    comparison comes out as in JavaScript. *)
Definition lowerByte (c : ascii) : ascii :=
  let n := N_of_ascii c in
  if ((65 <=? n) && (n <=? 90))%N then ascii_of_N (n + 32) else c.

Fixpoint toLowerCase (s : string) : string :=
  match s with
  | EmptyString => EmptyString
  | String c rest => String (lowerByte c) (toLowerCase rest)
  end.

(** The object [parseCommandLineArgs] returns. *)
Record Options : Type := {
  dwJsonPath : option string;
  debug : option bool
}.

(** [debugValue === 'true' || debugValue === '1' || debugValue === 'yes'],
    where [debugValue] is the lower-cased token. *)
Definition affirmative (token : string) : bool :=
  let debugValue := toLowerCase token in
  String.eqb debugValue "true" || String.eqb debugValue "1"
  || String.eqb debugValue "yes".

(** The loop of [parseCommandLineArgs] from some index on: [args] are the
    tokens from that index, [options] is the object as filled so far. *)
Fixpoint parseFrom (args : list string) (options : Options) : Options :=
  match args with
  | [] => options
  | arg :: rest =>
      match rest with
      | next :: later =>
          if String.eqb arg "--dw-json" then
            parseFrom later
              {| dwJsonPath := Some next; debug := debug options |}
          else if String.eqb arg "--debug" then
            parseFrom later
              {| dwJsonPath := dwJsonPath options;
                 debug := Some (affirmative next) |}
          else parseFrom rest options
      | [] =>
          if String.eqb arg "--dw-json" then options
          else if String.eqb arg "--debug" then
            {| dwJsonPath := dwJsonPath options; debug := Some true |}
          else options
      end
  end.

(** [parseCommandLineArgs()], where [args] is [process.argv.slice(2)]. *)
Definition parseCommandLineArgs (args : list string) : Options :=
  parseFrom args {| dwJsonPath := None; debug := None |}.

End CommandLine.

(* ===================================================================== *)
(** * [clients/data-api-client.ts]: the convenience methods *)
(* ===================================================================== *)

Module Convenience.

(** A parameter with a default value: the default stands in for
    [undefined]. *)
Definition orDefault (value : option Z) (default : Z) : Js.Value :=
  match value with
  | Some n => Js.Num n
  | None => Js.Num default
  end.

(** Truthiness of an optional string argument. *)
Definition given (text : option string) : bool :=
  match text with
  | Some s => negb (String.eqb s "")
  | None => false
  end.

Definition text (value : option string) : string :=
  match value with
  | Some s => s
  | None => EmptyString
  end.

(** [{ match_all_query: {} }] *)
Definition matchAll : Js.Value := Js.Obj [("match_all_query", Js.Obj [])].

(** [query ? { text_query: { fields, search_phrase: query } }
          : { match_all_query: {} }] *)
Definition phraseOrAll (fields : list string) (query : option string)
  : Js.Value :=
  if given query then DataAPIToolHandler.textQuery fields (Js.Str (text query))
  else matchAll.

(** [searchProducts(siteId, query, count = 25, start = 0, expand)] *)
Definition searchProducts (self : DataAPIClient.t) (siteId : string)
    (query : option string) (count start : option Z) (expand : option string)
  : M DataAPIResponse :=
  let body :=
    [ ("query", phraseOrAll ["id"; "name"] query);
      ("count", orDefault count 25);
      ("start", orDefault start 0) ] in
  let body :=
    if given expand then
      Js.set body "expand" (Js.Arr (map Js.Str (Js.split "," (text expand))))
    else body in
  DataAPIClient.executeEndpoint self "search_products"
    {| pathParams := Some [("site_id", siteId)];
       queryParams := None;
       body := Some body |}.

(** [getProduct(siteId, productId, expand)] *)
Definition getProduct (self : DataAPIClient.t) (siteId productId : string)
    (expand : option string) : M DataAPIResponse :=
  DataAPIClient.executeEndpoint self "get_product"
    {| pathParams := Some [("site_id", siteId); ("product_id", productId)];
       queryParams :=
         if given expand then Some [("expand", Js.Str (text expand))] else None;
       body := None |}.

(** [getCatalogs(count = 25, start = 0)] *)
Definition getCatalogs (self : DataAPIClient.t) (count start : option Z)
  : M DataAPIResponse :=
  DataAPIClient.executeEndpoint self "get_catalogs"
    {| pathParams := None;
       queryParams :=
         Some [("count", orDefault count 25); ("start", orDefault start 0)];
       body := None |}.

(** [getCatalog(catalogId)] *)
Definition getCatalog (self : DataAPIClient.t) (catalogId : string)
  : M DataAPIResponse :=
  DataAPIClient.executeEndpoint self "get_catalog"
    {| pathParams := Some [("catalog_id", catalogId)];
       queryParams := None;
       body := None |}.

(** [getCategories(catalogId, levels = 1, count = 25, start = 0)] *)
Definition getCategories (self : DataAPIClient.t) (catalogId : string)
    (levels count start : option Z) : M DataAPIResponse :=
  DataAPIClient.executeEndpoint self "get_categories"
    {| pathParams := Some [("catalog_id", catalogId)];
       queryParams :=
         Some [("levels", orDefault levels 1); ("count", orDefault count 25);
               ("start", orDefault start 0)];
       body := None |}.

(** [getSites(count = 25, start = 0)] *)
Definition getSites (self : DataAPIClient.t) (count start : option Z)
  : M DataAPIResponse :=
  DataAPIClient.executeEndpoint self "get_sites"
    {| pathParams := None;
       queryParams :=
         Some [("count", orDefault count 25); ("start", orDefault start 0)];
       body := None |}.

(** [getSite(siteId)] *)
Definition getSite (self : DataAPIClient.t) (siteId : string)
  : M DataAPIResponse :=
  DataAPIClient.executeEndpoint self "get_site"
    {| pathParams := Some [("site_id", siteId)];
       queryParams := None;
       body := None |}.

(** [searchCustomers(siteId, query, count = 25, start = 0)] *)
Definition searchCustomers (self : DataAPIClient.t) (siteId : string)
    (query : option string) (count start : option Z) : M DataAPIResponse :=
  DataAPIClient.executeEndpoint self "search_customers"
    {| pathParams := Some [("site_id", siteId)];
       queryParams := None;
       body :=
         Some [ ("query",
                 phraseOrAll ["email"; "first_name"; "last_name"] query);
                ("count", orDefault count 25);
                ("start", orDefault start 0) ] |}.

(** [searchOrders(siteId, query, count = 25, start = 0)] *)
Definition searchOrders (self : DataAPIClient.t) (siteId : string)
    (query : option string) (count start : option Z) : M DataAPIResponse :=
  DataAPIClient.executeEndpoint self "search_orders"
    {| pathParams := Some [("site_id", siteId)];
       queryParams := None;
       body :=
         Some [ ("query", phraseOrAll ["order_no"; "customer_email"] query);
                ("count", orDefault count 25);
                ("start", orDefault start 0) ] |}.

(** [getOrder(siteId, orderNo, expand)] *)
Definition getOrder (self : DataAPIClient.t) (siteId orderNo : string)
    (expand : option string) : M DataAPIResponse :=
  DataAPIClient.executeEndpoint self "get_order"
    {| pathParams := Some [("site_id", siteId); ("order_no", orderNo)];
       queryParams :=
         if given expand then Some [("expand", Js.Str (text expand))] else None;
       body := None |}.

(** [searchCustomObjects(objectType, count = 25, start = 0)] *)
Definition searchCustomObjects (self : DataAPIClient.t) (objectType : string)
    (count start : option Z) : M DataAPIResponse :=
  DataAPIClient.executeEndpoint self "search_custom_objects"
    {| pathParams := Some [("object_type", objectType)];
       queryParams := None;
       body :=
         Some [ ("query", matchAll);
                ("count", orDefault count 25);
                ("start", orDefault start 0) ] |}.

(** [getCustomObject(objectType, key)] *)
Definition getCustomObject (self : DataAPIClient.t) (objectType key : string)
  : M DataAPIResponse :=
  DataAPIClient.executeEndpoint self "get_custom_object"
    {| pathParams := Some [("object_type", objectType); ("key", key)];
       queryParams := None;
       body := None |}.

(** [getInventoryLists(count = 25, start = 0)] *)
Definition getInventoryLists (self : DataAPIClient.t) (count start : option Z)
  : M DataAPIResponse :=
  DataAPIClient.executeEndpoint self "get_inventory_lists"
    {| pathParams := None;
       queryParams :=
         Some [("count", orDefault count 25); ("start", orDefault start 0)];
       body := None |}.

(** [getProductInventory(inventoryListId, productId)] *)
Definition getProductInventory (self : DataAPIClient.t)
    (inventoryListId productId : string) : M DataAPIResponse :=
  DataAPIClient.executeEndpoint self "get_product_inventory"
    {| pathParams :=
         Some [("inventory_list_id", inventoryListId);
               ("product_id", productId)];
       queryParams := None;
       body := None |}.

(** [getPriceBooks(count = 25, start = 0)] *)
Definition getPriceBooks (self : DataAPIClient.t) (count start : option Z)
  : M DataAPIResponse :=
  DataAPIClient.executeEndpoint self "get_price_books"
    {| pathParams := None;
       queryParams :=
         Some [("count", orDefault count 25); ("start", orDefault start 0)];
       body := None |}.

(** [searchCampaigns(siteId, count = 25, start = 0)] *)
Definition searchCampaigns (self : DataAPIClient.t) (siteId : string)
    (count start : option Z) : M DataAPIResponse :=
  DataAPIClient.executeEndpoint self "search_campaigns"
    {| pathParams := Some [("site_id", siteId)];
       queryParams := None;
       body :=
         Some [ ("query", matchAll);
                ("count", orDefault count 25);
                ("start", orDefault start 0) ] |}.

(** [searchPromotions(siteId, campaignId, count = 25, start = 0)] *)
Definition searchPromotions (self : DataAPIClient.t) (siteId : string)
    (campaignId : option string) (count start : option Z)
  : M DataAPIResponse :=
  DataAPIClient.executeEndpoint self "search_promotions"
    {| pathParams := Some [("site_id", siteId)];
       queryParams := None;
       body :=
         Some [ ("query",
                 if given campaignId
                 then DataAPIToolHandler.termQuery (Js.Str (text campaignId))
                 else matchAll);
                ("count", orDefault count 25);
                ("start", orDefault start 0) ] |}.

(** [searchCoupons(siteId, count = 25, start = 0)] *)
Definition searchCoupons (self : DataAPIClient.t) (siteId : string)
    (count start : option Z) : M DataAPIResponse :=
  DataAPIClient.executeEndpoint self "search_coupons"
    {| pathParams := Some [("site_id", siteId)];
       queryParams := None;
       body :=
         Some [ ("query", matchAll);
                ("count", orDefault count 25);
                ("start", orDefault start 0) ] |}.

End Convenience.

(* ===================================================================== *)
(** * [core/server.ts] *)
(* ===================================================================== *)

Module SFCCDevServer.

(** A registered tool handler, as it stands when a request arrives.  The
    handler classes other than the data-API one are not among the
    sources; what the server uses of a handler is [canHandle] and
    [handle]. *)
Record Handler : Type := {
  canHandle : string -> bool;
  handle : string -> Js.Object -> Z -> M DataAPIToolHandler.ToolResponse
}.

(** The tool lists of [tool-definitions.ts], which is not among the
    sources. *)
Record ToolDefinitions : Type := {
  SFCC_DOCUMENTATION_TOOLS : list Js.Value;
  BEST_PRACTICES_TOOLS : list Js.Value;
  SFRA_DOCUMENTATION_TOOLS : list Js.Value;
  LOG_TOOLS : list Js.Value;
  JOB_LOG_TOOLS : list Js.Value;
  SYSTEM_OBJECT_TOOLS : list Js.Value;
  CODE_VERSION_TOOLS : list Js.Value;
  DATA_API_TOOLS : list Js.Value
}.

(** The fields of the server that the request handlers read. *)
Record t : Type := {
  capabilities : ConfigurationFactory.Capabilities;
  handlers : list Handler
}.

(** A call made to the logger of the server, with its arguments.  The
    object handed to [debug] is computed from the response, which stands
    for it here. *)
Inductive Event : Type :=
  | MethodEntry (methodName : string) (params : option Js.Object)
  | MethodExit (methodName : string)
  | ErrorLine (message : string) (cause : option Js.Thrown)
  | DebugLine (message : string) (response : DataAPIToolHandler.ToolResponse)
  | Timing (operation : string) (startTime : Z).

(** The world of a request: that of the handlers and the calls made to
    the server's logger. *)
Record Scene : Type := {
  world : World;
  events : list Event
}.

Definition Task (A : Type) : Type := Scene -> Js.Outcome A * Scene.

Definition done {A} (a : A) : Task A := fun s => (Js.Returned a, s).

Definition fail {A} (e : Js.Thrown) : Task A := fun s => (Js.Threw e, s).

Definition andThen {A B} (c : Task A) (k : A -> Task B) : Task B :=
  fun s =>
    match c s with
    | (Js.Returned a, s') => k a s'
    | (Js.Threw e, s') => (Js.Threw e, s')
    end.

(** [try { c } catch (error) { handler }] *)
Definition attempt {A} (c : Task A) (handler : Js.Thrown -> Task A) : Task A :=
  fun s =>
    match c s with
    | (Js.Returned a, s') => (Js.Returned a, s')
    | (Js.Threw e, s') => handler e s'
    end.

(** [try { c } finally { last }] *)
Definition ensuring {A} (c : Task A) (last : Task unit) : Task A :=
  fun s =>
    match c s with
    | (outcome, s') =>
        match last s' with
        | (Js.Returned _, s'') => (outcome, s'')
        | (Js.Threw e, s'') => (Js.Threw e, s'')
        end
    end.

Definition emit (event : Event) : Task unit :=
  fun s =>
    (Js.Returned tt, {| world := world s; events := events s ++ [event] |}).

(** [await handler.handle(...)] *)
Definition inWorld {A} (c : M A) : Task A :=
  fun s =>
    match c (world s) with
    | (outcome, w) => (outcome, {| world := w; events := events s |})
    end.

(** The handler of [ListToolsRequestSchema]. *)
Definition listTools (definitions : ToolDefinitions) (self : t)
  : list Js.Value :=
  let tools := [] in
  let tools := tools ++ SFCC_DOCUMENTATION_TOOLS definitions in
  let tools := tools ++ BEST_PRACTICES_TOOLS definitions in
  let tools := tools ++ SFRA_DOCUMENTATION_TOOLS definitions in
  let tools :=
    if ConfigurationFactory.canAccessLogs (capabilities self) then
      (tools ++ LOG_TOOLS definitions) ++ JOB_LOG_TOOLS definitions
    else tools in
  let tools :=
    if ConfigurationFactory.canAccessOCAPI (capabilities self) then
      ((tools ++ SYSTEM_OBJECT_TOOLS definitions)
       ++ CODE_VERSION_TOOLS definitions) ++ DATA_API_TOOLS definitions
    else tools in
  tools.

(** The double quote. *)
Definition quote : string := String (ascii_of_N 34) EmptyString.

(** The envelope built in the [catch] block. *)
Definition errorResult (error : Js.Thrown) : DataAPIToolHandler.ToolResponse :=
  {| DataAPIToolHandler.content :=
       [ {| DataAPIToolHandler.contentType := "text";
            DataAPIToolHandler.text := "Error: " +:+ Js.errorMessage error |} ];
     DataAPIToolHandler.isError := true |}.

(** The handler of [CallToolRequestSchema]; [startTime] is what
    [Date.now()] gives when the request arrives. *)
Definition callTool (self : t) (name : string) (args : option Js.Object)
    (startTime : Z) : Task DataAPIToolHandler.ToolResponse :=
  andThen (emit (MethodEntry ("handleToolRequest:" +:+ name) args))
    (fun _ =>
       ensuring
         (attempt
            (match List.find (fun h => canHandle h name) (handlers self) with
             | None =>
                 andThen
                   (emit (ErrorLine ("Unknown tool requested: " +:+ name) None))
                   (fun _ => fail (Js.Error ("Unknown tool: " +:+ name)))
             | Some handler =>
                 andThen
                   (inWorld
                      (handle handler name
                         (match args with
                          | Some given => given
                          | None => []
                          end)
                         startTime))
                   (fun result =>
                      andThen
                        (emit (DebugLine ("Full response for " +:+ name +:+ ":")
                                 result))
                        (fun _ => done result))
             end)
            (fun error =>
               andThen
                 (emit (ErrorLine
                          ("Error handling tool " +:+ quote +:+ name
                           +:+ quote +:+ ":")
                          (Some error)))
                 (fun _ =>
                    andThen (emit (Timing (name +:+ "_error") startTime))
                      (fun _ =>
                         andThen
                           (emit (DebugLine
                                    ("Error response for " +:+ name +:+ ":")
                                    (errorResult error)))
                           (fun _ => done (errorResult error))))))
         (emit (MethodExit ("handleToolRequest:" +:+ name)))).

End SFCCDevServer.

(* ===================================================================== *)
(** * Vocabulary of the further statements *)
(* ===================================================================== *)


Definition seedEntries (endpoint : Endpoint) : Js.Object :=
  match defaultBody endpoint with
  | Some entries => entries
  | None => []
  end.

(** The byte [c] occurs in [s]. *)
Fixpoint hasByte (c : ascii) (s : string) : bool :=
  match s with
  | EmptyString => false
  | String a rest => Ascii.eqb a c || hasByte c rest
  end.

(** The names every object inherits from [Object.prototype]; a lookup
    [o[name]] finds them also when [o] has no such property of its own. *)
Definition inheritedName (n : string) : bool :=
  existsb (String.eqb n)
    ["constructor"; "toString"; "toLocaleString"; "valueOf";
     "hasOwnProperty"; "isPrototypeOf"; "propertyIsEnumerable"; "__proto__";
     "__defineGetter__"; "__defineSetter__"; "__lookupGetter__";
     "__lookupSetter__"].

(** An entry of the table of tools is consistent: it executes the
    endpoint of its own name, and if it checks required arguments it
    names at least one. *)
Definition entryIsConsistent
    (entry : string * DataAPIToolHandler.GenericToolSpec) : bool :=
  String.eqb (DataAPIToolHandler.exec (snd entry)) (fst entry)
  && match DataAPIToolHandler.validate (snd entry) with
     | None => true
     | Some fields => negb (Nat.eqb (length fields) 0)
     end.

(** ** Reading a query string back *)

(** The value of a hexadecimal digit. *)
Definition hexValue (c : ascii) : option N :=
  let n := N_of_ascii c in
  if ((48 <=? n) && (n <=? 57))%N then Some (n - 48)%N
  else if ((65 <=? n) && (n <=? 70))%N then Some (n - 55)%N
  else if ((97 <=? n) && (n <=? 102))%N then Some (n - 87)%N
  else None.

(** Percent-decoding, byte by byte. *)
Fixpoint percentDecode (s : string) : string :=
  match s with
  | EmptyString => EmptyString
  | String c rest =>
      if Ascii.eqb c "%" then
        match rest with
        | String high (String low later) =>
            match hexValue high, hexValue low with
            | Some h, Some l =>
                String (ascii_of_N (h * 16 + l)) (percentDecode later)
            | _, _ => String c (percentDecode rest)
            end
        | _ => String c (percentDecode rest)
        end
      else String c (percentDecode rest)
  end.

(** The text before the first [c] and the text behind it. *)
Fixpoint cut (c : ascii) (s : string) : string * string :=
  match s with
  | EmptyString => (EmptyString, EmptyString)
  | String a rest =>
      if Ascii.eqb a c then (EmptyString, rest)
      else let '(before, behind) := cut c rest in (String a before, behind)
  end.

(** A query string read back: split at the ampersands, each item cut at
    its first equals sign, both sides decoded. *)
Definition parseQuery (query : string) : list (string * string) :=
  map (fun item =>
         let '(key, value) := cut "=" item in
         (percentDecode key, percentDecode value))
      (Js.split "&" query).

(** ** The command line *)

(** The options of [later] laid over those of [earlier]: what a later
    token sets wins. *)
Definition overlay (later earlier : CommandLine.Options) : CommandLine.Options :=
  {| CommandLine.dwJsonPath :=
       match CommandLine.dwJsonPath later with
       | Some file => Some file
       | None => CommandLine.dwJsonPath earlier
       end;
     CommandLine.debug :=
       match CommandLine.debug later with
       | Some flag => Some flag
       | None => CommandLine.debug earlier
       end |}.

(** ** The server and its handlers *)

(** The context [registerHandlers] hands to the data-API handler: the
    configuration and the capabilities derived from it. *)
Definition contextFor (config : SFCCConfig.t) : DataAPIToolHandler.HandlerContext :=
  {| DataAPIToolHandler.config := config;
     DataAPIToolHandler.capabilities :=
       {| DataAPIToolHandler.canAccessLogs :=
            ConfigurationFactory.canAccessLogs
              (ConfigurationFactory.getCapabilities config);
          DataAPIToolHandler.canAccessOCAPI :=
            ConfigurationFactory.canAccessOCAPI
              (ConfigurationFactory.getCapabilities config) |} |}.


(** ** Samples *)

Module Samples.

(** Options as the entry point builds them from the environment. *)
Definition oauthOptions : ConfigurationFactory.Options :=
  {| ConfigurationFactory.dwJsonPath := None;
     ConfigurationFactory.hostname := Some "dev01.example.com:8443";
     ConfigurationFactory.username := None;
     ConfigurationFactory.password := None;
     ConfigurationFactory.clientId := Some "client";
     ConfigurationFactory.clientSecret := Some "secret";
     ConfigurationFactory.siteId := Some "RefArch";
     ConfigurationFactory.shortCode := None;
     ConfigurationFactory.organizationId := None |}.

Definition dwJson : DwJsonConfig.t :=
  {| DwJsonConfig.hostname := "dev01.example.com";
     DwJsonConfig.username := "admin";
     DwJsonConfig.password := "pass";
     DwJsonConfig.codeVersion := None;
     DwJsonConfig.clientId := Some "client";
     DwJsonConfig.clientSecret := Some "";
     DwJsonConfig.siteId := Some "RefArch";
     DwJsonConfig.shortCode := None;
     DwJsonConfig.organizationId := None |}.

(** A file system that holds [dw.json] in the working directory. *)
Definition disk : ConfigurationFactory.FileSystem :=
  {| ConfigurationFactory.resolve := fun file => "/work/" +:+ file;
     ConfigurationFactory.existsSync := fun file => String.eqb file "/work/dw.json";
     ConfigurationFactory.loadSecureDwJson := fun _ => Js.Returned dwJson |}.

Definition fileOptions : ConfigurationFactory.Options :=
  {| ConfigurationFactory.dwJsonPath := Some "dw.json";
     ConfigurationFactory.hostname := None;
     ConfigurationFactory.username := None;
     ConfigurationFactory.password := None;
     ConfigurationFactory.clientId := None;
     ConfigurationFactory.clientSecret := None;
     ConfigurationFactory.siteId := Some "SiteGenesis";
     ConfigurationFactory.shortCode := None;
     ConfigurationFactory.organizationId := None |}.

(** A catalog whose array holds [null] behind one descriptor: the loop
    indexes the descriptor and throws at the next element. *)
Definition interruptedCatalog : EndpointLoader.Catalog :=
  {| EndpointLoader.configPath := "dist/config/endpoints.json";
     EndpointLoader.content :=
       EndpointLoader.Interrupted [Fixtures.get_product]
         (Js.ErrorObject "TypeError"
            "Cannot read properties of null (reading 'toolName')") |}.





End Samples.

(* ===================================================================== *)
(** * Properties of the endpoint loader *)
(* ===================================================================== *)

Section LoaderFacts.

Import EndpointLoader.

Lemma hasEndpoint_getEndpoint (self : EndpointLoader.t) (toolName : string) :
  hasEndpoint self toolName = false <-> getEndpoint self toolName = None.
Proof.
  unfold hasEndpoint, getEndpoint. rewrite bool_decide_eq_false.
  rewrite eq_None_not_Some. reflexivity.
Qed.

Lemma index_snoc (m : gmap string Endpoint) (es : list Endpoint) (e : Endpoint) :
  index m (es ++ [e]) = <[toolName e := e]> (index m es).
Proof. unfold index. rewrite fold_left_app. reflexivity. Qed.

(** The index maps a name to the last descriptor loaded under it. *)
Lemma index_lookup (m : gmap string Endpoint) (es : list Endpoint) (n : string) :
  index m es !! n =
    match List.find (fun e => String.eqb (toolName e) n) (rev es) with
    | Some e => Some e
    | None => m !! n
    end.
Proof.
  induction es as [|e es IH] using rev_ind.
  - reflexivity.
  - rewrite index_snoc, rev_app_distr. simpl.
    destruct (String.eqb_spec (toolName e) n) as [->|Hne].
    + apply lookup_insert_eq.
    + rewrite lookup_insert_ne by exact Hne. exact IH.
Qed.

Lemma find_last_of_distinct (es : list Endpoint) (d : Endpoint) :
  List.NoDup (map toolName es) -> In d es ->
  List.find (fun e => String.eqb (toolName e) (toolName d)) (rev es) = Some d.
Proof.
  induction es as [|e es IH] using rev_ind; intros Hnd Hin.
  - destruct Hin.
  - rewrite rev_app_distr. simpl.
    rewrite map_app in Hnd. simpl in Hnd.
    apply in_app_or in Hin. destruct Hin as [Hin|[->|[]]].
    + destruct (String.eqb_spec (toolName e) (toolName d)) as [Heq|Hne].
      * exfalso.
        apply NoDup_remove_2 in Hnd. apply Hnd.
        rewrite app_nil_r, Heq. apply in_map. exact Hin.
      * apply IH; [|exact Hin].
        apply NoDup_remove_1 in Hnd. rewrite app_nil_r in Hnd. exact Hnd.
    + rewrite String.eqb_refl. reflexivity.
Qed.

(** A load that succeeds indexes the catalog from an empty map. *)
Lemma getEndpoint_after_load (file : string) (es : list Endpoint) (n : string) :
  getEndpoint
    (fst (create {| configPath := file; content := Parsed (Some es) |})) n
  = lastNamed n es.
Proof.
  change (index ∅ es !! n = lastNamed n es).
  rewrite index_lookup, lookup_empty. unfold lastNamed.
  destruct (List.find _ _); reflexivity.
Qed.

End LoaderFacts.

(** C6, as the code has it: a load that succeeds keeps every descriptor
    of the catalog, in order, and indexes each tool name with the last
    descriptor loaded under it; the loader does not look for duplicates.
    Hence, when the tool names of the catalog are pairwise distinct,
    [getEndpoint] gives back, for the name of each loaded descriptor, that
    very descriptor. *)
Theorem getEndpoint_roundtrip (file : string) (es : list Endpoint) :
  let loader :=
    fst (EndpointLoader.create
           {| EndpointLoader.configPath := file;
              EndpointLoader.content := EndpointLoader.Parsed (Some es) |}) in
  EndpointLoader.getEndpoints loader = es /\
  (forall n, EndpointLoader.getEndpoint loader n = lastNamed n es) /\
  (List.NoDup (map toolName es) ->
   forall d, In d es ->
     EndpointLoader.getEndpoint loader (toolName d) = Some d /\
     EndpointLoader.hasEndpoint loader (toolName d) = true).
Proof.
  intros loader.
  assert (Hlast : forall n, EndpointLoader.getEndpoint loader n = lastNamed n es).
  { intros n. apply getEndpoint_after_load. }
  split; [reflexivity|]. split; [exact Hlast|].
  intros Hnd d Hin.
  assert (Hget : EndpointLoader.getEndpoint loader (toolName d) = Some d).
  { rewrite Hlast. apply find_last_of_distinct; assumption. }
  split; [exact Hget|].
  destruct (EndpointLoader.hasEndpoint loader (toolName d)) eqn:Hhas;
    [reflexivity|].
  apply hasEndpoint_getEndpoint in Hhas. congruence.
Qed.

Lemma getEndpoint_roundtrip_witness :
  List.NoDup (map toolName [Fixtures.get_catalogs; Fixtures.get_product]) /\
  In Fixtures.get_product [Fixtures.get_catalogs; Fixtures.get_product] /\
  EndpointLoader.getEndpoint
    (fst (EndpointLoader.create
            (Fixtures.catalogOf [Fixtures.get_catalogs; Fixtures.get_product])))
    "get_product" = Some Fixtures.get_product.
Proof.
  assert (Hnd : List.NoDup
                  (map toolName [Fixtures.get_catalogs; Fixtures.get_product])).
  { simpl. repeat constructor; simpl; intuition discriminate. }
  assert (Hin : In Fixtures.get_product
                  [Fixtures.get_catalogs; Fixtures.get_product]).
  { simpl. auto. }
  split; [exact Hnd|]. split; [exact Hin|].
  exact (proj1 (proj2 (proj2
    (getEndpoint_roundtrip "dist/config/endpoints.json"
       [Fixtures.get_catalogs; Fixtures.get_product])) Hnd _ Hin)).
Defined.

(** C6, as stated, fails: a catalog with two descriptors under one tool
    name loads without an error, both stay in the list, and [getEndpoint]
    answers with the second one, so the first one does not round-trip. *)
Lemma duplicate_names_last_wins :
  let loader :=
    fst (EndpointLoader.create
           (Fixtures.catalogOf [Fixtures.first_twin; Fixtures.second_twin])) in
  EndpointLoader.getEndpoints loader
    = [Fixtures.first_twin; Fixtures.second_twin] /\
  ~ List.NoDup (map toolName (EndpointLoader.getEndpoints loader)) /\
  EndpointLoader.getEndpoint loader (toolName Fixtures.first_twin)
    = Some Fixtures.second_twin /\
  EndpointLoader.getEndpoint loader (toolName Fixtures.first_twin)
    <> Some Fixtures.first_twin.
Proof.
  intros loader.
  assert (Hget : EndpointLoader.getEndpoint loader "twin"
                 = Some Fixtures.second_twin).
  { subst loader. unfold Fixtures.catalogOf.
    rewrite getEndpoint_after_load. reflexivity. }
  split; [reflexivity|]. split; [|split].
  - intros H. inversion H as [|? ? Hnotin _]. apply Hnotin. simpl. auto.
  - exact Hget.
  - change (toolName Fixtures.first_twin) with "twin".
    rewrite Hget. intros H. discriminate H.
Qed.

(** C5, where the code departs from it: when the catalog cannot be read
    or parsed, the load still ends normally and the built-in descriptor
    is listed by [getEndpoints] and [getToolNames], but the fallback never
    reaches the index, so [getEndpoint] and [hasEndpoint] do not find it
    and the client reports it as an unknown endpoint.  The line logged is
    of level error. *)
Theorem fallback_is_listed_but_not_indexed (catalog : EndpointLoader.Catalog)
    (e : Js.Thrown) :
  loadFailure (EndpointLoader.content catalog) = Some e ->
  let outcome := EndpointLoader.create catalog in
  let loader := fst outcome in
  EndpointLoader.getEndpoints loader = EndpointLoader.getDefaultEndpoints /\
  EndpointLoader.getToolNames loader = ["get_catalogs"] /\
  EndpointLoader.getEndpoint loader "get_catalogs" = None /\
  EndpointLoader.hasEndpoint loader "get_catalogs" = false /\
  snd outcome =
    [(LogDebug, "Loading endpoints from: " +:+ EndpointLoader.configPath catalog);
     (LogError, "Failed to load endpoints: " +:+ Js.thrownToString e)].
Proof.
  destruct catalog as [file [e'|e'|es|indexed e']];
    cbn [loadFailure EndpointLoader.content];
    intros Hfailure; inversion Hfailure; subst e'; cbv zeta;
    (split; [reflexivity|]); (split; [reflexivity|]);
    (split; [apply lookup_empty|]);
    (split; [|reflexivity]);
    apply hasEndpoint_getEndpoint; apply lookup_empty.
Qed.

Lemma fallback_is_listed_but_not_indexed_witness :
  EndpointLoader.getEndpoints (fst (EndpointLoader.create Fixtures.missingCatalog))
    = EndpointLoader.getDefaultEndpoints /\
  EndpointLoader.getEndpoint (fst (EndpointLoader.create Fixtures.missingCatalog))
    "get_catalogs" = None.
Proof.
  pose proof (fallback_is_listed_but_not_indexed Fixtures.missingCatalog
                (Js.Error "ENOENT: no such file or directory") eq_refl) as H.
  cbv zeta in H. destruct H as (H1 & _ & H3 & _).
  split; [exact H1 | exact H3].
Defined.

(* ===================================================================== *)
(** * Properties of the client's dispatcher *)
(* ===================================================================== *)

(** C2: for a tool name the registry does not hold, [executeEndpoint]
    returns the 400 envelope whose error is "Unknown endpoint: " followed
    by the name, and the world is left as it was: no transport call is
    made (and nothing is logged). *)
Theorem unknown_endpoint_short_circuit (self : DataAPIClient.t)
    (toolName : string) (params : DataAPIRequestParams) (w : World) :
  DataAPIClient.hasEndpoint self toolName = false ->
  DataAPIClient.executeEndpoint self toolName params w =
    (Js.Returned {| data := Js.Null;
                    status := 400;
                    success := false;
                    error := Some ("Unknown endpoint: " +:+ toolName) |},
     w).
Proof.
  intros Habsent. apply hasEndpoint_getEndpoint in Habsent.
  unfold DataAPIClient.executeEndpoint. rewrite Habsent. reflexivity.
Qed.

Lemma unknown_endpoint_short_circuit_witness :
  DataAPIClient.hasEndpoint Fixtures.client "unknown_endpoint" = false /\
  DataAPIClient.executeEndpoint Fixtures.client "unknown_endpoint"
    Fixtures.noParams Fixtures.quiet =
    (Js.Returned {| data := Js.Null;
                    status := 400;
                    success := false;
                    error := Some "Unknown endpoint: unknown_endpoint" |},
     Fixtures.quiet).
Proof.
  assert (H : DataAPIClient.hasEndpoint Fixtures.client "unknown_endpoint"
              = false) by (vm_compute; reflexivity).
  split; [exact H|].
  exact (unknown_endpoint_short_circuit Fixtures.client "unknown_endpoint"
           Fixtures.noParams Fixtures.quiet H).
Defined.



(** C10, as the code has it: [setSiteId] stores the value and [getSiteId]
    reads it back, but [executeEndpoint] does not consult it: a call gives
    the same envelope, the same transport calls and the same log lines
    whatever value was stored. *)
Theorem siteId_is_stored_but_not_consulted (self : DataAPIClient.t)
    (site : string) (toolName : string) (params : DataAPIRequestParams)
    (w : World) :
  DataAPIClient.getSiteId (DataAPIClient.setSiteId self site) = Some site /\
  DataAPIClient.executeEndpoint (DataAPIClient.setSiteId self site)
    toolName params w
  = DataAPIClient.executeEndpoint self toolName params w.
Proof. split; reflexivity. Qed.

(** C10, as stated, fails: with the selector set to "SiteGenesis" and
    then to "RefArch", a later [executeEndpoint] for a descriptor whose
    path awaits a site gives the same envelope through the same single
    transport call; the stored value does not reach the request. *)
Lemma siteId_does_not_affect_calls :
  let genesis := DataAPIClient.setSiteId Fixtures.client "SiteGenesis" in
  let refArch := DataAPIClient.setSiteId Fixtures.client "RefArch" in
  DataAPIClient.getSiteId genesis <> DataAPIClient.getSiteId refArch /\
  DataAPIClient.executeEndpoint genesis "compare_site" Fixtures.noParams
    Fixtures.quiet
  = DataAPIClient.executeEndpoint refArch "compare_site" Fixtures.noParams
      Fixtures.quiet /\
  calls (snd (DataAPIClient.executeEndpoint refArch "compare_site"
                Fixtures.noParams Fixtures.quiet))
  = [ {| verb := "GET";
         url := "/sites/{site_id}/mirror/{site_id}";
         sent := None |} ].
Proof.
  split; [discriminate|]. split; vm_compute; reflexivity.
Qed.

(* ===================================================================== *)
(** * Properties of the request builder *)
(* ===================================================================== *)

Section DictionaryFacts.
Context {V : Type}.
Implicit Types (o : list (string * V)) (k : string) (v : V).

Lemma get_set_eq o k v : Js.get (Js.set o k v) k = Some v.
Proof.
  induction o as [|[k' v'] o IH]; simpl.
  - rewrite String.eqb_refl. reflexivity.
  - destruct (String.eqb k' k) eqn:E; simpl; rewrite E; [reflexivity | exact IH].
Qed.

Lemma get_set_ne o k k' v : k <> k' -> Js.get (Js.set o k v) k' = Js.get o k'.
Proof.
  intros Hne. induction o as [|[k0 v0] o IH]; simpl.
  - destruct (String.eqb_spec k k'); [contradiction | reflexivity].
  - destruct (String.eqb_spec k0 k) as [->|Hk]; simpl.
    + destruct (String.eqb_spec k k'); [contradiction | reflexivity].
    + destruct (String.eqb k0 k'); [reflexivity | exact IH].
Qed.


End DictionaryFacts.



Section Classification.

Import DataAPIToolHandler.

Variable endpoint : Endpoint.
Variable args : Js.Object.


End Classification.

Section Builder.

Import DataAPIToolHandler.






End Builder.

Section CampaignFilter.

Import DataAPIToolHandler.

(** [body.query] after the guarded block, for any tool. *)
Lemma searchBody_query (toolName : string) (seed args : Js.Object) :
  expandIsUsable args ->
  exists fields,
    searchBody toolName seed args = Js.Returned fields /\
    Js.get fields "query" =
      if String.eqb toolName "search_promotions"
         && Js.truthy (Js.prop args "campaign_id")
      then Some (termQuery (Js.prop args "campaign_id"))
      else if Js.truthy (Js.prop args "query")
      then Some (textQuery (getSearchFieldsForTool toolName)
                   (Js.prop args "query"))
      else Js.get seed "query".
Proof.
  intros Husable. unfold searchBody.
  set (b1 := if Js.truthy (Js.prop args "query")
             then Js.set seed "query"
                    (textQuery (getSearchFieldsForTool toolName)
                       (Js.prop args "query"))
             else seed).
  assert (H1 : Js.get b1 "query" =
               if Js.truthy (Js.prop args "query")
               then Some (textQuery (getSearchFieldsForTool toolName)
                            (Js.prop args "query"))
               else Js.get seed "query").
  { subst b1. destruct (Js.truthy (Js.prop args "query"));
      [apply get_set_eq | reflexivity]. }
  set (b2 := match Js.prop args "count" with
             | Js.Undefined => b1
             | count => Js.set b1 "count" count
             end).
  assert (H2 : Js.get b2 "query" = Js.get b1 "query").
  { subst b2. destruct (Js.prop args "count");
      [reflexivity | apply get_set_ne; discriminate ..]. }
  set (b3 := match Js.prop args "start" with
             | Js.Undefined => b2
             | start => Js.set b2 "start" start
             end).
  assert (H3 : Js.get b3 "query" = Js.get b2 "query").
  { subst b3. destruct (Js.prop args "start");
      [reflexivity | apply get_set_ne; discriminate ..]. }
  assert (Hexpand : exists b4,
             (if Js.truthy (Js.prop args "expand")
              then match splitExpand (Js.prop args "expand") with
                   | Js.Returned list => Js.Returned (Js.set b3 "expand" list)
                   | Js.Threw e => Js.Threw e
                   end
              else Js.Returned b3) = Js.Returned b4 /\
             Js.get b4 "query" = Js.get b3 "query").
  { destruct Husable as [Hfalsy | [text Hstring]].
    - rewrite Hfalsy. exists b3. split; reflexivity.
    - rewrite Hstring. cbn [splitExpand]. destruct (Js.truthy (Js.Str text)).
      + eexists. split; [reflexivity | apply get_set_ne; discriminate].
      + exists b3. split; reflexivity. }
  destruct Hexpand as (b4 & Hb4 & H4).
  rewrite Hb4.
  destruct (String.eqb toolName "search_promotions"
            && Js.truthy (Js.prop args "campaign_id")).
  - eexists. split; [reflexivity | apply get_set_eq].
  - exists b4. split; [reflexivity|]. rewrite H4, H3, H2. exact H1.
Qed.

(** C1, as the code has it: when the descriptor of the promotion search
    is a POST with a default body (and [expand], if given, is a string),
    the request is built and its [body.query] is decided by truthiness.  A
    truthy campaign identifier (a non-empty string, say) makes it exactly
    the term query on that campaign, whatever the free-text [query]
    argument is, and no text query.  A falsy one (absent, [null], the
    empty string) leaves the text query of a truthy [query] argument, or
    else the query of the default body. *)
Theorem campaign_filter_supersedes_text_query (self : t) (endpoint : Endpoint)
    (seed args : Js.Object) :
  EndpointLoader.getEndpoint (endpointLoader self) "search_promotions"
    = Some endpoint ->
  method endpoint = "POST" ->
  defaultBody endpoint = Some seed ->
  expandIsUsable args ->
  exists p,
    buildRequestParams self "search_promotions" args = Js.Returned p /\
    bodyQuery p =
      (if Js.truthy (Js.prop args "campaign_id")
       then Some (termQuery (Js.prop args "campaign_id"))
       else if Js.truthy (Js.prop args "query")
       then Some (textQuery ["id"; "name"] (Js.prop args "query"))
       else Js.get seed "query") /\
    (Js.truthy (Js.prop args "campaign_id") = true ->
     forall fields phrase, bodyQuery p <> Some (textQuery fields phrase)).
Proof.
  intros Hknown Hpost Hseed Husable.
  destruct (searchBody_query "search_promotions" seed args Husable)
    as (fields & Hfields & Hquery).
  unfold buildRequestParams. rewrite Hknown, Hpost, String.eqb_refl, Hseed.
  destruct (classify endpoint args) as [paths queries].
  rewrite Hfields.
  eexists. split; [reflexivity|].
  unfold bodyQuery. cbn [body]. rewrite Hquery, String.eqb_refl. cbn [andb].
  split; [reflexivity|].
  intros Hcampaign ? ? H. rewrite Hcampaign in H. discriminate H.
Qed.

Lemma campaign_filter_supersedes_text_query_witness :
  let args := [("site_id", Js.Str "RefArch"); ("query", Js.Str "sale");
               ("campaign_id", Js.Str "summer")] in
  exists p,
    buildRequestParams Fixtures.handler "search_promotions" args
      = Js.Returned p /\
    bodyQuery p =
      Some (Js.Obj
              [("term_query",
                Js.Obj [("fields", Js.Arr [Js.Str "campaign_id"]);
                        ("operator", Js.Str "is");
                        ("values", Js.Arr [Js.Str "summer"])])]).
Proof.
  intros args.
  assert (Hknown : EndpointLoader.getEndpoint (endpointLoader Fixtures.handler)
                     "search_promotions" = Some Fixtures.search_promotions)
    by (vm_compute; reflexivity).
  destruct (campaign_filter_supersedes_text_query Fixtures.handler
              Fixtures.search_promotions
              [("query", Js.Obj [("match_all_query", Js.Obj [])])] args
              Hknown eq_refl eq_refl (or_introl eq_refl))
    as (p & Hbuilt & Hquery & _).
  exists p. split; [exact Hbuilt | exact Hquery].
Defined.

(** C1, as stated, fails: an argument bag that holds both [query] and
    [campaign_id], the latter being the empty string, is built into a body
    whose [query] is the text query; the term query does not appear. *)
Lemma empty_campaign_keeps_text_query :
  let args := [("site_id", Js.Str "RefArch"); ("query", Js.Str "sale");
               ("campaign_id", Js.Str "")] in
  Js.has args "query" = true /\
  Js.has args "campaign_id" = true /\
  exists p,
    buildRequestParams Fixtures.handler "search_promotions" args
      = Js.Returned p /\
    bodyQuery p = Some (textQuery ["id"; "name"] (Js.Str "sale")) /\
    bodyQuery p <> Some (termQuery (Js.prop args "campaign_id")).
Proof.
  intros args. split; [reflexivity|]. split; [reflexivity|].
  eexists. split; [vm_compute; reflexivity|].
  split; [vm_compute; reflexivity|].
  vm_compute. intros H. discriminate H.
Qed.

End CampaignFilter.

(* ===================================================================== *)
(** * The capability gate *)
(* ===================================================================== *)

Section ClosedGate.

Import DataAPIToolHandler.

Variable net : Transport.
Variable render : Js.Value -> string.

(** Without the capability [onInitialize] warns and leaves the client
    unset. *)
Lemma onInitialize_closed (self : t) (w : World) :
  canAccessOCAPI (capabilities (context self)) = false ->
  onInitialize net self w =
    (Js.Returned self,
     {| calls := calls w;
        logged := logged w ++
          [(LogWarn,
            "OCAPI access not available - Data API handler will not be functional")] |}).
Proof. intros Hclosed. unfold onInitialize. rewrite Hclosed. reflexivity. Qed.

(** One call on a closed gate. *)
Lemma handle_closed (self : t) (toolName : string) (args : Js.Object)
    (startTime : Z) (w : World) :
  gateClosed self ->
  exists w',
    handle net render self toolName args startTime w =
      (Js.Returned
         (self,
          errorResponse
            "Data API client not initialized. Check OCAPI credentials."),
       w') /\
    calls w' = calls w.
Proof.
  intros [Hclosed Hunset].
  unfold handle, createExecutionContext, initialize, bind.
  rewrite (onInitialize_closed self w Hclosed).
  unfold ret. cbn [fst snd]. rewrite Hunset.
  unfold tryCatch, bind, executeEndpoint, throw, ret, log.
  cbn [calls logged Js.errorMessage Js.Error]. eexists. split; reflexivity.
Qed.

End ClosedGate.

(** C9: a handler constructed in a context without the data-API
    capability has no client: [onInitialize] only warns, without a
    transport call, and [executeEndpoint], handed a context without
    client, throws "Data API client not initialized. Check OCAPI
    credentials." before it builds or sends anything.  Hence no call ever
    gives the handler a client, and every call of a session on tool names
    it owns ends normally with the error envelope that carries this
    message; the session makes no transport call.  (The spec leaves a
    call on a name the handler does not own outside the contract of
    [handle].) *)
Theorem closed_gate_fails_closed (net : Transport) (render : Js.Value -> string)
    (context : DataAPIToolHandler.HandlerContext) (loader : EndpointLoader.t)
    (session : list ToolCall) (w : World) :
  DataAPIToolHandler.canAccessOCAPI (DataAPIToolHandler.capabilities context)
    = false ->
  Forall (fun call =>
            DataAPIToolHandler.canHandle
              (DataAPIToolHandler.create context loader)
              (calledTool call) = true) session ->
  let self := DataAPIToolHandler.create context loader in
  (exists w1,
     DataAPIToolHandler.onInitialize net self w = (Js.Returned self, w1) /\
     DataAPIToolHandler.dataAPIClient self = None /\
     calls w1 = calls w) /\
  (forall toolName args w0,
     DataAPIToolHandler.executeEndpoint self toolName args
       (DataAPIToolHandler.dataAPIClient self) w0
     = (Js.Threw
          (Js.Error "Data API client not initialized. Check OCAPI credentials."),
        w0)) /\
  exists self' responses w',
    handleAll net render self session w
      = (Js.Returned (self', responses), w') /\
    DataAPIToolHandler.dataAPIClient self' = None /\
    length responses = length session /\
    Forall (fun response =>
              response =
                DataAPIToolHandler.errorResponse
                  "Data API client not initialized. Check OCAPI credentials.")
           responses /\
    Forall notInitialized responses /\
    calls w' = calls w.
Proof.
  intros Hclosed _ self.
  split; [|split].
  { eexists. split; [apply onInitialize_closed; exact Hclosed|].
    split; reflexivity. }
  { intros toolName args w0. reflexivity. }
  assert (Hgate : gateClosed self)
    by (split; [exact Hclosed | reflexivity]).
  revert Hgate. generalize self as handler. clear self.
  intros self Hgate. revert w.
  induction session as [|call later IH]; intros w.
  - exists self, [], w. cbn.
    split; [reflexivity|]. split; [exact (proj2 Hgate)|].
    split; [reflexivity|]. split; [constructor|].
    split; [constructor | reflexivity].
  - destruct (handle_closed net render self
                (calledTool call)
                (arguments call)
                (startTime call) w Hgate)
      as (w1 & Hfirst & Hcalls1).
    destruct (IH w1)
      as (self' & responses & w' & Hrest & Hunset & Hlen & Hexact & Hall & Hcalls).
    cbn [handleAll]. unfold bind at 1. rewrite Hfirst.
    cbn [fst snd]. unfold bind at 1. rewrite Hrest. unfold ret. cbn [fst snd].
    eexists. eexists. eexists. split; [reflexivity|].
    split; [exact Hunset|]. split; [cbn; rewrite Hlen; reflexivity|].
    split; [constructor; [reflexivity|exact Hexact]|].
    split; [|rewrite Hcalls; exact Hcalls1].
    constructor; [|exact Hall].
    split; reflexivity.
Qed.

Lemma closed_gate_fails_closed_witness :
  let session :=
    [ {| calledTool := "get_catalogs";
         arguments := [];
         startTime := 0 |};
      {| calledTool := "get_product";
         arguments := [("site_id", Js.Str "test")];
         startTime := 7 |} ] in
  exists self' w',
    handleAll Fixtures.echo Js.toString Fixtures.handler
      session Fixtures.quiet
      = (Js.Returned
           (self',
            [DataAPIToolHandler.errorResponse
               "Data API client not initialized. Check OCAPI credentials.";
             DataAPIToolHandler.errorResponse
               "Data API client not initialized. Check OCAPI credentials."]),
         w') /\
    calls w' = [].
Proof.
  intros session.
  assert (Hclosed :
    DataAPIToolHandler.canAccessOCAPI
      (DataAPIToolHandler.capabilities Fixtures.localContext) = false)
    by reflexivity.
  assert (Howned :
    Forall (fun call =>
              DataAPIToolHandler.canHandle
                (DataAPIToolHandler.create Fixtures.localContext Fixtures.loader)
                (calledTool call) = true) session).
  { repeat constructor; vm_compute; reflexivity. }
  destruct (closed_gate_fails_closed Fixtures.echo Js.toString
              Fixtures.localContext Fixtures.loader session Fixtures.quiet
              Hclosed Howned)
    as (_ & _ & self' & responses & w' & Hrun & _ & Hlen & Hexact & _ & Hcalls).
  exists self', w'. split; [|exact Hcalls].
  unfold Fixtures.handler. rewrite Hrun.
  destruct responses as [|first [|second [|third more]]];
    try discriminate Hlen.
  inversion Hexact as [|? ? Hfirst Hrest]; subst.
  inversion Hrest as [|? ? Hsecond _]; subst.
  reflexivity.
Defined.

(* ===================================================================== *)
(** * Properties of the URL builder *)
(* ===================================================================== *)

Section QueryString.

Lemma append_empty (a b : string) : a +:+ b = "" -> a = "" /\ b = "".
Proof.
  destruct a as [|c a]; intros H.
  - split; [reflexivity | exact H].
  - change (String c a +:+ b) with (String c (a +:+ b)) in H. discriminate H.
Qed.

Lemma append_nonempty_r (a : string) (c : ascii) (b : string) :
  String.eqb (a +:+ String c b) "" = false.
Proof.
  destruct (String.eqb_spec (a +:+ String c b) "") as [H|]; [|reflexivity].
  apply append_empty in H. destruct H as [_ H]. discriminate H.
Qed.





Lemma separator_nonempty (a : string) (c : ascii) (b : string) :
  String.eqb (a +:+ String c "" +:+ b) "" = false.
Proof. exact (append_nonempty_r a c b). Qed.


End QueryString.

(* ===================================================================== *)
(** * The path of the URL, on templates *)
(* ===================================================================== *)

Section PathTemplate.

Lemma append_assoc (a b c : string) : (a +:+ b) +:+ c = a +:+ b +:+ c.
Proof.
  induction a as [|x a IH]; [reflexivity|].
  change (String x (a +:+ b) +:+ c = String x (a +:+ b +:+ c)).
  change (String x ((a +:+ b) +:+ c) = String x (a +:+ b +:+ c)).
  rewrite IH. reflexivity.
Qed.

Lemma startsWith_append (p rest : string) : Js.startsWith p (p +:+ rest) = true.
Proof.
  induction p as [|x p IH]; [reflexivity|].
  change (Js.startsWith (String x p) (String x (p +:+ rest)) = true).
  cbn [Js.startsWith]. rewrite Ascii.eqb_refl. exact IH.
Qed.

Lemma drop_append (p rest : string) :
  Js.drop (String.length p) (p +:+ rest) = rest.
Proof. induction p as [|x p IH]; [reflexivity | exact IH]. Qed.

Lemma braceFree_append (a b : string) :
  braceFree (a +:+ b) = braceFree a && braceFree b.
Proof.
  induction a as [|x a IH]; [reflexivity|].
  change (braceFree (String x (a +:+ b))
          = braceFree (String x a) && braceFree b).
  cbn [braceFree]. rewrite IH, andb_assoc. reflexivity.
Qed.

(** The output of [encodeURIComponent] holds no brace (and no dollar
    sign): only unreserved bytes, percent signs and hexadecimal digits. *)
Lemma unreserved_no_brace (a : ascii) :
  Js.unreserved a = true -> isBrace a = false.
Proof.
  destruct a as [[] [] [] [] [] [] [] []]; vm_compute;
    solve [reflexivity | intros H; discriminate H].
Qed.

Lemma percentEncode_braceFree (a : ascii) :
  braceFree (Js.percentEncode a) = true.
Proof. destruct a as [[] [] [] [] [] [] [] []]; vm_compute; reflexivity. Qed.

Lemma encodeURIComponent_braceFree (s : string) :
  braceFree (Js.encodeURIComponent s) = true.
Proof.
  induction s as [|a s IH]; [reflexivity|].
  cbn [Js.encodeURIComponent].
  destruct (Js.unreserved a) eqn:Hkept.
  - cbn [braceFree]. rewrite (unreserved_no_brace a Hkept), IH. reflexivity.
  - rewrite braceFree_append, percentEncode_braceFree, IH. reflexivity.
Qed.

Lemma replace_unfold (s p r : string) :
  Js.replace s p r =
    if Js.startsWith p s then r +:+ Js.drop (String.length p) s
    else match s with
         | EmptyString => EmptyString
         | String c rest => String c (Js.replace rest p r)
         end.
Proof. destruct s; reflexivity. Qed.

Lemma replace_at_start (p rest r : string) :
  Js.replace (p +:+ rest) p r = r +:+ rest.
Proof.
  rewrite replace_unfold, startsWith_append, drop_append. reflexivity.
Qed.

(** A search for a placeholder steps over text without braces. *)
Lemma replace_skips_text (text rest : string) (q r : string) :
  braceFree text = true ->
  Js.replace (text +:+ rest) (String "{" q) r
  = text +:+ Js.replace rest (String "{" q) r.
Proof.
  induction text as [|x text IH]; intros Hfree; [reflexivity|].
  cbn [braceFree] in Hfree. apply andb_prop in Hfree. destruct Hfree as [Hx Hfree].
  change (Js.replace (String x (text +:+ rest)) (String "{" q) r
          = String x (text +:+ Js.replace rest (String "{" q) r)).
  cbn [Js.replace Js.startsWith].
  assert (Hne : Ascii.eqb "{" x = false).
  { unfold isBrace in Hx. rewrite Ascii.eqb_sym.
    destruct (Ascii.eqb x "{"); [discriminate Hx | reflexivity]. }
  rewrite Hne, IH by exact Hfree. reflexivity.
Qed.

(** Two labels without braces of which one, closed, starts the other,
    closed, are the same label. *)
Lemma same_label (key label rest : string) :
  braceFree key = true ->
  braceFree label = true ->
  Js.startsWith (key +:+ "}") (label +:+ "}" +:+ rest) = true ->
  key = label.
Proof.
  revert label. induction key as [|x key IH]; intros [|y label] Hkey Hlabel.
  - reflexivity.
  - cbn [braceFree] in Hlabel. apply andb_prop in Hlabel.
    destruct Hlabel as [Hy _].
    change (Js.startsWith (String "}" "") (String y (label +:+ "}" +:+ rest))
            = true -> "" = String y label).
    cbn [Js.startsWith]. unfold isBrace in Hy. rewrite Ascii.eqb_sym.
    destruct (Ascii.eqb y "}"); [|intros H; discriminate H].
    rewrite orb_true_r in Hy. discriminate Hy.
  - cbn [braceFree] in Hkey. apply andb_prop in Hkey. destruct Hkey as [Hx _].
    change (Js.startsWith (String x (key +:+ "}")) (String "}" rest) = true
            -> String x key = "").
    cbn [Js.startsWith]. unfold isBrace in Hx.
    destruct (Ascii.eqb x "}"); [|intros H; discriminate H].
    rewrite orb_true_r in Hx. discriminate Hx.
  - cbn [braceFree] in Hkey, Hlabel.
    apply andb_prop in Hkey. apply andb_prop in Hlabel.
    destruct Hkey as [_ Hkey]. destruct Hlabel as [_ Hlabel].
    change (Js.startsWith (String x (key +:+ "}"))
              (String y (label +:+ "}" +:+ rest)) = true
            -> String x key = String y label).
    cbn [Js.startsWith].
    destruct (Ascii.eqb_spec x y) as [->|]; [|intros H; discriminate H].
    intros H. f_equal. exact (IH label Hkey Hlabel H).
Qed.

(** [replace] on a rendered template fills the first placeholder of the
    key, and nothing else. *)
Lemma replace_fills_first (template : list Segment) (key value : string) :
  plain template ->
  braceFree key = true ->
  Js.replace (render template) ("{" +:+ key +:+ "}") value
  = render (fillFirst key value template).
Proof.
  intros Hplain Hkey.
  induction template as [|[text|label] rest IH].
  - reflexivity.
  - inversion Hplain as [|? ? Htext Hrest]; subst.
    cbn [render renderSegment fillFirst].
    change ("{" +:+ key +:+ "}") with (String "{" (key +:+ "}")).
    rewrite replace_skips_text by exact Htext.
    change (String "{" (key +:+ "}")) with ("{" +:+ key +:+ "}").
    rewrite IH by exact Hrest. reflexivity.
  - inversion Hplain as [|? ? Hlabel Hrest]; subst.
    cbn [segmentText] in Hlabel.
    cbn [render renderSegment fillFirst].
    destruct (String.eqb_spec label key) as [->|Hne].
    + rewrite replace_at_start. reflexivity.
    + rewrite !append_assoc.
      change ("{" +:+ label +:+ "}" +:+ render rest)
        with (String "{" (label +:+ "}" +:+ render rest)).
      change ("{" +:+ key +:+ "}") with (String "{" (key +:+ "}")).
      cbn [Js.replace Js.startsWith]. rewrite Ascii.eqb_refl.
      destruct (Js.startsWith (key +:+ "}") (label +:+ "}" +:+ render rest))
        eqn:Hmatch.
      * exfalso. apply Hne. symmetry.
        exact (same_label key label (render rest) Hkey Hlabel Hmatch).
      * rewrite replace_skips_text by exact Hlabel.
        change ("}" +:+ render rest) with (String "}" (render rest)).
        cbn [Js.replace Js.startsWith].
        replace (Ascii.eqb "{" "}") with false by reflexivity.
        change (String "{" (key +:+ "}")) with ("{" +:+ key +:+ "}").
        rewrite IH by exact Hrest.
        cbn [render renderSegment]. rewrite !append_assoc. reflexivity.
Qed.

End PathTemplate.

Section PathConstruction.

Lemma fillFirst_plain (template : list Segment) (key value : string) :
  plain template -> braceFree value = true ->
  plain (fillFirst key value template).
Proof.
  intros Hplain Hvalue. induction Hplain as [|[text|label] rest Hhead Hrest IH].
  - constructor.
  - cbn [fillFirst]. constructor; assumption.
  - cbn [fillFirst]. destruct (String.eqb label key).
    + constructor; [exact Hvalue | exact Hrest].
    + constructor; assumption.
Qed.

(** What the first loop of [buildUrl] does to a path, whatever the
    template: entry after entry, the first placeholder of the key is
    replaced by the encoded value. *)
Lemma fillPath_fills_in_order (entries : list (string * string))
    (template : list Segment) :
  plain template ->
  Forall (fun entry => braceFree (fst entry) = true) entries ->
  DataAPIClient.fillPath (render template) entries
  = render (fillInOrder entries template).
Proof.
  intros Hplain Hkeys. revert template Hplain.
  induction Hkeys as [|[key value] entries Hkey Hkeys IH]; intros template Hplain.
  - reflexivity.
  - unfold DataAPIClient.fillPath, fillInOrder. cbn [fold_left].
    cbn [fst] in Hkey.
    rewrite (replace_fills_first template key _ Hplain Hkey).
    apply IH. apply fillFirst_plain;
      [exact Hplain | apply encodeURIComponent_braceFree].
Qed.

Lemma placeholders_fillFirst (template : list Segment) (key value x : string) :
  In x (placeholders (fillFirst key value template)) ->
  In x (placeholders template).
Proof.
  induction template as [|[text|label] rest IH]; cbn [fillFirst placeholders].
  - intros H; exact H.
  - exact IH.
  - destruct (String.eqb label key); cbn [placeholders].
    + intros H. right. exact H.
    + intros [H|H]; [left; exact H | right; exact (IH H)].
Qed.

Lemma fillFirst_distinct (template : list Segment) (key value : string) :
  List.NoDup (placeholders template) ->
  List.NoDup (placeholders (fillFirst key value template)).
Proof.
  induction template as [|[text|label] rest IH]; cbn [fillFirst placeholders];
    intros Hnd.
  - exact Hnd.
  - exact (IH Hnd).
  - inversion Hnd as [|? ? Hfresh Hrest]; subst.
    destruct (String.eqb label key); cbn [placeholders].
    + exact Hrest.
    + constructor; [|exact (IH Hrest)].
      intros Hin. apply Hfresh. exact (placeholders_fillFirst _ _ _ _ Hin).
Qed.

Lemma resolve_cons (entries : list (string * string)) (segment : Segment)
    (rest : list Segment) :
  resolve entries (segment :: rest)
  = resolveSegment entries segment :: resolve entries rest.
Proof. reflexivity. Qed.

Lemma resolve_nil (template : list Segment) : resolve [] template = template.
Proof.
  induction template as [|[text|label] rest IH]; [reflexivity| |];
    rewrite resolve_cons, IH; reflexivity.
Qed.

Lemma resolve_fresh (entries : list (string * string)) (key value : string)
    (template : list Segment) :
  ~ In key (placeholders template) ->
  resolve ((key, value) :: entries) template = resolve entries template.
Proof.
  induction template as [|[text|label] rest IH]; cbn [placeholders];
    intros Hfresh; [reflexivity| |]; rewrite !resolve_cons.
  - rewrite IH by exact Hfresh. reflexivity.
  - rewrite IH by (intros Hin; apply Hfresh; right; exact Hin).
    cbn [resolveSegment Js.get].
    destruct (String.eqb_spec key label) as [->|Hne]; [|reflexivity].
    exfalso. apply Hfresh. left. reflexivity.
Qed.

Lemma fill_then_resolve (entries : list (string * string)) (key value : string)
    (template : list Segment) :
  List.NoDup (placeholders template) ->
  resolve entries (fillFirst key (Js.encodeURIComponent value) template)
  = resolve ((key, value) :: entries) template.
Proof.
  induction template as [|[text|label] rest IH]; cbn [placeholders];
    intros Hnd; [reflexivity| |]; cbn [fillFirst].
  - rewrite !resolve_cons, IH by exact Hnd. reflexivity.
  - inversion Hnd as [|? ? Hfresh Hrest]; subst.
    destruct (String.eqb_spec label key) as [->|Hne]; rewrite !resolve_cons.
    + rewrite (resolve_fresh entries key value rest Hfresh).
      cbn [resolveSegment Js.get]. rewrite String.eqb_refl. reflexivity.
    + rewrite IH by exact Hrest. cbn [resolveSegment Js.get].
      destruct (String.eqb_spec key label) as [Heq|_]; [|reflexivity].
      exfalso. apply Hne. symmetry. exact Heq.
Qed.

(** When no placeholder is repeated, filling in order resolves every
    placeholder that has an entry. *)
Lemma fillInOrder_resolves (entries : list (string * string))
    (template : list Segment) :
  List.NoDup (placeholders template) ->
  fillInOrder entries template = resolve entries template.
Proof.
  revert template. induction entries as [|[key value] entries IH];
    intros template Hnd.
  - symmetry. apply resolve_nil.
  - unfold fillInOrder. cbn [fold_left].
    fold (fillInOrder entries
            (fillFirst key (Js.encodeURIComponent value) template)).
    rewrite IH by (apply fillFirst_distinct; exact Hnd).
    apply fill_then_resolve. exact Hnd.
Qed.

(** X25: path construction on a path whose placeholders are pairwise
    distinct: each placeholder that has an entry in [pathParams] is
    replaced by the percent-encoded value, each other placeholder is left
    as it is, and the literal text is kept. *)
Theorem path_construction_distinct (endpoint : Endpoint)
    (params : DataAPIRequestParams) (template : list Segment)
    (entries : list (string * string)) :
  path endpoint = render template ->
  plain template ->
  List.NoDup (placeholders template) ->
  pathParams params = Some entries ->
  Forall (fun entry => braceFree (fst entry) = true) entries ->
  filledPath endpoint params = render (resolve entries template).
Proof.
  intros Hpath Hplain Hnd Hentries Hkeys.
  unfold filledPath. rewrite Hentries, Hpath.
  rewrite fillPath_fills_in_order by assumption.
  rewrite fillInOrder_resolves by exact Hnd. reflexivity.
Qed.

Lemma path_construction_distinct_witness :
  filledPath Fixtures.get_product
    {| pathParams := Some [("product_id", "product with spaces")];
       queryParams := None;
       body := None |}
  = "/products/product%20with%20spaces".
Proof.
  rewrite (path_construction_distinct Fixtures.get_product _
             [Literal "/products/"; Placeholder "product_id"]
             [("product_id", "product with spaces")]).
  - reflexivity.
  - reflexivity.
  - repeat constructor.
  - repeat constructor; cbn; intuition discriminate.
  - reflexivity.
  - repeat constructor.
Defined.

End PathConstruction.

(** C8, where the code departs from it: [String.prototype.replace] with a
    string pattern replaces the first occurrence only, so in a path that
    names a parameter twice the second placeholder stays in the URL
    although [pathParams] has an entry for it, whatever the value is. *)
Theorem repeated_placeholder_is_left (site : string) :
  DataAPIClient.buildUrl Fixtures.compare_site
    {| pathParams := Some [("site_id", site)];
       queryParams := None;
       body := None |}
  = "/sites/" +:+ Js.encodeURIComponent site +:+ "/mirror/{site_id}".
Proof. reflexivity. Qed.

(* ===================================================================== *)
(** * Further properties of the endpoint loader *)
(* ===================================================================== *)

Section LoaderInvariants.

Import EndpointLoader.

Lemma getEndpoint_is_Some (self : EndpointLoader.t) (n : string) (d : Endpoint) :
  getEndpoint self n = Some d -> hasEndpoint self n = true.
Proof.
  intros Hget. destruct (hasEndpoint self n) eqn:Hhas; [reflexivity|].
  apply hasEndpoint_getEndpoint in Hhas. congruence.
Qed.

Lemma hasEndpoint_is_Some (self : EndpointLoader.t) (n : string) :
  hasEndpoint self n = true -> exists d, getEndpoint self n = Some d.
Proof.
  intros Hhas. destruct (getEndpoint self n) as [d|] eqn:Hget.
  - exists d. reflexivity.
  - apply hasEndpoint_getEndpoint in Hget. congruence.
Qed.

Lemma lastNamed_sound (n : string) (es : list Endpoint) (d : Endpoint) :
  lastNamed n es = Some d -> toolName d = n /\ In d es.
Proof.
  unfold lastNamed. intros Hfind. apply find_some in Hfind.
  destruct Hfind as [Hin Heq]. split.
  - apply String.eqb_eq. exact Heq.
  - apply in_rev. exact Hin.
Qed.

Lemma lastNamed_complete (n : string) (es : list Endpoint) :
  In n (map toolName es) -> exists d, lastNamed n es = Some d.
Proof.
  intros Hin. apply in_map_iff in Hin. destruct Hin as (e & Hname & Hin).
  unfold lastNamed.
  destruct (List.find (fun e => toolName e =? n)%string (rev es)) as [d|] eqn:Hfind.
  - exists d. reflexivity.
  - exfalso. apply in_rev in Hin.
    pose proof (find_none _ _ Hfind e Hin) as Hno. cbv beta in Hno.
    rewrite Hname, String.eqb_refl in Hno. discriminate Hno.
Qed.

Lemma toolNameSet_spec (self : EndpointLoader.t) (n : string) :
  n ∈ getToolNameSet self <-> In n (map toolName (getEndpoints self)).
Proof.
  unfold getToolNameSet, getToolNames, getEndpoints.
  rewrite elem_of_list_to_set. apply list_elem_of_In.
Qed.

(** What a load from the empty state indexes. *)
Lemma getEndpoint_loaded (file : Catalog) (n : string) :
  getEndpoint (fst (create file)) n =
    match content file with
    | Parsed (Some es) => lastNamed n es
    | Interrupted indexed _ => lastNamed n indexed
    | _ => None
    end.
Proof.
  destruct file as [where' [e|e|[es|]|indexed e]]; cbn [content].
  - apply lookup_empty.
  - apply lookup_empty.
  - apply getEndpoint_after_load.
  - apply lookup_empty.
  - change (index ∅ indexed !! n = lastNamed n indexed).
    rewrite index_lookup, lookup_empty. unfold lastNamed.
    destruct (List.find _ _); reflexivity.
Qed.

End LoaderInvariants.

(** X1: after the constructor or after [reload()], every descriptor that
    [getEndpoint] gives bears the name that was asked for, and
    [hasEndpoint] says so.  It is one of [getEndpoints()] and its name is
    in [getToolNameSet()], with one exception: when the loading code
    threw after the file was parsed (a [null] document, a [null] element
    of the array), the descriptors indexed before the throw stay in the
    map while [getEndpoints()] is the fallback list, so [getEndpoint] can
    give a descriptor that is not listed. *)
Theorem indexed_descriptors_are_listed (file : EndpointLoader.Catalog)
    (previous loader : EndpointLoader.t) (n : string) (d : Endpoint) :
  loader = fst (EndpointLoader.create file) \/
  loader = fst (EndpointLoader.reload file previous) ->
  EndpointLoader.getEndpoint loader n = Some d ->
  toolName d = n /\
  EndpointLoader.hasEndpoint loader n = true /\
  match EndpointLoader.content file with
  | EndpointLoader.Interrupted indexed _ =>
      In d indexed /\
      EndpointLoader.getEndpoints loader = EndpointLoader.getDefaultEndpoints
  | _ =>
      In d (EndpointLoader.getEndpoints loader) /\
      n ∈ EndpointLoader.getToolNameSet loader
  end.
Proof.
  intros Horigin Hget.
  assert (Hloader : loader = fst (EndpointLoader.create file)).
  { destruct Horigin as [H|H]; exact H. }
  subst loader. clear Horigin.
  pose proof (getEndpoint_is_Some _ _ _ Hget) as Hhas.
  rewrite getEndpoint_loaded in Hget.
  destruct file as [where' [e|e|[es|]|indexed e]];
    cbn [EndpointLoader.content] in Hget |- *; try discriminate Hget;
    apply lastNamed_sound in Hget; destruct Hget as [Hname Hin];
    (split; [exact Hname|]); (split; [exact Hhas|]).
  - split; [exact Hin|].
    apply toolNameSet_spec. subst n. apply in_map. exact Hin.
  - split; [exact Hin|reflexivity].
Qed.

Lemma indexed_descriptors_are_listed_witness :
  let loader := fst (EndpointLoader.create Samples.interruptedCatalog) in
  EndpointLoader.getEndpoint loader "get_product" = Some Fixtures.get_product /\
  EndpointLoader.hasEndpoint loader "get_product" = true /\
  EndpointLoader.getEndpoints loader = EndpointLoader.getDefaultEndpoints /\
  ~ In Fixtures.get_product (EndpointLoader.getEndpoints loader).
Proof.
  intros loader.
  assert (Hget : EndpointLoader.getEndpoint loader "get_product"
                 = Some Fixtures.get_product).
  { subst loader. rewrite getEndpoint_loaded. reflexivity. }
  destruct (indexed_descriptors_are_listed Samples.interruptedCatalog
              EndpointLoader.initial loader "get_product" Fixtures.get_product
              (or_introl eq_refl) Hget) as (_ & Hhas & _ & Hlisted).
  split; [exact Hget|]. split; [exact Hhas|]. split; [exact Hlisted|].
  rewrite Hlisted. intros [Hsame|[]]. discriminate Hsame.
Defined.

(** X2: when the catalog file was read and parsed and the loading code
    ran to its end, the tool names the handler owns ([getToolNameSet])
    are exactly the names the registry resolves ([hasEndpoint]), also
    when several descriptors share a name. *)
Theorem owned_names_are_indexed (file : EndpointLoader.Catalog) (n : string) :
  loadedThrough (EndpointLoader.content file) = true ->
  let loader := fst (EndpointLoader.create file) in
  n ∈ EndpointLoader.getToolNameSet loader <->
  EndpointLoader.hasEndpoint loader n = true.
Proof.
  intros Hloaded loader. subst loader.
  rewrite toolNameSet_spec. split.
  - intros Hin.
    destruct (EndpointLoader.getEndpoint (fst (EndpointLoader.create file)) n)
      as [d|] eqn:Hget.
    + exact (getEndpoint_is_Some _ _ _ Hget).
    + exfalso. rewrite getEndpoint_loaded in Hget.
      destruct file as [where' [e|e|[es|]|indexed e]];
        cbn [loadedThrough EndpointLoader.content] in Hloaded, Hget;
        try discriminate Hloaded.
      * apply lastNamed_complete in Hin. destruct Hin as [d Hd].
        change (lastNamed n es = Some d) in Hd. congruence.
      * destruct Hin.
  - intros Hhas. apply hasEndpoint_is_Some in Hhas. destruct Hhas as [d Hget].
    rewrite getEndpoint_loaded in Hget.
    destruct file as [where' [e|e|[es|]|indexed e]];
      cbn [loadedThrough EndpointLoader.content] in Hloaded, Hget;
      try discriminate Hloaded; try discriminate Hget.
    apply lastNamed_sound in Hget. destruct Hget as [Hname Hin].
    subst n. apply in_map. exact Hin.
Qed.

Lemma owned_names_are_indexed_witness :
  "twin" ∈ EndpointLoader.getToolNameSet
             (fst (EndpointLoader.create
                     (Fixtures.catalogOf
                        [Fixtures.first_twin; Fixtures.second_twin]))) <->
  EndpointLoader.hasEndpoint
    (fst (EndpointLoader.create
            (Fixtures.catalogOf [Fixtures.first_twin; Fixtures.second_twin])))
    "twin" = true.
Proof.
  exact (owned_names_are_indexed
           (Fixtures.catalogOf [Fixtures.first_twin; Fixtures.second_twin])
           "twin" eq_refl).
Defined.

Section Families.

Lemma families_count {A : Type} (p q : A -> bool) (l : list A) :
  (forall x, p x = true -> q x = false) ->
  (length (List.filter p l) + length (List.filter q l)
   + length (List.filter (fun x => negb (p x || q x)) l) = length l)%nat.
Proof.
  intros Hdisjoint. induction l as [|x l IH]; [reflexivity|].
  simpl. pose proof (Hdisjoint x) as Hx.
  destruct (p x); [rewrite Hx by reflexivity|destruct (q x)]; simpl; lia.
Qed.

Lemma filter_empty_length {A : Type} (r : A -> bool) (l : list A) :
  length (List.filter r l) = 0%nat <-> (forall x, In x l -> r x = false).
Proof.
  induction l as [|x l IH]; simpl.
  - split; [intros _ y []|reflexivity].
  - destruct (r x) eqn:Hr; simpl.
    + split; [discriminate|]. intros H.
      rewrite (H x (or_introl eq_refl)) in Hr. discriminate Hr.
    + rewrite IH. split.
      * intros H y [<-|Hy]; [exact Hr|apply H; exact Hy].
      * intros H y Hy. apply H. right. exact Hy.
Qed.

End Families.

(** X3: [getOCAPIEndpoints()] and [getSCAPIEndpoints()] never share a
    descriptor and together hold at most the loaded descriptors; they hold
    all of them exactly when every loaded descriptor has one of the two
    API types, so a descriptor of any other type is in neither list. *)
Theorem api_families_partition (self : EndpointLoader.t) :
  (forall e, In e (EndpointLoader.getOCAPIEndpoints self) ->
             ~ In e (EndpointLoader.getSCAPIEndpoints self)) /\
  (length (EndpointLoader.getOCAPIEndpoints self)
   + length (EndpointLoader.getSCAPIEndpoints self)
   <= length (EndpointLoader.getEndpoints self))%nat /\
  ((length (EndpointLoader.getOCAPIEndpoints self)
    + length (EndpointLoader.getSCAPIEndpoints self)
    = length (EndpointLoader.getEndpoints self))%nat <->
   (forall e, In e (EndpointLoader.getEndpoints self) ->
              apiType e = "ocapi" \/ apiType e = "scapi")).
Proof.
  unfold EndpointLoader.getOCAPIEndpoints, EndpointLoader.getSCAPIEndpoints,
    EndpointLoader.getEndpoints.
  set (isOcapi := fun e : Endpoint => String.eqb (apiType e) "ocapi").
  set (isScapi := fun e : Endpoint => String.eqb (apiType e) "scapi").
  assert (Hdisjoint : forall e, isOcapi e = true -> isScapi e = false).
  { intros e He. unfold isOcapi in He. unfold isScapi.
    apply String.eqb_eq in He. rewrite He. reflexivity. }
  pose proof (families_count isOcapi isScapi (EndpointLoader.endpoints self)
                Hdisjoint) as Hcount.
  split; [|split].
  - intros e Hin Hin'. apply filter_In in Hin. apply filter_In in Hin'.
    destruct Hin as [_ Ho]. destruct Hin' as [_ Hs].
    rewrite (Hdisjoint e Ho) in Hs. discriminate Hs.
  - lia.
  - split.
    + intros Hsum e Hin.
      assert (Hnone : length (List.filter
                                (fun x => negb (isOcapi x || isScapi x))
                                (EndpointLoader.endpoints self)) = 0%nat) by lia.
      pose proof (proj1 (filter_empty_length _ _) Hnone e Hin) as He.
      apply negb_false_iff in He. apply orb_true_iff in He.
      destruct He as [He|He]; [left|right]; apply String.eqb_eq; exact He.
    + intros Htyped.
      assert (Hnone : length (List.filter
                                (fun x => negb (isOcapi x || isScapi x))
                                (EndpointLoader.endpoints self)) = 0%nat).
      { apply filter_empty_length. intros e Hin.
        apply negb_false_iff. apply orb_true_iff.
        destruct (Htyped e Hin) as [He|He]; [left|right];
          apply String.eqb_eq; exact He. }
      lia.
Qed.

(* ===================================================================== *)
(** * Further properties of the client *)
(* ===================================================================== *)

Section RequestBody.

Lemma get_absent {V : Type} (o : list (string * V)) (k : string) :
  ~ In k (Js.keys o) -> Js.get o k = None.
Proof.
  induction o as [|[k' v'] o IH]; intros Hfresh; [reflexivity|].
  simpl. destruct (String.eqb_spec k' k) as [->|Hne].
  - exfalso. apply Hfresh. left. reflexivity.
  - apply IH. intros Hin. apply Hfresh. right. exact Hin.
Qed.

(** [Object.assign]: the properties of the source win, the others of the
    target stay. *)
Lemma assign_lookup (source target : Js.Object) (k : string) :
  List.NoDup (Js.keys source) ->
  Js.get (DataAPIClient.assign target source) k =
    match Js.get source k with
    | Some v => Some v
    | None => Js.get target k
    end.
Proof.
  revert target. induction source as [|[k0 v0] source IH]; intros target Hnd.
  - reflexivity.
  - inversion Hnd as [|? ? Hfresh Hrest]; subst.
    change (DataAPIClient.assign target ((k0, v0) :: source))
      with (DataAPIClient.assign (Js.set target k0 v0) source).
    rewrite IH by exact Hrest. simpl.
    destruct (String.eqb_spec k0 k) as [->|Hne].
    + rewrite (get_absent source k Hfresh). apply get_set_eq.
    + rewrite get_set_ne by exact Hne. reflexivity.
Qed.

End RequestBody.



Section UrlBytes.

Lemma replace_absent (s p r : string) :
  Js.includes s p = false -> Js.replace s p r = s.
Proof.
  induction s as [|c s IH]; intros Habsent.
  - rewrite replace_unfold. simpl in Habsent.
    destruct (Js.startsWith p ""); [discriminate Habsent|reflexivity].
  - rewrite replace_unfold.
    change (Js.includes (String c s) p)
      with (if Js.startsWith p (String c s) then true else Js.includes s p)
      in Habsent.
    destruct (Js.startsWith p (String c s)); [discriminate Habsent|].
    rewrite IH by exact Habsent. reflexivity.
Qed.

Lemma fillPath_absent (route : string) (entries : list (string * string)) :
  Forall (fun entry => Js.includes route ("{" +:+ fst entry +:+ "}") = false)
         entries ->
  DataAPIClient.fillPath route entries = route.
Proof.
  induction 1 as [|[key value] entries Hhead _ IH]; [reflexivity|].
  change (DataAPIClient.fillPath route ((key, value) :: entries))
    with (DataAPIClient.fillPath
            (Js.replace route ("{" +:+ key +:+ "}") (Js.encodeURIComponent value))
            entries).
  rewrite replace_absent by exact Hhead. exact IH.
Qed.

Lemma hasByte_append (c : ascii) (a b : string) :
  hasByte c (a +:+ b) = hasByte c a || hasByte c b.
Proof.
  induction a as [|x a IH]; [reflexivity|].
  change (String x a +:+ b) with (String x (a +:+ b)).
  simpl. rewrite IH. apply orb_assoc.
Qed.

Lemma hasByte_drop (c : ascii) (n : nat) (s : string) :
  hasByte c s = false -> hasByte c (Js.drop n s) = false.
Proof.
  revert s. induction n as [|n IH]; intros s Hs; [exact Hs|].
  destruct s as [|x s]; [reflexivity|].
  simpl in Hs. apply orb_false_iff in Hs. simpl. apply IH. apply Hs.
Qed.

Lemma hasByte_replace (c : ascii) (s p r : string) :
  hasByte c s = false -> hasByte c r = false ->
  hasByte c (Js.replace s p r) = false.
Proof.
  intros Hs Hr. induction s as [|x s IH]; rewrite replace_unfold.
  - destruct (Js.startsWith p "").
    + rewrite hasByte_append, Hr. apply hasByte_drop. reflexivity.
    + reflexivity.
  - destruct (Js.startsWith p (String x s)).
    + rewrite hasByte_append, Hr. apply hasByte_drop. exact Hs.
    + simpl in Hs. apply orb_false_iff in Hs. destruct Hs as [Hx Hrest].
      simpl. rewrite Hx. apply IH. exact Hrest.
Qed.

(** A byte that [encodeURIComponent] escapes is none of the bytes it
    writes. *)
Lemma percentEncode_bytes (c a : ascii) :
  Js.unreserved c = false -> Ascii.eqb c "%" = false ->
  hasByte c (Js.percentEncode a) = false.
Proof.
  intros Hc Hp.
  destruct c as [[] [] [] [] [] [] [] []]; try discriminate Hc;
    try discriminate Hp;
    destruct a as [[] [] [] [] [] [] [] []]; reflexivity.
Qed.

Lemma encodeURIComponent_bytes (c : ascii) (s : string) :
  Js.unreserved c = false -> Ascii.eqb c "%" = false ->
  hasByte c (Js.encodeURIComponent s) = false.
Proof.
  intros Hc Hp. induction s as [|a s IH]; [reflexivity|].
  simpl. destruct (Js.unreserved a) eqn:Ha.
  - simpl. rewrite IH, orb_false_r.
    destruct (Ascii.eqb_spec a c) as [->|_]; [congruence|reflexivity].
  - rewrite hasByte_append, IH, orb_false_r.
    apply percentEncode_bytes; assumption.
Qed.

Lemma fillPath_bytes (c : ascii) (entries : list (string * string))
    (route : string) :
  Js.unreserved c = false -> Ascii.eqb c "%" = false ->
  hasByte c route = false ->
  hasByte c (DataAPIClient.fillPath route entries) = false.
Proof.
  intros Hc Hp. revert route.
  induction entries as [|[key value] entries IH]; intros route Hroute.
  - exact Hroute.
  - change (DataAPIClient.fillPath route ((key, value) :: entries))
      with (DataAPIClient.fillPath
              (Js.replace route ("{" +:+ key +:+ "}")
                 (Js.encodeURIComponent value))
              entries).
    apply IH. apply hasByte_replace; [exact Hroute|].
    apply encodeURIComponent_bytes; assumption.
Qed.

Lemma filledPath_bytes (c : ascii) (endpoint : Endpoint)
    (params : DataAPIRequestParams) :
  Js.unreserved c = false -> Ascii.eqb c "%" = false ->
  hasByte c (path endpoint) = false ->
  hasByte c (filledPath endpoint params) = false.
Proof.
  intros Hc Hp Hroute. unfold filledPath.
  destruct (pathParams params) as [entries|]; [|exact Hroute].
  apply fillPath_bytes; assumption.
Qed.

Lemma queryString_bytes (c : ascii) (pairs : list (string * string)) :
  Js.unreserved c = false -> Ascii.eqb c "%" = false ->
  Ascii.eqb c "&" = false -> Ascii.eqb c "=" = false ->
  hasByte c (DataAPIClient.queryString pairs) = false.
Proof.
  intros Hc Hp Hamp Heq. unfold DataAPIClient.queryString.
  rewrite Ascii.eqb_sym in Hamp, Heq.
  assert (Hpair : forall key value,
            hasByte c (Js.encodeURIComponent key +:+ "=" +:+
                       Js.encodeURIComponent value) = false).
  { intros key value. rewrite !hasByte_append.
    rewrite !encodeURIComponent_bytes by assumption.
    cbn [hasByte]. rewrite Heq. reflexivity. }
  induction pairs as [|[key value] pairs IH]; [reflexivity|].
  destruct pairs as [|next pairs].
  - apply Hpair.
  - change (hasByte c
              ((Js.encodeURIComponent key +:+ "=" +:+ Js.encodeURIComponent value)
               +:+ "&" +:+
               Js.join "&"
                 (map (fun '(key, value) =>
                         Js.encodeURIComponent key +:+ "=" +:+
                         Js.encodeURIComponent value) (next :: pairs)))
            = false).
    rewrite hasByte_append, Hpair, hasByte_append, IH.
    cbn [hasByte]. rewrite Hamp. reflexivity.
Qed.

End UrlBytes.

(** X5: entries of [pathParams] whose placeholder does not occur in the
    path of the descriptor are dropped without a trace: the URL is the one
    built without path parameters.  (So a site handed to a descriptor
    whose path names no site is ignored.) *)
Theorem unmatched_path_parameters_are_dropped (endpoint : Endpoint)
    (entries : list (string * string)) (queries fields : option Js.Object) :
  Forall (fun entry => inPath endpoint (fst entry) = false) entries ->
  DataAPIClient.buildUrl endpoint
    {| pathParams := Some entries; queryParams := queries; body := fields |}
  = DataAPIClient.buildUrl endpoint
      {| pathParams := None; queryParams := queries; body := fields |}.
Proof.
  intros Hunmatched. unfold DataAPIClient.buildUrl. cbn [pathParams queryParams].
  rewrite (fillPath_absent (path endpoint) entries Hunmatched). reflexivity.
Qed.

Lemma unmatched_path_parameters_are_dropped_witness :
  DataAPIClient.buildUrl Fixtures.search_products
    {| pathParams := Some [("site_id", "RefArch")];
       queryParams := None;
       body := None |}
  = "/product_search".
Proof.
  assert (H : Forall (fun entry => inPath Fixtures.search_products (fst entry)
                                   = false) [("site_id", "RefArch")]).
  { constructor; [reflexivity|constructor]. }
  rewrite (unmatched_path_parameters_are_dropped Fixtures.search_products
             [("site_id", "RefArch")] None None H).
  reflexivity.
Defined.

(** X6: argument values cannot bring a reserved byte into the URL.  A
    byte of the URL that [buildUrl] gives is a byte of the descriptor's
    path, a byte [encodeURIComponent] leaves as it is, or one of
    [% ? & =]; so no value adds a slash, a hash, a space or a brace. *)
Theorem url_bytes_are_safe (endpoint : Endpoint)
    (params : DataAPIRequestParams) (c : ascii) :
  hasByte c (DataAPIClient.buildUrl endpoint params) = true ->
  hasByte c (path endpoint) = true \/
  Js.unreserved c = true \/
  c = "%"%char \/ c = "?"%char \/ c = "&"%char \/ c = "="%char.
Proof.
  intros Hin.
  destruct (hasByte c (path endpoint)) eqn:Hroute; [left; reflexivity|].
  destruct (Js.unreserved c) eqn:Hc; [right; left; reflexivity|].
  destruct (Ascii.eqb_spec c "%") as [->|Hp]; [tauto|].
  destruct (Ascii.eqb_spec c "?") as [->|Hq]; [tauto|].
  destruct (Ascii.eqb_spec c "&") as [->|Hamp]; [tauto|].
  destruct (Ascii.eqb_spec c "=") as [->|Heq]; [tauto|].
  exfalso.
  apply Ascii.eqb_neq in Hp, Hq, Hamp, Heq.
  assert (Hfront : hasByte c (filledPath endpoint params) = false)
    by (apply filledPath_bytes; assumption).
  unfold DataAPIClient.buildUrl in Hin. fold (filledPath endpoint params) in Hin.
  cbv zeta in Hin.
  destruct (String.eqb (DataAPIClient.queryString _) "") in Hin.
  - congruence.
  - rewrite !hasByte_append in Hin.
    rewrite Hfront, queryString_bytes in Hin by assumption.
    cbn [hasByte] in Hin. rewrite Ascii.eqb_sym, Hq in Hin. discriminate Hin.
Qed.

Lemma url_bytes_are_safe_witness :
  hasByte "/" (DataAPIClient.buildUrl Fixtures.get_product
                 {| pathParams := Some [("product_id", "a/b?c#d")];
                    queryParams := Some [("expand", Js.Str "x&y=z")];
                    body := None |}) = true /\
  hasByte "/" (path Fixtures.get_product) = true.
Proof.
  assert (H : hasByte "/" (DataAPIClient.buildUrl Fixtures.get_product
                 {| pathParams := Some [("product_id", "a/b?c#d")];
                    queryParams := Some [("expand", Js.Str "x&y=z")];
                    body := None |}) = true) by reflexivity.
  split; [exact H|].
  destruct (url_bytes_are_safe _ _ _ H) as [Hroute|[Hu|[Hc|[Hc|[Hc|Hc]]]]];
    [exact Hroute | discriminate Hu | discriminate Hc | discriminate Hc
     | discriminate Hc | discriminate Hc].
Defined.

Section ReadingBack.

Lemma percentDecode_escape (a : ascii) (rest : string) :
  percentDecode (Js.percentEncode a +:+ rest) = String a (percentDecode rest).
Proof. destruct a as [[] [] [] [] [] [] [] []]; reflexivity. Qed.

Lemma unreserved_not_percent (a : ascii) :
  Js.unreserved a = true -> Ascii.eqb a "%" = false.
Proof.
  destruct a as [[] [] [] [] [] [] [] []]; intros H;
    try discriminate H; reflexivity.
Qed.

(** Decoding undoes [encodeURIComponent]. *)
Lemma percentDecode_encode (s : string) :
  percentDecode (Js.encodeURIComponent s) = s.
Proof.
  induction s as [|a s IH]; [reflexivity|].
  cbn [Js.encodeURIComponent]. destruct (Js.unreserved a) eqn:Ha.
  - cbn [percentDecode]. rewrite (unreserved_not_percent a Ha), IH.
    reflexivity.
  - rewrite percentDecode_escape, IH. reflexivity.
Qed.

Lemma cut_at_first (c : ascii) (a b : string) :
  hasByte c a = false -> cut c (a +:+ String c b) = (a, b).
Proof.
  induction a as [|x a IH]; intros Hfree.
  - change ("" +:+ String c b) with (String c b).
    cbn [cut]. rewrite Ascii.eqb_refl. reflexivity.
  - change (String x a +:+ String c b) with (String x (a +:+ String c b)).
    cbn [hasByte] in Hfree. apply orb_false_iff in Hfree.
    destruct Hfree as [Hx Hrest].
    cbn [cut]. rewrite Hx, (IH Hrest). reflexivity.
Qed.

Lemma cut_without (c : ascii) (a : string) :
  hasByte c a = false -> cut c a = (a, "").
Proof.
  induction a as [|x a IH]; intros Hfree; [reflexivity|].
  cbn [hasByte] in Hfree. apply orb_false_iff in Hfree.
  destruct Hfree as [Hx Hrest].
  cbn [cut]. rewrite Hx, (IH Hrest). reflexivity.
Qed.

Lemma split_go_last (c : ascii) (x cur : string) :
  hasByte c x = false -> Js.split_go c cur x = [String.rev_app cur x].
Proof.
  revert cur. induction x as [|a x IH]; intros cur Hfree.
  - reflexivity.
  - cbn [hasByte] in Hfree. apply orb_false_iff in Hfree.
    destruct Hfree as [Ha Hrest].
    cbn [Js.split_go]. rewrite Ha. rewrite (IH _ Hrest). reflexivity.
Qed.

Lemma split_go_item (c : ascii) (x cur rest : string) :
  hasByte c x = false ->
  Js.split_go c cur (x +:+ String c rest)
  = String.rev_app cur x :: Js.split_go c "" rest.
Proof.
  revert cur. induction x as [|a x IH]; intros cur Hfree.
  - change ("" +:+ String c rest) with (String c rest).
    cbn [Js.split_go]. rewrite Ascii.eqb_refl. reflexivity.
  - change (String a x +:+ String c rest)
      with (String a (x +:+ String c rest)).
    cbn [hasByte] in Hfree. apply orb_false_iff in Hfree.
    destruct Hfree as [Ha Hrest].
    cbn [Js.split_go]. rewrite Ha. rewrite (IH _ Hrest). reflexivity.
Qed.

(** Splitting undoes joining, when no item holds the separator. *)
Lemma split_join (c : ascii) (first : string) (others : list string) :
  Forall (fun item => hasByte c item = false) (first :: others) ->
  Js.split c (Js.join (String c "") (first :: others)) = first :: others.
Proof.
  revert first. induction others as [|next others IH]; intros first Hfree.
  - inversion Hfree as [|? ? Hfirst _]; subst.
    unfold Js.split. cbn [Js.join]. apply (split_go_last c first "" Hfirst).
  - inversion Hfree as [|? ? Hfirst Hrest]; subst.
    unfold Js.split.
    change (Js.join (String c "") (first :: next :: others))
      with (first +:+ String c (Js.join (String c "") (next :: others))).
    rewrite (split_go_item c first "" _ Hfirst).
    change (Js.split_go c "" (Js.join (String c "") (next :: others)))
      with (Js.split c (Js.join (String c "") (next :: others))).
    rewrite (IH next Hrest). reflexivity.
Qed.

Lemma pair_has_no_ampersand (key value : string) :
  hasByte "&" (Js.encodeURIComponent key +:+ "=" +:+ Js.encodeURIComponent value)
  = false.
Proof.
  rewrite !hasByte_append.
  rewrite !encodeURIComponent_bytes by reflexivity. reflexivity.
Qed.

Lemma pair_reads_back (key value : string) :
  (let '(k, v) :=
     cut "=" (Js.encodeURIComponent key +:+ "=" +:+ Js.encodeURIComponent value) in
   (percentDecode k, percentDecode v)) = (key, value).
Proof.
  change (Js.encodeURIComponent key +:+ "=" +:+ Js.encodeURIComponent value)
    with (Js.encodeURIComponent key +:+ String "=" (Js.encodeURIComponent value)).
  rewrite cut_at_first by (apply encodeURIComponent_bytes; reflexivity).
  rewrite !percentDecode_encode. reflexivity.
Qed.

Lemma parseQuery_queryString (first : string * string)
    (others : list (string * string)) :
  parseQuery (DataAPIClient.queryString (first :: others)) = first :: others.
Proof.
  unfold parseQuery, DataAPIClient.queryString.
  set (item := fun '(key, value) =>
                 Js.encodeURIComponent key +:+ "=" +:+ Js.encodeURIComponent value).
  change (map item (first :: others)) with (item first :: map item others).
  change "&"%string with (String "&"%char "") at 1.
  rewrite split_join.
  - change (item first :: map item others) with (map item (first :: others)).
    generalize (first :: others). intros pairs.
    induction pairs as [|[key value] pairs IH]; [reflexivity|].
    cbn [map]. rewrite IH. f_equal. apply pair_reads_back.
  - change (item first :: map item others) with (map item (first :: others)).
    generalize (first :: others). intros pairs.
    induction pairs as [|[key value] pairs IH]; constructor.
    + apply pair_has_no_ampersand.
    + exact IH.
Qed.

End ReadingBack.

Section EntriesOrder.





End EntriesOrder.




(** X7: the URL [buildUrl] gives can be read back.  For a descriptor
    whose path holds no question mark, the text before the first question
    mark of the URL is the filled path; and the query string behind it,
    split at the ampersands, each item cut at its equals sign and
    percent-decoded, gives back the collected query parameters, names and
    values as they were, in their order. *)
Theorem url_reads_back (endpoint : Endpoint) (params : DataAPIRequestParams) :
  hasByte "?" (path endpoint) = false ->
  let '(front, query) := cut "?" (DataAPIClient.buildUrl endpoint params) in
  front = filledPath endpoint params /\
  match DataAPIClient.collectQuery (queryEntries params) with
  | [] => query = ""
  | pairs => parseQuery query = pairs
  end.
Proof.
  intros Hroute.
  assert (Hfront : hasByte "?" (filledPath endpoint params) = false)
    by (apply filledPath_bytes; [reflexivity|reflexivity|exact Hroute]).
  unfold DataAPIClient.buildUrl. fold (filledPath endpoint params).
  cbv zeta. unfold queryEntries.
  assert (Hpairs : match queryParams params with
                   | Some entries => DataAPIClient.collectQuery entries
                   | None => []
                   end
                   = DataAPIClient.collectQuery
                       match queryParams params with
                       | Some entries => entries
                       | None => []
                       end).
  { destruct (queryParams params); reflexivity. }
  rewrite Hpairs. clear Hpairs.
  destruct (DataAPIClient.collectQuery _) as [|first others] eqn:Hcollected.
  - change (DataAPIClient.queryString []) with "".
    cbn [String.eqb]. rewrite (cut_without _ _ Hfront). split; reflexivity.
  - assert (Hsome : String.eqb (DataAPIClient.queryString (first :: others)) ""
                    = false).
    { destruct first as [key value]. destruct others as [|next others].
      - apply (append_nonempty_r (Js.encodeURIComponent key) "="
                 (Js.encodeURIComponent value)).
      - apply (append_nonempty_r
                 (Js.encodeURIComponent key +:+ "=" +:+
                  Js.encodeURIComponent value) "&"). }
    rewrite Hsome.
    change (filledPath endpoint params +:+ "?" +:+
            DataAPIClient.queryString (first :: others))
      with (filledPath endpoint params +:+
            String "?" (DataAPIClient.queryString (first :: others))).
    rewrite (cut_at_first _ _ _ Hfront).
    split; [reflexivity|]. apply parseQuery_queryString.
Qed.

Lemma url_reads_back_witness :
  let params :=
    {| pathParams := Some [("product_id", "a b/c")];
       queryParams :=
         Some [("expand", Js.Str "prices&images"); ("q", Js.Str "a=b c");
               ("none", Js.Null)];
       body := None |} in
  cut "?" (DataAPIClient.buildUrl Fixtures.get_product params)
    = ("/products/a%20b%2Fc", "expand=prices%26images&q=a%3Db%20c") /\
  parseQuery "expand=prices%26images&q=a%3Db%20c"
    = [("expand", "prices&images"); ("q", "a=b c")].
Proof.
  intros params.
  pose proof (url_reads_back Fixtures.get_product params eq_refl) as H.
  assert (Hcut : cut "?" (DataAPIClient.buildUrl Fixtures.get_product params)
                 = ("/products/a%20b%2Fc", "expand=prices%26images&q=a%3Db%20c"))
    by reflexivity.
  rewrite Hcut in H. destruct H as [_ H].
  split; [exact Hcut | exact H].
Defined.

(* ===================================================================== *)
(** * Further properties of the request builder *)
(* ===================================================================== *)

Section Forwarding.

Import DataAPIToolHandler.








End Forwarding.

Section SearchBody.

Import DataAPIToolHandler.

(** Every field of the search body, for an [expand] that can be split. *)
Lemma searchBody_lookup (toolName : string) (seed args : Js.Object) :
  expandIsUsable args ->
  exists fields,
    searchBody toolName seed args = Js.Returned fields /\
    forall k,
      Js.get fields k =
        if String.eqb k "query" then
          if String.eqb toolName "search_promotions"
             && Js.truthy (Js.prop args "campaign_id")
          then Some (termQuery (Js.prop args "campaign_id"))
          else if Js.truthy (Js.prop args "query")
          then Some (textQuery (getSearchFieldsForTool toolName)
                       (Js.prop args "query"))
          else Js.get seed "query"
        else if String.eqb k "count" then
          match Js.prop args "count" with
          | Js.Undefined => Js.get seed "count"
          | given => Some given
          end
        else if String.eqb k "start" then
          match Js.prop args "start" with
          | Js.Undefined => Js.get seed "start"
          | given => Some given
          end
        else if String.eqb k "expand" then
          match Js.prop args "expand" with
          | Js.Str text =>
              if String.eqb text "" then Js.get seed "expand"
              else Some (Js.Arr (map (fun item => Js.Str (Js.trim item))
                                   (Js.split "," text)))
          | _ => Js.get seed "expand"
          end
        else Js.get seed k.
Proof.
  intros Husable. unfold searchBody.
  set (b1 := if Js.truthy (Js.prop args "query")
             then Js.set seed "query"
                    (textQuery (getSearchFieldsForTool toolName)
                       (Js.prop args "query"))
             else seed).
  assert (H1 : forall k, Js.get b1 k =
               if String.eqb k "query" then
                 if Js.truthy (Js.prop args "query")
                 then Some (textQuery (getSearchFieldsForTool toolName)
                              (Js.prop args "query"))
                 else Js.get seed "query"
               else Js.get seed k).
  { intros k. subst b1. destruct (String.eqb_spec k "query") as [->|Hne].
    - destruct (Js.truthy (Js.prop args "query"));
        [apply get_set_eq | reflexivity].
    - destruct (Js.truthy (Js.prop args "query")); [|reflexivity].
      apply get_set_ne. congruence. }
  set (b2 := match Js.prop args "count" with
             | Js.Undefined => b1
             | count => Js.set b1 "count" count
             end).
  assert (H2 : forall k, Js.get b2 k =
               if String.eqb "count" k then
                 match Js.prop args "count" with
                 | Js.Undefined => Js.get b1 k
                 | given => Some given
                 end
               else Js.get b1 k).
  { intros k. subst b2.
    destruct (Js.prop args "count");
      (destruct (String.eqb_spec "count" k) as [<-|Hne];
       [try apply get_set_eq; reflexivity
       |try (apply get_set_ne; exact Hne); reflexivity]). }
  set (b3 := match Js.prop args "start" with
             | Js.Undefined => b2
             | start => Js.set b2 "start" start
             end).
  assert (H3 : forall k, Js.get b3 k =
               if String.eqb "start" k then
                 match Js.prop args "start" with
                 | Js.Undefined => Js.get b2 k
                 | given => Some given
                 end
               else Js.get b2 k).
  { intros k. subst b3.
    destruct (Js.prop args "start");
      (destruct (String.eqb_spec "start" k) as [<-|Hne];
       [try apply get_set_eq; reflexivity
       |try (apply get_set_ne; exact Hne); reflexivity]). }
  assert (Hexpand : exists b4,
             (if Js.truthy (Js.prop args "expand")
              then match splitExpand (Js.prop args "expand") with
                   | Js.Returned list => Js.Returned (Js.set b3 "expand" list)
                   | Js.Threw e => Js.Threw e
                   end
              else Js.Returned b3) = Js.Returned b4 /\
             forall k, Js.get b4 k =
               if String.eqb k "expand" then
                 match Js.prop args "expand" with
                 | Js.Str text =>
                     if String.eqb text "" then Js.get b3 "expand"
                     else Some (Js.Arr (map (fun item => Js.Str (Js.trim item))
                                          (Js.split "," text)))
                 | _ => Js.get b3 "expand"
                 end
               else Js.get b3 k).
  { destruct Husable as [Hfalsy | [text Hstring]].
    - rewrite Hfalsy. exists b3. split; [reflexivity|]. intros k.
      destruct (String.eqb_spec k "expand") as [->|_]; [|reflexivity].
      destruct (Js.prop args "expand") as [| |flag|n|text|xs|props];
        try reflexivity.
      cbn [Js.truthy] in Hfalsy. apply negb_false_iff in Hfalsy.
      rewrite Hfalsy. reflexivity.
    - rewrite Hstring. cbn [splitExpand Js.truthy].
      destruct (String.eqb text "") eqn:Hempty; cbn [negb].
      + exists b3. split; [reflexivity|]. intros k.
        destruct (String.eqb k "expand") eqn:Hk; [|reflexivity].
        apply String.eqb_eq in Hk. subst k. reflexivity.
      + eexists. split; [reflexivity|]. intros k.
        destruct (String.eqb_spec k "expand") as [->|Hne].
        * apply get_set_eq.
        * apply get_set_ne. congruence. }
  destruct Hexpand as (b4 & Hb4 & H4).
  rewrite Hb4.
  assert (Hb4k : forall k,
            Js.get b4 k =
              if String.eqb k "query" then
                if Js.truthy (Js.prop args "query")
                then Some (textQuery (getSearchFieldsForTool toolName)
                             (Js.prop args "query"))
                else Js.get seed "query"
              else if String.eqb k "count" then
                match Js.prop args "count" with
                | Js.Undefined => Js.get seed "count"
                | given => Some given
                end
              else if String.eqb k "start" then
                match Js.prop args "start" with
                | Js.Undefined => Js.get seed "start"
                | given => Some given
                end
              else if String.eqb k "expand" then
                match Js.prop args "expand" with
                | Js.Str text =>
                    if String.eqb text "" then Js.get seed "expand"
                    else Some (Js.Arr (map (fun item => Js.Str (Js.trim item))
                                         (Js.split "," text)))
                | _ => Js.get seed "expand"
                end
              else Js.get seed k).
  { intros k. rewrite H4.
    destruct (String.eqb_spec k "query") as [->|Hq].
    - cbn [String.eqb Ascii.eqb Bool.eqb]. rewrite H3. cbn [String.eqb Ascii.eqb Bool.eqb].
      rewrite H2. cbn [String.eqb Ascii.eqb Bool.eqb]. rewrite H1. reflexivity.
    - destruct (String.eqb_spec k "count") as [->|Hc].
      + cbn [String.eqb Ascii.eqb Bool.eqb]. rewrite H3.
        cbn [String.eqb Ascii.eqb Bool.eqb]. rewrite H2.
        rewrite String.eqb_refl. rewrite H1. reflexivity.
      + destruct (String.eqb_spec k "start") as [->|Hs].
        * cbn [String.eqb Ascii.eqb Bool.eqb]. rewrite H3.
          rewrite String.eqb_refl. rewrite H2.
          cbn [String.eqb Ascii.eqb Bool.eqb]. rewrite H1. reflexivity.
        * assert (Hrest : Js.get b3 k = Js.get seed k).
          { rewrite H3.
            destruct (String.eqb_spec "start" k) as [<-|_]; [congruence|].
            rewrite H2.
            destruct (String.eqb_spec "count" k) as [<-|_]; [congruence|].
            rewrite H1.
            destruct (String.eqb_spec k "query") as [->|_]; [congruence|].
            reflexivity. }
          assert (Hseed : Js.get b3 "expand" = Js.get seed "expand").
          { rewrite H3. cbn [String.eqb Ascii.eqb Bool.eqb]. rewrite H2.
            cbn [String.eqb Ascii.eqb Bool.eqb]. rewrite H1. reflexivity. }
          rewrite Hseed, Hrest. reflexivity. }
  destruct (String.eqb toolName "search_promotions"
            && Js.truthy (Js.prop args "campaign_id")).
  - eexists. split; [reflexivity|]. intros k.
    destruct (String.eqb_spec k "query") as [->|Hq].
    + apply get_set_eq.
    + rewrite get_set_ne by congruence. rewrite Hb4k.
      destruct (String.eqb_spec k "query") as [->|_]; [congruence|].
      reflexivity.
  - exists b4. split; [reflexivity|]. intros k. rewrite Hb4k.
    reflexivity.
Qed.

End SearchBody.

Section SearchRequests.

Import DataAPIToolHandler.

Lemma built_body (self : t) (toolName : string) (endpoint : Endpoint)
    (seed args fields : Js.Object) :
  EndpointLoader.getEndpoint (endpointLoader self) toolName = Some endpoint ->
  method endpoint = "POST" ->
  defaultBody endpoint = Some seed ->
  searchBody toolName seed args = Js.Returned fields ->
  exists p,
    buildRequestParams self toolName args = Js.Returned p /\
    body p = Some fields.
Proof.
  intros Hknown Hpost Hseed Hfields.
  unfold buildRequestParams. rewrite Hknown, Hpost, Hseed.
  destruct (classify endpoint args) as [paths queries].
  rewrite String.eqb_refl, Hfields. eexists. split; reflexivity.
Qed.

(** X9: the body built for a search descriptor (method [POST], with a
    default body).  [count] and [start] replace the defaults whenever the
    argument is not [undefined], so also when it is [null] or [0]; an
    [expand] that is a non-empty string becomes the list of its
    comma-separated items, each trimmed, and any other falsy [expand]
    leaves the default; every default field other than [query] and these
    three is sent as it is. *)
Theorem search_body_fields (self : t) (toolName : string) (endpoint : Endpoint)
    (seed args : Js.Object) :
  EndpointLoader.getEndpoint (endpointLoader self) toolName = Some endpoint ->
  method endpoint = "POST" ->
  defaultBody endpoint = Some seed ->
  expandIsUsable args ->
  exists p fields,
    buildRequestParams self toolName args = Js.Returned p /\
    body p = Some fields /\
    Js.get fields "count" =
      match Js.prop args "count" with
      | Js.Undefined => Js.get seed "count"
      | given => Some given
      end /\
    Js.get fields "start" =
      match Js.prop args "start" with
      | Js.Undefined => Js.get seed "start"
      | given => Some given
      end /\
    Js.get fields "expand" =
      match Js.prop args "expand" with
      | Js.Str text =>
          if String.eqb text "" then Js.get seed "expand"
          else Some (Js.Arr (map (fun item => Js.Str (Js.trim item))
                               (Js.split "," text)))
      | _ => Js.get seed "expand"
      end /\
    (forall k, ~ In k ["query"; "count"; "start"; "expand"] ->
               Js.get fields k = Js.get seed k).
Proof.
  intros Hknown Hpost Hseed Husable.
  destruct (searchBody_lookup toolName seed args Husable)
    as (fields & Hfields & Hlookup).
  destruct (built_body self toolName endpoint seed args fields
              Hknown Hpost Hseed Hfields) as (p & Hbuilt & Hbody).
  exists p, fields.
  split; [exact Hbuilt|]. split; [exact Hbody|].
  split; [exact (Hlookup "count")|].
  split; [exact (Hlookup "start")|].
  split; [exact (Hlookup "expand")|].
  intros k Hother. rewrite Hlookup.
  destruct (String.eqb_spec k "query") as [->|_];
    [exfalso; apply Hother; simpl; auto|].
  destruct (String.eqb_spec k "count") as [->|_];
    [exfalso; apply Hother; simpl; auto|].
  destruct (String.eqb_spec k "start") as [->|_];
    [exfalso; apply Hother; simpl; auto|].
  destruct (String.eqb_spec k "expand") as [->|_];
    [exfalso; apply Hother; simpl; auto|].
  reflexivity.
Qed.

Lemma search_body_fields_witness :
  exists p fields,
    buildRequestParams Fixtures.handler "search_products"
      [("count", Js.Null); ("start", Js.Num 0); ("expand", Js.Str "images, prices")]
    = Js.Returned p /\
    body p = Some fields /\
    Js.get fields "count" = Some Js.Null /\
    Js.get fields "start" = Some (Js.Num 0) /\
    Js.get fields "expand"
      = Some (Js.Arr [Js.Str "images"; Js.Str "prices"]).
Proof.
  assert (Hknown : EndpointLoader.getEndpoint (endpointLoader Fixtures.handler)
                     "search_products" = Some Fixtures.search_products)
    by (vm_compute; reflexivity).
  destruct (search_body_fields Fixtures.handler "search_products"
              Fixtures.search_products
              [("query", Js.Obj [("match_all_query", Js.Obj [])]);
               ("count", Js.Num 25); ("start", Js.Num 0)]
              [("count", Js.Null); ("start", Js.Num 0);
               ("expand", Js.Str "images, prices")]
              Hknown eq_refl eq_refl
              (or_intror (ex_intro _ "images, prices" eq_refl)))
    as (p & fields & Hbuilt & Hbody & Hcount & Hstart & Hexpand & _).
  exists p, fields.
  split; [exact Hbuilt|]. split; [exact Hbody|].
  split; [exact Hcount|]. split; [exact Hstart|].
  rewrite Hexpand. vm_compute. reflexivity.
Defined.

(** X10: for every search descriptor other than [search_promotions] the
    argument [campaign_id] has no say: [body.query] is the text query
    over the fields of the tool when [query] is truthy, and the default
    query otherwise.  The fields are those of customers and of orders for
    [search_customers] and [search_orders], and [id] and [name] for every
    other tool (whose name is no member of [Object.prototype], which the
    lookup [fieldMap[toolName]] would find). *)
Theorem text_query_of_other_tools (self : t) (toolName : string)
    (endpoint : Endpoint) (seed args : Js.Object) :
  EndpointLoader.getEndpoint (endpointLoader self) toolName = Some endpoint ->
  method endpoint = "POST" ->
  defaultBody endpoint = Some seed ->
  expandIsUsable args ->
  toolName <> "search_promotions" ->
  inheritedName toolName = false ->
  let fields :=
    if String.eqb toolName "search_customers"
    then ["email"; "first_name"; "last_name"]
    else if String.eqb toolName "search_orders"
    then ["order_no"; "customer_email"]
    else ["id"; "name"] in
  exists p,
    buildRequestParams self toolName args = Js.Returned p /\
    bodyQuery p =
      if Js.truthy (Js.prop args "query")
      then Some (textQuery fields (Js.prop args "query"))
      else Js.get seed "query".
Proof.
  intros Hknown Hpost Hseed Husable Hother _ fields.
  destruct (searchBody_lookup toolName seed args Husable)
    as (found & Hfound & Hlookup).
  destruct (built_body self toolName endpoint seed args found
              Hknown Hpost Hseed Hfound) as (p & Hbuilt & Hbody).
  exists p. split; [exact Hbuilt|].
  unfold bodyQuery. rewrite Hbody, (Hlookup "query").
  cbn [String.eqb Ascii.eqb Bool.eqb].
  apply String.eqb_neq in Hother. rewrite Hother. cbn [andb].
  assert (Hfields : getSearchFieldsForTool toolName = fields).
  { subst fields. unfold getSearchFieldsForTool. cbn [Js.get].
    destruct (String.eqb_spec "search_products" toolName) as [<-|_];
      [reflexivity|].
    rewrite (String.eqb_sym "search_customers" toolName).
    destruct (String.eqb toolName "search_customers"); [reflexivity|].
    rewrite (String.eqb_sym "search_orders" toolName).
    destruct (String.eqb toolName "search_orders"); reflexivity. }
  rewrite Hfields. reflexivity.
Qed.

Lemma text_query_of_other_tools_witness :
  exists p,
    buildRequestParams Fixtures.handler "search_products"
      [("query", Js.Str "shirt"); ("campaign_id", Js.Str "summer")]
    = Js.Returned p /\
    bodyQuery p = Some (textQuery ["id"; "name"] (Js.Str "shirt")).
Proof.
  assert (Hknown : EndpointLoader.getEndpoint (endpointLoader Fixtures.handler)
                     "search_products" = Some Fixtures.search_products)
    by (vm_compute; reflexivity).
  assert (Hother : "search_products" <> "search_promotions") by discriminate.
  exact (text_query_of_other_tools Fixtures.handler "search_products"
           Fixtures.search_products
           [("query", Js.Obj [("match_all_query", Js.Obj [])]);
            ("count", Js.Num 25); ("start", Js.Num 0)]
           [("query", Js.Str "shirt"); ("campaign_id", Js.Str "summer")]
           Hknown eq_refl eq_refl (or_introl eq_refl) Hother eq_refl).
Defined.


End SearchRequests.

(* ===================================================================== *)
(** * From a tool call to the transport *)
(* ===================================================================== *)

Section Dispatch.

(** What a run of the client's [executeEndpoint] gives and leaves, for a
    descriptor of the registry. *)
Lemma executeEndpoint_run (self : DataAPIClient.t) (toolName : string)
    (endpoint : Endpoint) (params : DataAPIRequestParams) (w : World) :
  EndpointLoader.getEndpoint (DataAPIClient.endpointLoader self) toolName
    = Some endpoint ->
  let opening :=
    (LogDebug,
     "Executing " +:+ method endpoint +:+ " request to: "
     +:+ DataAPIClient.buildUrl endpoint params) in
  let failure (e : Js.Thrown) :=
    (LogError,
     "Error executing endpoint " +:+ toolName +:+ ": " +:+ Js.thrownToString e) in
  DataAPIClient.executeEndpoint self toolName params w =
    match transportCall endpoint params with
    | Some call =>
        match DataAPIClient.net self (calls w) call with
        | Resolved _ payload =>
            (Js.Returned {| data := payload; status := 200; success := true;
                            error := None |},
             {| calls := calls w ++ [call];
                logged := logged w ++ [opening] |})
        | Rejected e =>
            (Js.Returned {| data := Js.Null; status := 500; success := false;
                            error := Some (Js.errorMessage e) |},
             {| calls := calls w ++ [call];
                logged := (logged w ++ [opening]) ++ [failure e] |})
        end
    | None =>
        let e := Js.Error ("Unsupported HTTP method: " +:+ method endpoint) in
        (Js.Returned {| data := Js.Null; status := 500; success := false;
                        error := Some (Js.errorMessage e) |},
         {| calls := calls w;
            logged := (logged w ++ [opening]) ++ [failure e] |})
    end.
Proof.
  intros Hknown. cbv zeta.
  unfold DataAPIClient.executeEndpoint, transportCall. rewrite Hknown.
  unfold tryCatch, bind, log, request, throw, ret.
  repeat match goal with
         | |- context [String.eqb (method endpoint) ?verb] =>
             destruct (String.eqb (method endpoint) verb)
         end;
    cbn [calls logged];
    try (match goal with
         | |- context [DataAPIClient.net self ?history ?call] =>
             destruct (DataAPIClient.net self history call) as [code payload|e]
         end);
    reflexivity.
Qed.

End Dispatch.



Section EndToEnd.





End EndToEnd.



(* ===================================================================== *)
(** * Properties of the configuration factory *)
(* ===================================================================== *)

Section Configuration.

Import ConfigurationFactory.

(** When [validate] lets a configuration pass. *)
Lemma validate_passes (config : SFCCConfig.t) :
  validate config = Js.Returned tt ->
  hasHostname config = false \/
  (hasHostname config = true /\
   (given (SFCCConfig.username config) && given (SFCCConfig.password config)
    || given (SFCCConfig.clientId config)
       && given (SFCCConfig.clientSecret config)) = true /\
   exists host,
     SFCCConfig.hostname config = Some host /\
     matchesHostname (Js.trim host) = true).
Proof.
  unfold validate. cbv zeta.
  destruct (hasHostname config) eqn:Hhost; [|intros _; left; reflexivity].
  intros Hvalid. right. split; [reflexivity|].
  destruct (given (SFCCConfig.username config)
            && given (SFCCConfig.password config)) eqn:Hbasic;
    destruct (given (SFCCConfig.clientId config)
              && given (SFCCConfig.clientSecret config)) eqn:Hoauth;
    cbn [negb andb orb] in Hvalid |- *; try discriminate Hvalid;
    (split; [reflexivity|]);
    unfold hasHostname in Hhost;
    (destruct (SFCCConfig.hostname config) as [host|];
     [|rewrite andb_false_r in Hhost; discriminate Hhost]);
    exists host; (split; [reflexivity|]);
    (destruct (matchesHostname (Js.trim host));
     [reflexivity|discriminate Hvalid]).
Qed.

Lemma create_validates (fs : FileSystem) (options : Options)
    (config : SFCCConfig.t) :
  create fs options = Js.Returned config -> validate config = Js.Returned tt.
Proof.
  unfold create. cbv zeta.
  destruct (if given (dwJsonPath options) then _ else _) as [base|e];
    [|discriminate].
  destruct (validate _) as [[]|e] eqn:Hvalid; [|discriminate].
  intros H. inversion H; subst config. exact Hvalid.
Qed.

Lemma digit_hostCharacter (c : ascii) :
  digit c = true -> hostCharacter c = true.
Proof.
  unfold digit, hostCharacter. cbv zeta. intros ->. reflexivity.
Qed.

Lemma port_bytes (s : string) (c : ascii) :
  port s = true -> hasByte c s = true -> hostCharacter c = true.
Proof.
  induction s as [|a s IH]; intros Hport Hin; [discriminate Hin|].
  cbn [hasByte] in Hin.
  assert (Ha : digit a = true /\ (s = "" \/ port s = true)).
  { destruct s as [|b s]; cbn [port] in Hport.
    - split; [exact Hport|left; reflexivity].
    - apply andb_true_iff in Hport. destruct Hport as [Ha Hrest].
      split; [exact Ha|right; exact Hrest]. }
  destruct Ha as [Ha Hrest].
  destruct (Ascii.eqb_spec a c) as [<-|_].
  - apply digit_hostCharacter. exact Ha.
  - cbn [orb] in Hin. destruct Hrest as [->|Hrest]; [discriminate Hin|].
    apply IH; assumption.
Qed.

Lemma hostTail_bytes (s : string) (c : ascii) :
  hostTail s = true -> hasByte c s = true ->
  hostCharacter c = true \/ c = ":"%char.
Proof.
  induction s as [|a s IH]; intros Htail Hin; [discriminate Hin|].
  cbn [hostTail] in Htail. cbn [hasByte] in Hin.
  destruct (Ascii.eqb_spec a ":") as [->|_].
  - destruct (Ascii.eqb_spec ":" c) as [<-|_]; [right; reflexivity|].
    left. apply (port_bytes s c Htail). exact Hin.
  - apply andb_true_iff in Htail. destruct Htail as [Ha Hrest].
    destruct (Ascii.eqb_spec a c) as [<-|_]; [left; exact Ha|].
    apply IH; assumption.
Qed.

Lemma matchesHostname_bytes (s : string) (c : ascii) :
  matchesHostname s = true -> hasByte c s = true ->
  hostCharacter c = true \/ c = ":"%char.
Proof.
  destruct s as [|a s]; [discriminate|].
  cbn [matchesHostname hasByte]. intros Hmatch Hin.
  apply andb_true_iff in Hmatch. destruct Hmatch as [Ha Hrest].
  destruct (Ascii.eqb_spec a c) as [<-|_]; [left; exact Ha|].
  apply (hostTail_bytes s c Hrest). exact Hin.
Qed.

(** X14: the capabilities [getCapabilities] derives are ordered: WebDAV
    access and log access are the same capability, data-API access
    implies log access, and local mode excludes both.  The converse of
    the last fails: credentials without a host give neither local mode
    nor any access. *)
Theorem capabilities_are_ordered (config : SFCCConfig.t) :
  let found := getCapabilities config in
  canAccessWebDAV found = canAccessLogs found /\
  (canAccessOCAPI found = true -> canAccessLogs found = true) /\
  (isLocalMode found = true ->
   canAccessLogs found = false /\ canAccessOCAPI found = false) /\
  (hasHostname config = false ->
   canAccessLogs found = false /\ canAccessOCAPI found = false /\
   isLocalMode found =
     negb (given (SFCCConfig.username config)
           && given (SFCCConfig.password config)
           || given (SFCCConfig.clientId config)
              && given (SFCCConfig.clientSecret config))).
Proof.
  unfold getCapabilities. cbv zeta. cbn [canAccessWebDAV canAccessLogs
    canAccessOCAPI isLocalMode].
  destruct (hasHostname config),
           (given (SFCCConfig.username config)
            && given (SFCCConfig.password config)),
           (given (SFCCConfig.clientId config)
            && given (SFCCConfig.clientSecret config));
    cbn [negb andb orb]; repeat split; intros; congruence.
Qed.

(** X15: a configuration that [create] returns is never left with a host
    and no access.  If it names a host, log access is available and the
    host, once trimmed, has the form [name] or [name:port], so that it
    holds no byte other than letters, digits, dots, hyphens and colons; if
    it names none, neither log access nor data-API access is
    available. *)
Theorem created_configuration_is_usable (fs : FileSystem) (options : Options)
    (config : SFCCConfig.t) :
  create fs options = Js.Returned config ->
  if hasHostname config then
    canAccessLogs (getCapabilities config) = true /\
    exists host,
      SFCCConfig.hostname config = Some host /\
      matchesHostname (Js.trim host) = true /\
      forall c, hasByte c (Js.trim host) = true ->
                hostCharacter c = true \/ c = ":"%char
  else
    canAccessLogs (getCapabilities config) = false /\
    canAccessOCAPI (getCapabilities config) = false.
Proof.
  intros Hcreated. apply create_validates in Hcreated.
  apply validate_passes in Hcreated.
  destruct Hcreated as [Hnone|(Hhost & Hcredentials & host & Hfield & Hform)].
  - rewrite Hnone. unfold getCapabilities. cbv zeta.
    cbn [canAccessLogs canAccessOCAPI]. rewrite Hnone, !andb_false_r.
    split; reflexivity.
  - rewrite Hhost. split.
    + unfold getCapabilities. cbv zeta. cbn [canAccessLogs].
      rewrite Hhost, Hcredentials. reflexivity.
    + exists host. split; [exact Hfield|]. split; [exact Hform|].
      intros c. apply matchesHostname_bytes. exact Hform.
Qed.

End Configuration.

Lemma created_configuration_is_usable_witness :
  exists config,
    ConfigurationFactory.create Samples.disk Samples.oauthOptions
      = Js.Returned config /\
    ConfigurationFactory.canAccessLogs
      (ConfigurationFactory.getCapabilities config) = true.
Proof.
  destruct (ConfigurationFactory.create Samples.disk Samples.oauthOptions)
    as [config|e] eqn:Hcreated; [|vm_compute in Hcreated; discriminate Hcreated].
  exists config. split; [reflexivity|].
  pose proof (created_configuration_is_usable Samples.disk Samples.oauthOptions
                config Hcreated) as H.
  assert (Hhost : ConfigurationFactory.hasHostname config = true).
  { vm_compute in Hcreated. inversion Hcreated; subst config.
    vm_compute. reflexivity. }
  rewrite Hhost in H. exact (proj1 H).
Defined.

Section ConfigurationSources.

Import ConfigurationFactory.

(** X16: what [mapDwJsonToConfig] makes of a [dw.json] file.  The OAuth
    credentials are taken as a pair or not at all: client id and client
    secret are both kept when both are non-empty in the file, and both
    dropped otherwise; no optional field is ever mapped to the empty
    string.  Hence the mapped configuration can reach the data API
    exactly when the file holds a non-empty client id, a non-empty client
    secret and a host that is not blank. *)
Theorem dw_json_oauth_is_a_pair (dwConfig : DwJsonConfig.t) :
  let config := mapDwJsonToConfig dwConfig in
  let paired :=
    given (DwJsonConfig.clientId dwConfig)
    && given (DwJsonConfig.clientSecret dwConfig) in
  SFCCConfig.clientId config
    = (if paired then DwJsonConfig.clientId dwConfig else None) /\
  SFCCConfig.clientSecret config
    = (if paired then DwJsonConfig.clientSecret dwConfig else None) /\
  given (SFCCConfig.clientId config) = paired /\
  given (SFCCConfig.clientSecret config) = paired /\
  Forall (fun field => field = None \/ given field = true)
    [SFCCConfig.clientId config; SFCCConfig.clientSecret config;
     SFCCConfig.siteId config; SFCCConfig.shortCode config;
     SFCCConfig.organizationId config] /\
  canAccessOCAPI (getCapabilities config)
    = paired && negb (String.eqb (Js.trim (DwJsonConfig.hostname dwConfig)) "").
Proof.
  cbv zeta. unfold mapDwJsonToConfig. cbv zeta.
  cbn [SFCCConfig.clientId SFCCConfig.clientSecret SFCCConfig.siteId
       SFCCConfig.shortCode SFCCConfig.organizationId].
  split; [reflexivity|]. split; [reflexivity|].
  split.
  { destruct (given (DwJsonConfig.clientId dwConfig)) eqn:Hid;
      destruct (given (DwJsonConfig.clientSecret dwConfig)) eqn:Hsecret;
      cbn [andb]; try reflexivity; exact Hid. }
  split.
  { destruct (given (DwJsonConfig.clientId dwConfig)) eqn:Hid;
      destruct (given (DwJsonConfig.clientSecret dwConfig)) eqn:Hsecret;
      cbn [andb]; try reflexivity; exact Hsecret. }
  split.
  { assert (Hkept : forall (flag : bool) (field : option string),
              (flag = true -> given field = true) ->
              (if flag then field else None) = None \/
              given (if flag then field else None) = true).
    { intros [] field Hfield; [right; apply Hfield; reflexivity|left; reflexivity]. }
    constructor.
    { apply Hkept. intros H. apply andb_true_iff in H. apply H. }
    constructor.
    { apply Hkept. intros H. apply andb_true_iff in H. apply H. }
    constructor; [apply Hkept; auto|].
    constructor; [apply Hkept; auto|].
    constructor; [apply Hkept; auto|].
    constructor. }
  unfold getCapabilities, hasHostname. cbv zeta.
  cbn [canAccessOCAPI SFCCConfig.clientId SFCCConfig.clientSecret
       SFCCConfig.hostname given].
  assert (Hhost : negb (String.eqb (DwJsonConfig.hostname dwConfig) "")
                  && negb (String.eqb (Js.trim (DwJsonConfig.hostname dwConfig)) "")
                  = negb (String.eqb (Js.trim (DwJsonConfig.hostname dwConfig)) "")).
  { destruct (String.eqb_spec (DwJsonConfig.hostname dwConfig) "") as [->|_];
      reflexivity. }
  rewrite Hhost.
  destruct (given (DwJsonConfig.clientId dwConfig)) eqn:Hid;
    destruct (given (DwJsonConfig.clientSecret dwConfig)) eqn:Hsecret;
    cbn [andb]; rewrite ?Hid, ?Hsecret; reflexivity.
Qed.

(** X17: how [create] combines a [dw.json] file with explicit options.
    When a file is named and loads, every option that is given (defined
    and not empty) takes the place of the value of the file, and every
    field without such an option keeps the value mapped from the file;
    so an explicit client id can end up paired with the client secret of
    the file. *)
Theorem options_override_the_file (fs : FileSystem) (options : Options)
    (file : string) (dwConfig : DwJsonConfig.t) (config : SFCCConfig.t) :
  dwJsonPath options = Some file ->
  file <> "" ->
  loadFromDwJson fs file = Js.Returned dwConfig ->
  create fs options = Js.Returned config ->
  let mapped := mapDwJsonToConfig dwConfig in
  let choose (chosen fromFile : option string) :=
    if given chosen then chosen else fromFile in
  SFCCConfig.hostname config
    = choose (hostname options) (Some (DwJsonConfig.hostname dwConfig)) /\
  SFCCConfig.username config
    = choose (username options) (Some (DwJsonConfig.username dwConfig)) /\
  SFCCConfig.password config
    = choose (password options) (Some (DwJsonConfig.password dwConfig)) /\
  SFCCConfig.clientId config
    = choose (clientId options) (SFCCConfig.clientId mapped) /\
  SFCCConfig.clientSecret config
    = choose (clientSecret options) (SFCCConfig.clientSecret mapped) /\
  SFCCConfig.siteId config
    = choose (siteId options) (SFCCConfig.siteId mapped) /\
  SFCCConfig.shortCode config
    = choose (shortCode options) (SFCCConfig.shortCode mapped) /\
  SFCCConfig.organizationId config
    = choose (organizationId options) (SFCCConfig.organizationId mapped).
Proof.
  intros Hnamed Hfile Hloaded Hcreated. cbv zeta.
  unfold create in Hcreated. cbv zeta in Hcreated.
  rewrite Hnamed in Hcreated. cbn [given] in Hcreated.
  apply String.eqb_neq in Hfile. rewrite Hfile in Hcreated.
  cbn [negb] in Hcreated. rewrite Hloaded in Hcreated.
  destruct (validate _) as [[]|e]; [|discriminate Hcreated].
  inversion Hcreated; subst config.
  cbn [SFCCConfig.hostname SFCCConfig.username SFCCConfig.password
       SFCCConfig.clientId SFCCConfig.clientSecret SFCCConfig.siteId
       SFCCConfig.shortCode SFCCConfig.organizationId].
  unfold override. repeat split; reflexivity.
Qed.

End ConfigurationSources.

Lemma options_override_the_file_witness :
  exists config,
    ConfigurationFactory.create Samples.disk Samples.fileOptions
      = Js.Returned config /\
    SFCCConfig.siteId config = Some "SiteGenesis" /\
    SFCCConfig.hostname config = Some "dev01.example.com" /\
    SFCCConfig.clientId config = None.
Proof.
  assert (Hloaded : ConfigurationFactory.loadFromDwJson Samples.disk "dw.json"
                    = Js.Returned Samples.dwJson) by reflexivity.
  assert (Hfile : "dw.json" <> "") by discriminate.
  destruct (ConfigurationFactory.create Samples.disk Samples.fileOptions)
    as [config|e] eqn:Hcreated; [|vm_compute in Hcreated; discriminate Hcreated].
  destruct (options_override_the_file Samples.disk Samples.fileOptions
              "dw.json" Samples.dwJson config eq_refl Hfile Hloaded Hcreated)
    as (Hhost & _ & _ & Hid & _ & Hsite & _).
  exists config. split; [reflexivity|].
  split; [exact Hsite|]. split; [exact Hhost | exact Hid].
Defined.

(** X18: the credentials [onInitialize] hands to the client are defined.
    For a handler built on the context the server derives from a
    configuration, [onInitialize] makes no transport call, and it creates
    the client exactly when the configuration can reach the data API; the
    client then holds a host, a client id and a client secret that are
    defined and not empty, the site of the configuration and the
    registry of the handler. *)
Theorem data_api_client_has_credentials (net : Transport)
    (config : SFCCConfig.t) (loader : EndpointLoader.t) (w : World) :
  exists handler' w',
    DataAPIToolHandler.onInitialize net
      (DataAPIToolHandler.create (contextFor config) loader) w
    = (Js.Returned handler', w') /\
    calls w' = calls w /\
    match DataAPIToolHandler.dataAPIClient handler' with
    | None =>
        ConfigurationFactory.canAccessOCAPI
          (ConfigurationFactory.getCapabilities config) = false
    | Some client =>
        ConfigurationFactory.canAccessOCAPI
          (ConfigurationFactory.getCapabilities config) = true /\
        ConfigurationFactory.given
          (OCAPIConfig.hostname (DataAPIClient.config client)) = true /\
        ConfigurationFactory.given
          (OCAPIConfig.clientId (DataAPIClient.config client)) = true /\
        ConfigurationFactory.given
          (OCAPIConfig.clientSecret (DataAPIClient.config client)) = true /\
        DataAPIClient.getSiteId client = SFCCConfig.siteId config /\
        DataAPIClient.endpointLoader client = loader
    end.
Proof.
  unfold DataAPIToolHandler.onInitialize, DataAPIToolHandler.create, contextFor.
  cbn [DataAPIToolHandler.context DataAPIToolHandler.capabilities
       DataAPIToolHandler.canAccessOCAPI DataAPIToolHandler.config
       DataAPIToolHandler.endpointLoader DataAPIToolHandler.toolNameSet].
  destruct (ConfigurationFactory.canAccessOCAPI
              (ConfigurationFactory.getCapabilities config)) eqn:Hcan;
    cbn [negb]; unfold bind, log, ret; cbn [calls logged].
  - eexists. eexists. split; [reflexivity|]. split; [reflexivity|].
    cbn [DataAPIToolHandler.dataAPIClient DataAPIClient.create
         DataAPIClient.config DataAPIClient.getSiteId DataAPIClient.siteId
         DataAPIClient.endpointLoader OCAPIConfig.hostname
         OCAPIConfig.clientId OCAPIConfig.clientSecret OCAPIConfig.siteId].
    unfold ConfigurationFactory.getCapabilities in Hcan. cbv zeta in Hcan.
    cbn [ConfigurationFactory.canAccessOCAPI] in Hcan.
    apply andb_true_iff in Hcan. destruct Hcan as [Hpair Hhost].
    apply andb_true_iff in Hpair. destruct Hpair as [Hid Hsecret].
    unfold ConfigurationFactory.hasHostname in Hhost.
    apply andb_true_iff in Hhost. destruct Hhost as [Hgiven _].
    repeat split; assumption || reflexivity.
  - eexists. eexists. split; [reflexivity|]. split; reflexivity.
Qed.

(* ===================================================================== *)
(** * Properties of the server's request handlers *)
(* ===================================================================== *)

(** X19: the handler of [CallToolRequestSchema] always answers and never
    throws.  The first registered handler that claims the tool name is
    the only one asked; what it returns is returned as it is, and what it
    throws becomes an error envelope whose text is "Error: " followed by
    the message.  A name no handler claims gives the error envelope
    "Error: Unknown tool: " followed by the name and leaves the world of
    the handlers untouched.  In every case the logger sees the method
    entry first and the method exit last. *)
Theorem callTool_always_answers (self : SFCCDevServer.t) (name : string)
    (args : option Js.Object) (startTime : Z) (s : SFCCDevServer.Scene) :
  exists response s' between,
    SFCCDevServer.callTool self name args startTime s
      = (Js.Returned response, s') /\
    SFCCDevServer.events s' =
      SFCCDevServer.events s
      ++ SFCCDevServer.MethodEntry ("handleToolRequest:" +:+ name) args
         :: between
      ++ [SFCCDevServer.MethodExit ("handleToolRequest:" +:+ name)] /\
    match List.find (fun h => SFCCDevServer.canHandle h name)
            (SFCCDevServer.handlers self) with
    | None =>
        response = SFCCDevServer.errorResult (Js.Error ("Unknown tool: " +:+ name)) /\
        SFCCDevServer.world s' = SFCCDevServer.world s
    | Some handler =>
        match SFCCDevServer.handle handler name
                (match args with
                 | Some given => given
                 | None => []
                 end)
                startTime (SFCCDevServer.world s) with
        | (Js.Returned result, w) =>
            response = result /\ SFCCDevServer.world s' = w
        | (Js.Threw e, w) =>
            response = SFCCDevServer.errorResult e /\
            SFCCDevServer.world s' = w
        end
    end.
Proof.
  unfold SFCCDevServer.callTool, SFCCDevServer.andThen, SFCCDevServer.ensuring,
    SFCCDevServer.attempt, SFCCDevServer.emit, SFCCDevServer.inWorld,
    SFCCDevServer.fail, SFCCDevServer.done.
  cbn [SFCCDevServer.world SFCCDevServer.events].
  destruct (List.find (fun h => SFCCDevServer.canHandle h name)
              (SFCCDevServer.handlers self)) as [handler|];
    cbn beta iota zeta delta [SFCCDevServer.world SFCCDevServer.events].
  - destruct (SFCCDevServer.handle handler name
                (match args with
                 | Some given => given
                 | None => []
                 end)
                startTime (SFCCDevServer.world s)) as [[result|e] w];
      cbn [SFCCDevServer.world SFCCDevServer.events].
    + eexists. eexists.
      exists [SFCCDevServer.DebugLine ("Full response for " +:+ name +:+ ":")
                result].
      split; [reflexivity|]. cbn [SFCCDevServer.world SFCCDevServer.events].
      split; [|split; reflexivity].
      rewrite <- !app_assoc. reflexivity.
    + eexists. eexists.
      exists [SFCCDevServer.ErrorLine
                ("Error handling tool " +:+ SFCCDevServer.quote +:+ name
                 +:+ SFCCDevServer.quote +:+ ":") (Some e);
              SFCCDevServer.Timing (name +:+ "_error") startTime;
              SFCCDevServer.DebugLine ("Error response for " +:+ name +:+ ":")
                (SFCCDevServer.errorResult e)].
      split; [reflexivity|]. cbn [SFCCDevServer.world SFCCDevServer.events].
      split; [|split; reflexivity].
      rewrite <- !app_assoc. reflexivity.
  - eexists. eexists.
    exists [SFCCDevServer.ErrorLine ("Unknown tool requested: " +:+ name) None;
            SFCCDevServer.ErrorLine
              ("Error handling tool " +:+ SFCCDevServer.quote +:+ name
               +:+ SFCCDevServer.quote +:+ ":")
              (Some (Js.Error ("Unknown tool: " +:+ name)));
            SFCCDevServer.Timing (name +:+ "_error") startTime;
            SFCCDevServer.DebugLine ("Error response for " +:+ name +:+ ":")
              (SFCCDevServer.errorResult (Js.Error ("Unknown tool: " +:+ name)))].
    split; [reflexivity|]. cbn [SFCCDevServer.world SFCCDevServer.events].
    split; [|split; reflexivity].
    rewrite <- !app_assoc. reflexivity.
Qed.

(** X20: which tools the handler of [ListToolsRequestSchema] advertises,
    in terms of the configuration the server was built from.  The three
    documentation groups always come first; the log groups follow when
    the configuration names a host and holds either pair of credentials;
    the system-object, code-version and data-API groups follow when it
    names a host and holds the OAuth pair.  Without a host nothing but the
    documentation groups is advertised, whatever the credentials. *)
Theorem advertised_tools (definitions : SFCCDevServer.ToolDefinitions)
    (config : SFCCConfig.t) (handlers : list SFCCDevServer.Handler) :
  let basic :=
    ConfigurationFactory.given (SFCCConfig.username config)
    && ConfigurationFactory.given (SFCCConfig.password config) in
  let oauth :=
    ConfigurationFactory.given (SFCCConfig.clientId config)
    && ConfigurationFactory.given (SFCCConfig.clientSecret config) in
  let host := ConfigurationFactory.hasHostname config in
  SFCCDevServer.listTools definitions
    {| SFCCDevServer.capabilities := ConfigurationFactory.getCapabilities config;
       SFCCDevServer.handlers := handlers |}
  = SFCCDevServer.SFCC_DOCUMENTATION_TOOLS definitions
    ++ SFCCDevServer.BEST_PRACTICES_TOOLS definitions
    ++ SFCCDevServer.SFRA_DOCUMENTATION_TOOLS definitions
    ++ (if host && (basic || oauth)
        then SFCCDevServer.LOG_TOOLS definitions
             ++ SFCCDevServer.JOB_LOG_TOOLS definitions
        else [])
    ++ (if host && oauth
        then SFCCDevServer.SYSTEM_OBJECT_TOOLS definitions
             ++ SFCCDevServer.CODE_VERSION_TOOLS definitions
             ++ SFCCDevServer.DATA_API_TOOLS definitions
        else []).
Proof.
  cbv zeta. unfold SFCCDevServer.listTools, ConfigurationFactory.getCapabilities.
  cbv zeta.
  cbn [SFCCDevServer.capabilities ConfigurationFactory.canAccessLogs
       ConfigurationFactory.canAccessOCAPI].
  destruct (ConfigurationFactory.hasHostname config),
           (ConfigurationFactory.given (SFCCConfig.username config)
            && ConfigurationFactory.given (SFCCConfig.password config)),
           (ConfigurationFactory.given (SFCCConfig.clientId config)
            && ConfigurationFactory.given (SFCCConfig.clientSecret config));
    cbn [andb orb app]; rewrite <- ?app_assoc, ?app_nil_r; reflexivity.
Qed.

(* ===================================================================== *)
(** * Properties of the command line *)
(* ===================================================================== *)

Section CommandLineFacts.

Import CommandLine.

Lemma overlay_step (later : Options) (file : option string)
    (flag : option bool) (earlier : Options) :
  overlay (overlay later {| dwJsonPath := file; debug := flag |}) earlier
  = overlay later
      {| dwJsonPath := match file with
                       | Some f => Some f
                       | None => dwJsonPath earlier
                       end;
         debug := match flag with
                  | Some d => Some d
                  | None => debug earlier
                  end |}.
Proof.
  destruct later as [[f|] [d|]], file, flag; reflexivity.
Qed.

Lemma parseFrom_unfold (arg next : string) (later : list string)
    (options : Options) :
  parseFrom (arg :: next :: later) options =
    if String.eqb arg "--dw-json" then
      parseFrom later {| dwJsonPath := Some next; debug := debug options |}
    else if String.eqb arg "--debug" then
      parseFrom later
        {| dwJsonPath := dwJsonPath options; debug := Some (affirmative next) |}
    else parseFrom (next :: later) options.
Proof. reflexivity. Qed.

(** Parsing from any options is parsing from none, laid over them. *)
Lemma parseFrom_overlay (args : list string) (options : Options) :
  parseFrom args options
  = overlay (parseFrom args {| dwJsonPath := None; debug := None |}) options.
Proof.
  remember (length args) as n eqn:Hn.
  revert args options Hn.
  induction n as [n IH] using lt_wf_ind. intros args options Hn.
  destruct args as [|arg [|next later]].
  - destruct options; reflexivity.
  - cbn [parseFrom].
    destruct (String.eqb arg "--dw-json"); [destruct options; reflexivity|].
    destruct (String.eqb arg "--debug"); destruct options; reflexivity.
  - rewrite (parseFrom_unfold arg next later options),
      (parseFrom_unfold arg next later {| dwJsonPath := None; debug := None |}).
    cbn [dwJsonPath debug].
    destruct (String.eqb arg "--dw-json").
    + assert (Hshorter : (length later < n)%nat) by (subst n; simpl; lia).
      rewrite (IH (length later) Hshorter later
                 {| dwJsonPath := Some next; debug := debug options |} eq_refl).
      rewrite (IH (length later) Hshorter later
                 {| dwJsonPath := Some next; debug := None |} eq_refl).
      rewrite overlay_step. reflexivity.
    + destruct (String.eqb arg "--debug").
      * assert (Hshorter : (length later < n)%nat) by (subst n; simpl; lia).
        rewrite (IH (length later) Hshorter later
                   {| dwJsonPath := dwJsonPath options;
                      debug := Some (affirmative next) |} eq_refl).
        rewrite (IH (length later) Hshorter later
                   {| dwJsonPath := None; debug := Some (affirmative next) |}
                   eq_refl).
        rewrite overlay_step. reflexivity.
      * apply (IH (length (next :: later))); [subst n; simpl; lia|reflexivity].
Qed.

(** X21: how [parseCommandLineArgs] reads the tokens.  A flag that is
    followed by a token takes that token as its value, even when the
    token is itself a flag, and the tokens behind it are read on; what a
    later flag sets wins over what an earlier one set.  Any other token
    is skipped.  A last [--dw-json] without a value is ignored and a last
    [--debug] without a value turns debugging on. *)
Theorem command_line_is_read_left_to_right :
  (forall file rest,
     parseCommandLineArgs ("--dw-json" :: file :: rest)
     = overlay (parseCommandLineArgs rest)
         {| dwJsonPath := Some file; debug := None |}) /\
  (forall token rest,
     parseCommandLineArgs ("--debug" :: token :: rest)
     = overlay (parseCommandLineArgs rest)
         {| dwJsonPath := None; debug := Some (affirmative token) |}) /\
  (forall other rest,
     other <> "--dw-json" -> other <> "--debug" ->
     parseCommandLineArgs (other :: rest) = parseCommandLineArgs rest) /\
  parseCommandLineArgs ["--dw-json"] = {| dwJsonPath := None; debug := None |} /\
  parseCommandLineArgs ["--debug"] = {| dwJsonPath := None; debug := Some true |}.
Proof.
  unfold parseCommandLineArgs. split; [|split; [|split; [|split]]].
  - intros file rest. cbn [parseFrom String.eqb Ascii.eqb Bool.eqb].
    apply parseFrom_overlay.
  - intros token rest. cbn [parseFrom String.eqb Ascii.eqb Bool.eqb].
    apply parseFrom_overlay.
  - intros other rest Hfile Hdebug.
    apply String.eqb_neq in Hfile, Hdebug.
    destruct rest as [|next later]; cbn [parseFrom]; rewrite Hfile, Hdebug;
      reflexivity.
  - reflexivity.
  - reflexivity.
Qed.

End CommandLineFacts.

(* ===================================================================== *)
(** * Properties of the convenience methods *)
(* ===================================================================== *)

Section ConvenienceFacts.

Import Convenience.

(** X22: what [searchProducts] asks of the transport.  On a registry that
    holds a [POST] descriptor for [search_products] it makes exactly one
    call, a [POST] to the path of the descriptor with the first
    [{site_id}] replaced by the encoded site and without a query string,
    and it returns an envelope.  The body sent holds the text query over
    [id] and [name] when a non-empty query is given and the match-all
    query otherwise, [count] and [start] with the defaults 25 and 0, the
    comma-separated items of a non-empty [expand] (not trimmed), and
    every other field of the default body. *)
Theorem searchProducts_request (self : DataAPIClient.t) (endpoint : Endpoint)
    (siteId : string) (query : option string) (count start : option Z)
    (expand : option string) (w : World) :
  EndpointLoader.getEndpoint (DataAPIClient.endpointLoader self)
    "search_products" = Some endpoint ->
  method endpoint = "POST" ->
  exists response w' fields,
    searchProducts self siteId query count start expand w
      = (Js.Returned response, w') /\
    calls w' =
      calls w ++
      [ {| verb := "POST";
           url := Js.replace (path endpoint) "{site_id}"
                    (Js.encodeURIComponent siteId);
           sent := Some fields |} ] /\
    Js.get fields "query" =
      Some (match query with
            | Some phrase =>
                if String.eqb phrase "" then matchAll
                else DataAPIToolHandler.textQuery ["id"; "name"] (Js.Str phrase)
            | None => matchAll
            end) /\
    Js.get fields "count" =
      Some (Js.Num (match count with Some n => n | None => 25 end)) /\
    Js.get fields "start" =
      Some (Js.Num (match start with Some n => n | None => 0 end)) /\
    Js.get fields "expand" =
      (match expand with
       | Some items =>
           if String.eqb items "" then Js.get (seedEntries endpoint) "expand"
           else Some (Js.Arr (map Js.Str (Js.split "," items)))
       | None => Js.get (seedEntries endpoint) "expand"
       end) /\
    (forall k, ~ In k ["query"; "count"; "start"; "expand"] ->
               Js.get fields k = Js.get (seedEntries endpoint) k).
Proof.
  intros Hknown Hpost. unfold searchProducts.
  set (entries :=
         if given expand
         then Js.set [("query", phraseOrAll ["id"; "name"] query);
                      ("count", orDefault count 25);
                      ("start", orDefault start 0)]
                "expand" (Js.Arr (map Js.Str (Js.split "," (text expand))))
         else [("query", phraseOrAll ["id"; "name"] query);
               ("count", orDefault count 25);
               ("start", orDefault start 0)]).
  set (params := {| pathParams := Some [("site_id", siteId)];
                    queryParams := None;
                    body := Some entries |}).
  rewrite (executeEndpoint_run self "search_products" endpoint params w Hknown).
  cbv zeta.
  assert (Hcall : transportCall endpoint params =
                  Some {| verb := "POST";
                          url := Js.replace (path endpoint) "{site_id}"
                                   (Js.encodeURIComponent siteId);
                          sent := Some (DataAPIClient.assign
                                          (seedEntries endpoint) entries) |}).
  { unfold transportCall. rewrite Hpost. reflexivity. }
  rewrite Hcall.
  assert (Hdistinct : List.NoDup (Js.keys entries)).
  { subst entries. destruct (given expand); simpl;
      repeat constructor; simpl; intuition discriminate. }
  assert (Hlookup : forall k,
            Js.get (DataAPIClient.assign (seedEntries endpoint) entries) k =
              match Js.get entries k with
              | Some v => Some v
              | None => Js.get (seedEntries endpoint) k
              end).
  { intros k. apply assign_lookup. exact Hdistinct. }
  assert (Hfields :
    Js.get (DataAPIClient.assign (seedEntries endpoint) entries) "query" =
      Some (match query with
            | Some phrase =>
                if String.eqb phrase "" then matchAll
                else DataAPIToolHandler.textQuery ["id"; "name"] (Js.Str phrase)
            | None => matchAll
            end) /\
    Js.get (DataAPIClient.assign (seedEntries endpoint) entries) "count" =
      Some (Js.Num (match count with Some n => n | None => 25 end)) /\
    Js.get (DataAPIClient.assign (seedEntries endpoint) entries) "start" =
      Some (Js.Num (match start with Some n => n | None => 0 end)) /\
    Js.get (DataAPIClient.assign (seedEntries endpoint) entries) "expand" =
      (match expand with
       | Some items =>
           if String.eqb items "" then Js.get (seedEntries endpoint) "expand"
           else Some (Js.Arr (map Js.Str (Js.split "," items)))
       | None => Js.get (seedEntries endpoint) "expand"
       end) /\
    (forall k, ~ In k ["query"; "count"; "start"; "expand"] ->
               Js.get (DataAPIClient.assign (seedEntries endpoint) entries) k
               = Js.get (seedEntries endpoint) k)).
  { split; [|split; [|split; [|split]]].
    - rewrite Hlookup. subst entries.
      destruct (given expand); cbn [Js.set Js.get String.eqb Ascii.eqb Bool.eqb];
        unfold phraseOrAll, given, text;
        destruct query as [phrase|]; try destruct (String.eqb phrase "");
        reflexivity.
    - rewrite Hlookup. subst entries.
      destruct (given expand); cbn [Js.set Js.get String.eqb Ascii.eqb Bool.eqb];
        destruct count; reflexivity.
    - rewrite Hlookup. subst entries.
      destruct (given expand); cbn [Js.set Js.get String.eqb Ascii.eqb Bool.eqb];
        destruct start; reflexivity.
    - rewrite Hlookup. subst entries. unfold given, text.
      destruct expand as [items|]; [destruct (String.eqb items "")|];
        reflexivity.
    - intros k Hother. rewrite Hlookup.
      assert (Habsent : Js.get entries k = None).
      { apply get_absent. intros Hin. apply Hother.
        subst entries. destruct (given expand); simpl in Hin |- *; tauto. }
      rewrite Habsent. reflexivity. }
  destruct (DataAPIClient.net self (calls w) _) as [code payload|e];
    eexists; eexists; eexists; (split; [reflexivity|]);
    (split; [reflexivity|]); exact Hfields.
Qed.

End ConvenienceFacts.

Lemma searchProducts_request_witness :
  let catalog :=
    DataAPIClient.create Fixtures.echo
      (fst (EndpointLoader.create
              (Fixtures.catalogOf
                 [ {| toolName := "search_products";
                      path := "/sites/{site_id}/product_search";
                      endpointDescription := "Search products";
                      method := "POST";
                      parameters := [];
                      defaultBody := Some [("select", Js.Str "(**)")];
                      apiType := "ocapi";
                      requiresSiteId := Some true |} ])))
      Fixtures.credentials in
  exists response w',
    Convenience.searchProducts catalog "Ref Arch" (Some "shirt") None (Some 50)
      (Some "images, prices") Fixtures.quiet
    = (Js.Returned response, w') /\
    calls w' =
      [ {| verb := "POST";
           url := "/sites/Ref%20Arch/product_search";
           sent :=
             Some [("select", Js.Str "(**)");
                   ("query",
                    DataAPIToolHandler.textQuery ["id"; "name"] (Js.Str "shirt"));
                   ("count", Js.Num 25);
                   ("start", Js.Num 50);
                   ("expand", Js.Arr [Js.Str "images"; Js.Str " prices"])] |} ].
Proof.
  intros catalog.
  destruct (searchProducts_request catalog
              {| toolName := "search_products";
                 path := "/sites/{site_id}/product_search";
                 endpointDescription := "Search products";
                 method := "POST";
                 parameters := [];
                 defaultBody := Some [("select", Js.Str "(**)")];
                 apiType := "ocapi";
                 requiresSiteId := Some true |}
              "Ref Arch" (Some "shirt") None (Some 50) (Some "images, prices")
              Fixtures.quiet eq_refl eq_refl)
    as (response & w' & fields & Hrun & Hcalls & _).
  exists response, w'. split; [exact Hrun|].
  vm_compute in Hrun. inversion Hrun; subst. vm_compute. reflexivity.
Defined.

(* ===================================================================== *)
(** * The table of tools *)
(* ===================================================================== *)

Section ToolTable.

Import DataAPIToolHandler.

Lemma get_member {V : Type} (o : list (string * V)) (k : string) (v : V) :
  Js.get o k = Some v -> In (k, v) o.
Proof.
  induction o as [|[k' v'] o IH]; [discriminate|].
  simpl. destruct (String.eqb_spec k' k) as [->|_].
  - intros H. inversion H. left. reflexivity.
  - intros H. right. apply IH. exact H.
Qed.

Lemma table_checked : forallb entryIsConsistent getToolConfig = true.
Proof. vm_compute. reflexivity. Qed.

End ToolTable.

(** X23: the table [getToolConfig] returns is consistent: its 28 tool
    names are pairwise distinct, every tool executes the endpoint of its
    own name, and a tool that checks required arguments names at least
    one. *)
Theorem tool_table_is_consistent :
  List.NoDup (Js.keys DataAPIToolHandler.getToolConfig) /\
  length DataAPIToolHandler.getToolConfig = 28%nat /\
  (forall tool spec,
     Js.get DataAPIToolHandler.getToolConfig tool = Some spec ->
     DataAPIToolHandler.exec spec = tool /\
     forall fields,
       DataAPIToolHandler.validate spec = Some fields -> fields <> []).
Proof.
  split; [|split].
  - vm_compute.
    repeat (constructor;
            [intros H; repeat (destruct H as [H|H]; [discriminate H|]); exact H|]).
    constructor.
  - reflexivity.
  - intros tool spec Hget. apply get_member in Hget.
    pose proof (proj1 (forallb_forall _ _) table_checked _ Hget) as Hentry.
    unfold entryIsConsistent in Hentry. cbn [fst snd] in Hentry.
    apply andb_true_iff in Hentry. destruct Hentry as [Hexec Hfields].
    split; [apply String.eqb_eq; exact Hexec|].
    intros fields Hvalidate. rewrite Hvalidate in Hfields.
    intros ->. discriminate Hfields.
Qed.


Section DeadRegistry.

Import Convenience.

Lemma failed_load_indexes_nothing (file : EndpointLoader.Catalog)
    (e : Js.Thrown) (n : string) :
  loadFailure (EndpointLoader.content file) = Some e ->
  EndpointLoader.getEndpoint (fst (EndpointLoader.create file)) n = None.
Proof.
  intros Hfailed. rewrite getEndpoint_loaded.
  destruct (EndpointLoader.content file) as [e'|e'|[es|]|indexed e'];
    try reflexivity; discriminate Hfailed.
Qed.

Lemma executeEndpoint_unknown (self : DataAPIClient.t) (toolName : string)
    (params : DataAPIRequestParams) (w : World) :
  EndpointLoader.getEndpoint (DataAPIClient.endpointLoader self) toolName = None ->
  DataAPIClient.executeEndpoint self toolName params w =
    (Js.Returned {| data := Js.Null;
                    status := 400;
                    success := false;
                    error := Some ("Unknown endpoint: " +:+ toolName) |},
     w).
Proof.
  intros Hunknown. unfold DataAPIClient.executeEndpoint. rewrite Hunknown.
  reflexivity.
Qed.

(** X26: when the catalog file could not be read or parsed, every
    convenience method of the client is dead although the loader lists a
    fallback descriptor: each one returns the 400 envelope "Unknown
    endpoint: " followed by its tool name, makes no transport call and
    logs nothing, [getCatalogs] included. *)
Theorem convenience_methods_need_the_catalog (file : EndpointLoader.Catalog)
    (e : Js.Thrown) (net : Transport) (config : OCAPIConfig.t) (w : World) :
  loadFailure (EndpointLoader.content file) = Some e ->
  let self :=
    DataAPIClient.create net (fst (EndpointLoader.create file)) config in
  let unknown (toolName : string) :=
    (Js.Returned {| data := Js.Null;
                    status := 400;
                    success := false;
                    error := Some ("Unknown endpoint: " +:+ toolName) |},
     w) in
  In "get_catalogs" (map toolName (DataAPIClient.getAvailableEndpoints self)) /\
  (forall count start,
     getCatalogs self count start w = unknown "get_catalogs") /\
  (forall catalogId, getCatalog self catalogId w = unknown "get_catalog") /\
  (forall catalogId levels count start,
     getCategories self catalogId levels count start w
     = unknown "get_categories") /\
  (forall siteId query count start expand,
     searchProducts self siteId query count start expand w
     = unknown "search_products") /\
  (forall siteId productId expand,
     getProduct self siteId productId expand w = unknown "get_product") /\
  (forall count start, getSites self count start w = unknown "get_sites") /\
  (forall siteId, getSite self siteId w = unknown "get_site") /\
  (forall siteId query count start,
     searchCustomers self siteId query count start w
     = unknown "search_customers") /\
  (forall siteId query count start,
     searchOrders self siteId query count start w = unknown "search_orders") /\
  (forall siteId orderNo expand,
     getOrder self siteId orderNo expand w = unknown "get_order") /\
  (forall objectType count start,
     searchCustomObjects self objectType count start w
     = unknown "search_custom_objects") /\
  (forall objectType key,
     getCustomObject self objectType key w = unknown "get_custom_object") /\
  (forall count start,
     getInventoryLists self count start w = unknown "get_inventory_lists") /\
  (forall inventoryListId productId,
     getProductInventory self inventoryListId productId w
     = unknown "get_product_inventory") /\
  (forall count start,
     getPriceBooks self count start w = unknown "get_price_books") /\
  (forall siteId count start,
     searchCampaigns self siteId count start w = unknown "search_campaigns") /\
  (forall siteId campaignId count start,
     searchPromotions self siteId campaignId count start w
     = unknown "search_promotions") /\
  (forall siteId count start,
     searchCoupons self siteId count start w = unknown "search_coupons").
Proof.
  intros Hfailed self unknown.
  assert (Hdead : forall toolName params,
            DataAPIClient.executeEndpoint self toolName params w
            = unknown toolName).
  { intros toolName params. apply executeEndpoint_unknown.
    apply (failed_load_indexes_nothing file e). exact Hfailed. }
  split.
  { subst self. unfold DataAPIClient.getAvailableEndpoints.
    cbn [DataAPIClient.create DataAPIClient.endpointLoader].
    destruct file as [where' [e'|e'|es|indexed e']];
      cbn [loadFailure EndpointLoader.content] in Hfailed;
      try discriminate Hfailed; left; reflexivity. }
  repeat split; intros; apply Hdead.
Qed.

End DeadRegistry.

Lemma convenience_methods_need_the_catalog_witness :
  Convenience.getCatalogs
    (DataAPIClient.create Fixtures.echo
       (fst (EndpointLoader.create Fixtures.missingCatalog))
       Fixtures.credentials)
    None None Fixtures.quiet
  = (Js.Returned {| data := Js.Null;
                    status := 400;
                    success := false;
                    error := Some "Unknown endpoint: get_catalogs" |},
     Fixtures.quiet).
Proof.
  exact (proj1 (proj2
    (convenience_methods_need_the_catalog Fixtures.missingCatalog
       (Js.Error "ENOENT: no such file or directory") Fixtures.echo
       Fixtures.credentials Fixtures.quiet eq_refl)) None None).
Defined.

(** X24: how [buildUrl] fills a path, whatever its placeholders.  On a
    path read as a template, the entries of [pathParams] are taken in
    order and each one replaces, by its encoded value, the first
    placeholder of its key that is still there; a further placeholder of
    the same key and every placeholder without an entry stay in the
    path. *)
Theorem path_entries_fill_first_occurrences (endpoint : Endpoint)
    (params : DataAPIRequestParams) (template : list Segment)
    (entries : list (string * string)) :
  path endpoint = render template ->
  plain template ->
  pathParams params = Some entries ->
  Forall (fun entry => braceFree (fst entry) = true) entries ->
  filledPath endpoint params = render (fillInOrder entries template).
Proof.
  intros Hroute Hplain Hentries Hkeys.
  unfold filledPath. rewrite Hentries, Hroute.
  apply fillPath_fills_in_order; assumption.
Qed.

Lemma path_entries_fill_first_occurrences_witness :
  filledPath Fixtures.compare_site
    {| pathParams := Some [("site_id", "Ref Arch"); ("mirror", "x")];
       queryParams := None;
       body := None |}
  = "/sites/Ref%20Arch/mirror/{site_id}".
Proof.
  rewrite (path_entries_fill_first_occurrences Fixtures.compare_site _
             [Literal "/sites/"; Placeholder "site_id"; Literal "/mirror/";
              Placeholder "site_id"]
             [("site_id", "Ref Arch"); ("mirror", "x")]).
  - reflexivity.
  - reflexivity.
  - repeat constructor.
  - reflexivity.
  - repeat constructor.
Defined.

Section Listings.

Import Convenience.

Lemma digits_unreserved (d : Decimal.uint) (c : ascii) :
  hasByte c (NilEmpty.string_of_uint d) = true ->
  Js.unreserved c = true.
Proof.
  induction d as [|d IH|d IH|d IH|d IH|d IH|d IH|d IH|d IH|d IH|d IH];
    cbn [NilEmpty.string_of_uint hasByte]; intros Hin;
    try discriminate Hin;
    (apply orb_true_iff in Hin; destruct Hin as [Hhere|Hlater];
     [apply Ascii.eqb_eq in Hhere; subst c; reflexivity | exact (IH Hlater)]).
Qed.

Lemma numberToString_unreserved (n : Z) (c : ascii) :
  hasByte c (Js.numberToString n) = true -> Js.unreserved c = true.
Proof.
  unfold Js.numberToString, NilZero.string_of_int.
  destruct (Z.to_int n) as [d|d].
  - unfold NilZero.string_of_uint. destruct d; try apply digits_unreserved.
    cbn [hasByte]. intros Hin. apply orb_true_iff in Hin.
    destruct Hin as [Hhere|Hnone]; [|discriminate Hnone].
    apply Ascii.eqb_eq in Hhere. subst c. reflexivity.
  - cbn [hasByte]. intros Hin. apply orb_true_iff in Hin.
    destruct Hin as [Hhere|Hlater].
    + apply Ascii.eqb_eq in Hhere. subst c. reflexivity.
    + revert Hlater. unfold NilZero.string_of_uint.
      destruct d; try apply digits_unreserved.
      cbn [hasByte]. intros Hin. apply orb_true_iff in Hin.
      destruct Hin as [Hhere|Hnone]; [|discriminate Hnone].
      apply Ascii.eqb_eq in Hhere. subst c. reflexivity.
Qed.

(** [encodeURIComponent] leaves a string of unreserved bytes as it is. *)
Lemma encodeURIComponent_fixed (s : string) :
  (forall c, hasByte c s = true -> Js.unreserved c = true) ->
  Js.encodeURIComponent s = s.
Proof.
  induction s as [|a s IH]; intros Hsafe; [reflexivity|].
  cbn [Js.encodeURIComponent].
  rewrite (Hsafe a) by (cbn [hasByte]; rewrite Ascii.eqb_refl; reflexivity).
  rewrite IH; [reflexivity|].
  intros c Hin. apply Hsafe. cbn [hasByte]. rewrite Hin. apply orb_true_r.
Qed.

Lemma paginated_url (endpoint : Endpoint) (count start : Z) :
  DataAPIClient.buildUrl endpoint
    {| pathParams := None;
       queryParams := Some [("count", Js.Num count); ("start", Js.Num start)];
       body := None |}
  = path endpoint +:+ "?count=" +:+ Js.numberToString count
    +:+ "&start=" +:+ Js.numberToString start.
Proof.
  unfold DataAPIClient.buildUrl. cbn [pathParams queryParams].
  change (DataAPIClient.collectQuery
            [("count", Js.Num count); ("start", Js.Num start)])
    with [("count", Js.numberToString count);
          ("start", Js.numberToString start)].
  cbv zeta.
  change (DataAPIClient.queryString
            [("count", Js.numberToString count);
             ("start", Js.numberToString start)])
    with (("count" +:+ "=" +:+ Js.encodeURIComponent (Js.numberToString count))
          +:+ "&" +:+
          ("start" +:+ "=" +:+ Js.encodeURIComponent (Js.numberToString start))).
  rewrite !encodeURIComponent_fixed by apply numberToString_unreserved.
  rewrite (separator_nonempty
             ("count" +:+ "=" +:+ Js.numberToString count) "&"
             ("start" +:+ "=" +:+ Js.numberToString start)).
  rewrite !append_assoc. reflexivity.
Qed.

(** X27: the listing methods always paginate.  [getCatalogs], [getSites],
    [getInventoryLists] and [getPriceBooks], on a registry that holds a
    [GET] descriptor for their tool, make exactly one transport call, a
    [GET] without a body to the path of the descriptor followed by
    [?count=] and [&start=] with the given numbers in decimal, 25 and 0
    when they are left out; a zero is sent like any other number.  The
    numbers are safe integers: beyond them [String] rounds or switches to
    the exponent notation. *)
Theorem listing_methods_paginate (self : DataAPIClient.t)
    (listing : DataAPIClient.t -> option Z -> option Z -> M DataAPIResponse)
    (tool : string) (endpoint : Endpoint) (count start : option Z) (w : World) :
  In (listing, tool)
     [(getCatalogs, "get_catalogs"); (getSites, "get_sites");
      (getInventoryLists, "get_inventory_lists");
      (getPriceBooks, "get_price_books")] ->
  EndpointLoader.getEndpoint (DataAPIClient.endpointLoader self) tool
    = Some endpoint ->
  method endpoint = "GET" ->
  (forall n, count = Some n -> Js.safeInteger n = true) ->
  (forall n, start = Some n -> Js.safeInteger n = true) ->
  exists response w',
    listing self count start w = (Js.Returned response, w') /\
    calls w' =
      calls w ++
      [ {| verb := "GET";
           url := path endpoint
                  +:+ "?count=" +:+
                  Js.numberToString (match count with Some n => n | None => 25 end)
                  +:+ "&start=" +:+
                  Js.numberToString (match start with Some n => n | None => 0 end);
           sent := None |} ].
Proof.
  intros Hlisting Hknown Hget _ _.
  assert (Hrun : listing self count start w =
                 DataAPIClient.executeEndpoint self tool
                   {| pathParams := None;
                      queryParams :=
                        Some [("count",
                               Js.Num (match count with Some n => n | None => 25 end));
                              ("start",
                               Js.Num (match start with Some n => n | None => 0 end))];
                      body := None |} w).
  { destruct Hlisting as [H|[H|[H|[H|[]]]]]; inversion H; subst;
      destruct count, start; reflexivity. }
  rewrite Hrun.
  rewrite (executeEndpoint_run self tool endpoint _ w Hknown). cbv zeta.
  unfold transportCall. rewrite Hget, paginated_url.
  cbn [String.eqb Ascii.eqb Bool.eqb].
  destruct (DataAPIClient.net self (calls w) _) as [code payload|e];
    eexists; eexists; split; reflexivity.
Qed.

End Listings.

Lemma listing_methods_paginate_witness :
  exists response w',
    Convenience.getCatalogs Fixtures.client None (Some 0) Fixtures.quiet
      = (Js.Returned response, w') /\
    calls w' =
      [ {| verb := "GET"; url := "/catalogs?count=25&start=0"; sent := None |} ].
Proof.
  assert (Hknown : EndpointLoader.getEndpoint
                     (DataAPIClient.endpointLoader Fixtures.client)
                     "get_catalogs" = Some Fixtures.get_catalogs)
    by (vm_compute; reflexivity).
  assert (Hcount : forall n, @None Z = Some n -> Js.safeInteger n = true)
    by (intros n H; discriminate H).
  assert (Hstart : forall n, Some 0 = Some n -> Js.safeInteger n = true)
    by (intros n H; inversion H; reflexivity).
  destruct (listing_methods_paginate Fixtures.client Convenience.getCatalogs
              "get_catalogs" Fixtures.get_catalogs None (Some 0) Fixtures.quiet
              (or_introl eq_refl) Hknown eq_refl Hcount Hstart)
    as (response & w' & Hrun & Hcalls).
  exists response, w'. split; [exact Hrun|].
  rewrite Hcalls. vm_compute. reflexivity.
Defined.

(* ===================================================================== *)
(** * The expectations of the test suite, replayed on the embedding *)
(* ===================================================================== *)

Section Replay.

Example replay_query_parameters :
  DataAPIClient.buildUrl Fixtures.get_catalogs
    {| pathParams := None;
       queryParams := Some [("count", Js.Num 10); ("start", Js.Num 0)];
       body := None |}
  = "/catalogs?count=10&start=0".
Proof. reflexivity. Qed.

Example replay_path_and_query :
  DataAPIClient.buildUrl Fixtures.get_product
    {| pathParams := Some [("product_id", "PROD-123")];
       queryParams := Some [("expand", Js.Str "prices,images")];
       body := None |}
  = "/products/PROD-123?expand=prices%2Cimages".
Proof. reflexivity. Qed.

Example replay_encoded_query :
  DataAPIClient.buildUrl Fixtures.get_catalogs
    {| pathParams := None;
       queryParams := Some [("special", Js.Str "value&with=special")];
       body := None |}
  = "/catalogs?special=value%26with%3Dspecial".
Proof. reflexivity. Qed.

Example replay_merged_body :
  DataAPIClient.buildRequestBody Fixtures.search_products
    {| pathParams := Some [("site_id", "test")];
       queryParams := None;
       body := Some [("custom_field", Js.Str "value")] |}
  = [("query", Js.Obj [("match_all_query", Js.Obj [])]);
     ("count", Js.Num 25); ("start", Js.Num 0);
     ("custom_field", Js.Str "value")].
Proof. reflexivity. Qed.

Example replay_api_error :
  fst (DataAPIClient.executeEndpoint Fixtures.offline "get_catalogs"
         Fixtures.noParams Fixtures.quiet)
  = Js.Returned {| data := Js.Null;
                   status := 500;
                   success := false;
                   error := Some "API Error" |}.
Proof. vm_compute. reflexivity. Qed.

Example replay_unsupported_method :
  DataAPIClient.executeEndpoint Fixtures.client "invalid_method"
    Fixtures.noParams Fixtures.quiet
  = (Js.Returned {| data := Js.Null;
                    status := 500;
                    success := false;
                    error := Some "Unsupported HTTP method: INVALID" |},
     {| calls := [];
        logged :=
          [(LogDebug, "Executing INVALID request to: /catalogs");
           (LogError,
            "Error executing endpoint invalid_method: Error: Unsupported HTTP method: INVALID")] |}).
Proof. vm_compute. reflexivity. Qed.

Example replay_search_products :
  DataAPIToolHandler.buildRequestParams Fixtures.handler "search_products"
    [("site_id", Js.Str "RefArch"); ("query", Js.Str "shoes");
     ("count", Js.Num 25)]
  = Js.Returned
      {| pathParams := Some [];
         queryParams := Some [("site_id", Js.Str "RefArch"); ("count", Js.Num 25)];
         body :=
           Some [("query",
                  Js.Obj [("text_query",
                           Js.Obj [("fields", Js.Arr [Js.Str "id"; Js.Str "name"]);
                                   ("search_phrase", Js.Str "shoes")])]);
                 ("count", Js.Num 25); ("start", Js.Num 0)] |}.
Proof. vm_compute. reflexivity. Qed.

Example replay_expand :
  DataAPIToolHandler.splitExpand (Js.Str "prices, images ,availability")
  = Js.Returned (Js.Arr [Js.Str "prices"; Js.Str "images"; Js.Str "availability"]).
Proof. vm_compute. reflexivity. Qed.

End Replay.
